(** * GradleFileDownloader: the repository-resolution and artifact-fetch core

    A shallow embedding of [gradle_downloader/core.py], [utils.py],
    [decompiler.py], [config.py] and of the tools of [mcp_server.py] and
    [cli.py] built on them.  Python strings are modelled as [string] (code
    points below 256); the network, the file system and the external
    decompiler are modelled as oracles whose answers are the outcomes the
    code distinguishes; effects are recorded as a trace of events in call
    order.  An exception is a value of [exn], which stands for the
    subclasses of Python's [Exception]. *)

From Stdlib Require Import String Ascii List ZArith Bool Arith Lia.
From Stdlib Require Import Sorted Permutation.
Import ListNotations.
Open Scope string_scope.
Open Scope nat_scope.

(** ** Python [str] primitives used by the code *)

Module PyStr.

(** [s.count(c)] for a one-character [c]. *)
Fixpoint count (c : ascii) (s : string) : nat :=
  match s with
  | EmptyString => 0
  | String x s' => (if Ascii.eqb x c then 1 else 0) + count c s'
  end.

(** [c in s] for a one-character [c]. *)
Fixpoint contains (c : ascii) (s : string) : bool :=
  match s with
  | EmptyString => false
  | String x s' => Ascii.eqb x c || contains c s'
  end.

(** [s.split(c)] for a one-character separator: never the empty list. *)
Fixpoint split (c : ascii) (s : string) : list string :=
  match s with
  | EmptyString => [EmptyString]
  | String x s' =>
      if Ascii.eqb x c then EmptyString :: split c s'
      else match split c s' with
           | piece :: rest => String x piece :: rest
           | [] => [String x EmptyString]
           end
  end.

(** [sep.join(l)]. *)
Definition join (sep : string) (l : list string) : string := String.concat sep l.

(** [s.replace(c, by)] for a one-character [c]. *)
Fixpoint replace (c : ascii) (by_ : string) (s : string) : string :=
  match s with
  | EmptyString => EmptyString
  | String x s' =>
      if Ascii.eqb x c then by_ ++ replace c by_ s'
      else String x (replace c by_ s')
  end.

(** Code points below 256 for which [str.isspace] holds; these are what
    [str.strip()] removes. *)
Definition is_space (x : ascii) : bool :=
  let n := nat_of_ascii x in
  ((9 <=? n) && (n <=? 13)) || ((28 <=? n) && (n <=? 32))
  || (n =? 133) || (n =? 160).

Fixpoint lstrip (s : string) : string :=
  match s with
  | EmptyString => EmptyString
  | String x s' => if is_space x then lstrip s' else s
  end.

Fixpoint rstrip (s : string) : string :=
  match s with
  | EmptyString => EmptyString
  | String x s' =>
      match rstrip s' with
      | EmptyString => if is_space x then EmptyString else String x EmptyString
      | r => String x r
      end
  end.

Definition strip (s : string) : string := rstrip (lstrip s).

(** Blank strings: every character is white space. *)
Fixpoint all_space (s : string) : bool :=
  match s with
  | EmptyString => true
  | String x s' => is_space x && all_space s'
  end.

(** [s != ''] as a boolean. *)
Definition nonempty (s : string) : bool :=
  match s with EmptyString => false | String _ _ => true end.

(** [l[-1]]: [None] stands for the [IndexError] of an empty list. *)
Fixpoint last_item (l : list string) : option string :=
  match l with
  | [] => None
  | [x] => Some x
  | _ :: l' => last_item l'
  end.

(** [s.endswith(suffix)]. *)
Definition endswith (s suffix : string) : bool :=
  let n := String.length s in
  let m := String.length suffix in
  (m <=? n) && String.eqb (substring (n - m) m s) suffix.

End PyStr.

(** Every character of [s] satisfies [p]. *)
Fixpoint all_chars (p : ascii -> bool) (s : string) : bool :=
  match s with
  | EmptyString => true
  | String x s' => p x && all_chars p s'
  end.

(** The string with [f] applied to each character. *)
Fixpoint map_chars (f : ascii -> ascii) (s : string) : string :=
  match s with
  | EmptyString => EmptyString
  | String x s' => String (f x) (map_chars f s')
  end.

(** ** Exceptions and results *)

Inductive network_failure : Type := Timeout | DNSFailure | ConnectionRefused.

Inductive exn : Type :=
| ValueError (msg : string)            (* [raise ValueError(msg)] and [int()] of a bad header *)
| UnpackError                          (* the ValueError of a tuple unpacking of the wrong arity *)
| IndexError                           (* [l[-1]] on an empty list *)
| RequestException (f : network_failure)
| HTTPError (status_code : Z)          (* [raise_for_status] *)
| ParseError                           (* [ET.fromstring] on a malformed document *)
| OSError                              (* a file-system or process failure other than the two below *)
| FileNotFoundError
| TimeoutExpired
| CallbackError                        (* the caller's callback raised *).

Inductive result (A : Type) : Type :=
| Ret (a : A)
| Raise (e : exn).
Arguments Ret {A} a.
Arguments Raise {A} e.

Definition bind {A B} (m : result A) (k : A -> result B) : result B :=
  match m with
  | Ret a => k a
  | Raise e => Raise e
  end.

Notation "x <- m ;; k" := (bind m (fun x => k))
  (at level 61, m at next level, right associativity).

(** ** [RepositoryManager.parse_dependency] (core.py) *)

Definition Coordinate : Type := (string * string * string)%type.

Definition msg_no_dot : string := "Invalid dependency format".
Definition msg_bad_colons : string :=
  "Invalid dependency format. Use 'group:artifact:version' or 'group.artifact:version'".

Definition parse_dependency (dependency : string) : result Coordinate :=
  if PyStr.count ":" dependency =? 2 then
    match PyStr.split ":" dependency with
    | [group; artifact; version] => Ret (group, artifact, version)
    | _ => Raise UnpackError
    end
  else if PyStr.count ":" dependency =? 1 then
    match PyStr.split ":" dependency with
    | [group_artifact; version] =>
        if PyStr.contains "." group_artifact then
          let parts := PyStr.split "." group_artifact in
          match PyStr.last_item parts with
          | Some artifact =>
              Ret (PyStr.join "." (removelast parts), artifact, version)
          | None => Raise IndexError
          end
        else Raise (ValueError msg_no_dot)
    | _ => Raise UnpackError
    end
  else Raise (ValueError msg_bad_colons).

(** ** [validate_dependency_format] (utils.py) *)

Definition validate_dependency_format (dependency : string) : bool :=
  if negb (PyStr.nonempty dependency) then false
  else
    let parts := PyStr.split ":" dependency in
    if length parts =? 2 then
      match parts with
      | [group_artifact; version] =>
          PyStr.contains "." group_artifact
          && PyStr.nonempty (PyStr.strip version)
      | _ => false
      end
    else if length parts =? 3 then
      match parts with
      | [group; artifact; version] =>
          forallb (fun part => PyStr.nonempty (PyStr.strip part))
                  [group; artifact; version]
      | _ => false
      end
    else false.

(** ** Library functions the code calls

    [urllib.parse.urljoin] and the [os.path] functions are not part of the
    repository and depend on the platform: the code is verified for every
    implementation of them.  [urljoin] is partial: it raises [ValueError] on
    a URL whose host part it rejects. *)

Class Platform : Type := {
  urljoin : string -> string -> result string;
  os_sep : string;
  os_path_join : string -> list string -> string;
  os_path_dirname : string -> string;
  os_path_basename : string -> string;
  os_path_expanduser : string -> string
}.

(** ** The environment: network and file system *)

Inductive head_outcome : Type :=
| HeadResponse (status_code : Z)
| HeadRequestException (f : network_failure).

(** The response of a streamed GET: [content_length] is [None] when the
    header is absent, [Some None] when [int()] rejects it; [chunks] is what
    [iter_content] yields; [stream_error] says that the stream or the write
    fails after those chunks. *)
Record response : Type := {
  status_code : Z;
  content_length : option (option Z);
  chunks : list string;
  stream_error : bool
}.

Inductive get_outcome : Type :=
| GetResponse (r : response)
| GetRequestException (f : network_failure).

(** A parsed XML element, as [xml.etree.ElementTree] presents it. *)
#[warnings="-register-all"]
Inductive element : Type :=
| Element (tag : string) (text : option string) (children : list element).

(** The response to the GET of a metadata document: [document] is [None]
    when [ET.fromstring] raises on the content. *)
Inductive metadata_outcome : Type :=
| MetaResponse (status_code : Z) (document : option element)
| MetaRequestException (f : network_failure).

Record World : Type := {
  http_head : string -> head_outcome;           (* session.head(url, ...) *)
  http_get : string -> get_outcome;             (* session.get(url, stream=True, ...) *)
  http_get_metadata : string -> metadata_outcome;  (* session.get(metadata_url, timeout=10), content parsed *)
  fs_makedirs : string -> bool;                 (* os.makedirs succeeds *)
  fs_open_wb : string -> bool                   (* open(path, 'wb') succeeds *)
}.

Inductive log_level : Type := INFO | WARNING | ERROR.

Inductive event : Type :=
| EvHead (url : string)
| EvGet (url : string)
| EvMakedirs (path : string)
| EvOpen (path : string)
| EvWrite (path : string) (chunk : string)
| EvCallback (downloaded total : Z)
| EvLog (level : log_level) (msg : string).

(** ** Effects: a result together with the events emitted, in order *)

Definition io (A : Type) : Type := (result A * list event)%type.

Definition io_ret {A} (a : A) : io A := (Ret a, []).
Definition io_raise {A} (e : exn) : io A := (Raise e, []).
Definition emit (e : event) : io unit := (Ret tt, [e]).

Definition io_bind {A B} (m : io A) (k : A -> io B) : io B :=
  match m with
  | (Ret a, t) => let (r, t') := k a in (r, (t ++ t')%list)
  | (Raise e, t) => (Raise e, t)
  end.

(** [try: m except Exception as e: h e]. *)
Definition try_except {A} (m : io A) (h : exn -> io A) : io A :=
  match m with
  | (Ret a, t) => (Ret a, t)
  | (Raise e, t) => let (r, t') := h e in (r, (t ++ t')%list)
  end.

Declare Scope io_scope.
Delimit Scope io_scope with io.
Notation "x <~ m ;; k" := (io_bind m (fun x => k))
  (at level 61, m at next level, right associativity) : io_scope.
Notation "m ;;; k" := (io_bind m (fun _ => k))
  (at level 61, right associativity) : io_scope.

Definition log (level : log_level) (msg : string) : io unit := emit (EvLog level msg).

(** A step that has no event of the trace. *)
Definition lift {A} (r : result A) : io A := (r, []).

(** A progress callback: [false] when the call raises an exception. *)
Definition callback_fn : Type := Z -> Z -> bool.

(** ** [RepositoryManager] (core.py) *)

Section Core.
Context `{P : Platform}.
Variable w : World.
Open Scope io_scope.

(** [self.session.head(url, timeout=10, allow_redirects=True)]. *)
Definition session_head (url : string) : io Z :=
  emit (EvHead url) ;;;
  match http_head w url with
  | HeadResponse code => io_ret code
  | HeadRequestException f => io_raise (RequestException f)
  end.

(** [self.session.get(url, stream=True, timeout=30)]. *)
Definition session_get (url : string) : io response :=
  emit (EvGet url) ;;;
  match http_get w url with
  | GetResponse r => io_ret r
  | GetRequestException f => io_raise (RequestException f)
  end.

(** [response.raise_for_status()]. *)
Definition raise_for_status (code : Z) : io unit :=
  if ((400 <=? code) && (code <? 600))%Z then io_raise (HTTPError code)
  else io_ret tt.

(** [int(response.headers.get('content-length', 0))]. *)
Definition int_content_length (r : response) : io Z :=
  match content_length r with
  | None => io_ret 0%Z
  | Some (Some n) => io_ret n
  | Some None => io_raise (ValueError "invalid literal for int()")
  end.

Definition os_makedirs (path : string) : io unit :=
  emit (EvMakedirs path) ;;;
  if fs_makedirs w path then io_ret tt else io_raise OSError.

Definition open_wb (path : string) : io unit :=
  emit (EvOpen path) ;;;
  if fs_open_wb w path then io_ret tt else io_raise OSError.

Definition get_metadata_url (repo_url group artifact : string) : result string :=
  let group_path := PyStr.replace "." "/" group in
  urljoin repo_url (group_path ++ "/" ++ artifact ++ "/maven-metadata.xml").

Definition get_artifact_url (repo_url group artifact version : string)
    (classifier : option string) (extension : string) : result string :=
  let group_path := PyStr.replace "." "/" group in
  let filename := artifact ++ "-" ++ version in
  let filename :=
    match classifier with
    | Some c => if PyStr.nonempty c then filename ++ "-" ++ c else filename
    | None => filename
    end in
  let filename := filename ++ "." ++ extension in
  urljoin repo_url (group_path ++ "/" ++ artifact ++ "/" ++ version ++ "/" ++ filename).

Definition check_artifact_exists (url : string) : io bool :=
  try_except
    (code <~ session_head url ;;
     io_ret ((200 <=? code) && (code <? 400))%Z)
    (fun e => match e with
              | RequestException _ => io_ret false
              | _ => io_raise e
              end).

(** The body of the [for chunk in response.iter_content(...)] loop. *)
Fixpoint write_chunks (output_path : string) (callback : option callback_fn)
    (total_size : Z) (cs : list string) (downloaded : Z) : io unit :=
  match cs with
  | [] => io_ret tt
  | chunk :: rest =>
      if PyStr.nonempty chunk then
        emit (EvWrite output_path chunk) ;;;
        let downloaded := (downloaded + Z.of_nat (String.length chunk))%Z in
        match callback with
        | Some cb =>
            emit (EvCallback downloaded total_size) ;;;
            if cb downloaded total_size then io_ret tt else io_raise CallbackError
        | None => io_ret tt
        end ;;;
        write_chunks output_path callback total_size rest downloaded
      else write_chunks output_path callback total_size rest downloaded
  end.

(** The log messages carry the text of the format string and its arguments;
    the text of a caught exception is left out. *)
Definition download_file (url output_path : string) (callback : option callback_fn)
    : io bool :=
  try_except
    (response <~ session_get url ;;
     raise_for_status (status_code response) ;;;
     total_size <~ int_content_length response ;;
     os_makedirs (os_path_dirname output_path) ;;;
     open_wb output_path ;;;
     write_chunks output_path callback total_size (chunks response) 0%Z ;;;
     (if stream_error response then io_raise (RequestException ConnectionRefused)
      else io_ret tt) ;;;
     log INFO ("Downloaded: " ++ url ++ " -> " ++ output_path) ;;;
     io_ret true)
    (fun e =>
     log ERROR ("Failed to download " ++ url) ;;;
     io_ret false).

(** The [for repo_url in self.repositories] loop of [download_sources];
    the URL is built outside any [try]. *)
Fixpoint download_sources_loop (repositories : list string)
    (group artifact version output_dir : string) (callback : option callback_fn)
    : io (option string) :=
  match repositories with
  | [] => io_ret None
  | repo_url :: rest =>
      sources_url <~
        lift (get_artifact_url repo_url group artifact version (Some "sources") "jar") ;;
      found <~ check_artifact_exists sources_url ;;
      if found then
        let filename := artifact ++ "-" ++ version ++ "-sources.jar" in
        let output_path :=
          os_path_join output_dir
            [PyStr.replace "." os_sep group; artifact; version; filename] in
        ok <~ download_file sources_url output_path callback ;;
        if ok then io_ret (Some output_path)
        else download_sources_loop rest group artifact version output_dir callback
      else download_sources_loop rest group artifact version output_dir callback
  end.

(** [try: ... = self.parse_dependency(dependency) except ValueError]. *)
Definition parse_or_log (dependency : string) : io (option Coordinate) :=
  match parse_dependency dependency with
  | Ret c => io_ret (Some c)
  | Raise (ValueError msg) =>
      log ERROR ("Invalid dependency format: " ++ msg) ;;; io_ret None
  | Raise UnpackError =>
      log ERROR "Invalid dependency format: unpack" ;;; io_ret None
  | Raise e => io_raise e
  end.

Definition download_sources (repositories : list string)
    (dependency output_dir : string) (callback : option callback_fn)
    : io (option string) :=
  parsed <~ parse_or_log dependency ;;
  match parsed with
  | None => io_ret None
  | Some (group, artifact, version) =>
      r <~ download_sources_loop repositories group artifact version
             output_dir callback ;;
      match r with
      | Some output_path => io_ret (Some output_path)
      | None =>
          log WARNING ("Sources JAR not found for " ++ dependency) ;;;
          io_ret None
      end
  end.

(** The [for repo_url in self.repositories] loop of [download_binary]. *)
Fixpoint download_binary_loop (repositories : list string)
    (group artifact version output_dir : string) (callback : option callback_fn)
    : io (option string) :=
  match repositories with
  | [] => io_ret None
  | repo_url :: rest =>
      binary_url <~
        lift (get_artifact_url repo_url group artifact version None "jar") ;;
      found <~ check_artifact_exists binary_url ;;
      if found then
        let filename := artifact ++ "-" ++ version ++ ".jar" in
        let output_path :=
          os_path_join output_dir
            [PyStr.replace "." os_sep group; artifact; version; filename] in
        ok <~ download_file binary_url output_path callback ;;
        if ok then io_ret (Some output_path)
        else download_binary_loop rest group artifact version output_dir callback
      else download_binary_loop rest group artifact version output_dir callback
  end.

Definition download_binary (repositories : list string)
    (dependency output_dir : string) (callback : option callback_fn)
    : io (option string) :=
  parsed <~ parse_or_log dependency ;;
  match parsed with
  | None => io_ret None
  | Some (group, artifact, version) =>
      r <~ download_binary_loop repositories group artifact version
             output_dir callback ;;
      match r with
      | Some output_path => io_ret (Some output_path)
      | None =>
          log WARNING ("Binary JAR not found for " ++ dependency) ;;;
          io_ret None
      end
  end.

End Core.

(** ** Version listing: [find_available_versions] (core.py) *)

Definition tag_of (e : element) : string := let (t, _, _) := e in t.
Definition text_of (e : element) : option string := let (_, x, _) := e in x.
Definition children_of (e : element) : list element := let (_, _, c) := e in c.

(** [e.find(tag)]: the first direct child with that tag. *)
Definition find (tag : string) (e : element) : option element :=
  List.find (fun c => String.eqb (tag_of c) tag) (children_of e).

(** [e.findall(tag)]: the direct children with that tag, in document order. *)
Definition findall (tag : string) (e : element) : list element :=
  List.filter (fun c => String.eqb (tag_of c) tag) (children_of e).

(** [x in versions]. *)
Definition in_list (x : string) (l : list string) : bool :=
  existsb (String.eqb x) l.

(** The innermost loop: [if version.text and version.text not in versions:
    versions.append(version.text)]. *)
Fixpoint append_versions (elems : list element) (versions : list string)
    : list string :=
  match elems with
  | [] => versions
  | version :: rest =>
      match text_of version with
      | Some t =>
          if PyStr.nonempty t && negb (in_list t versions)
          then append_versions rest (versions ++ [t])%list
          else append_versions rest versions
      | None => append_versions rest versions
      end
  end.

(** The version elements of a metadata document, following
    [versioning/versions/version]. *)
Definition version_elements (root : element) : list element :=
  match find "versioning" root with
  | Some versioning =>
      match find "versions" versioning with
      | Some versions_elem => findall "version" versions_elem
      | None => []
      end
  | None => []
  end.

(** [sorted(l, reverse=True)] on strings: descending code-point order. *)
Fixpoint insert_desc (x : string) (l : list string) : list string :=
  match l with
  | [] => [x]
  | y :: l' => if String.leb y x then x :: l else y :: insert_desc x l'
  end.

Definition sorted_reverse (l : list string) : list string :=
  fold_right insert_desc [] l.

Section Versions.
Context `{P : Platform}.
Variable w : World.
Open Scope io_scope.

(** [self.session.get(metadata_url, timeout=10)]. *)
Definition session_get_metadata (url : string) : io (Z * option element) :=
  emit (EvGet url) ;;;
  match http_get_metadata w url with
  | MetaResponse code doc => io_ret (code, doc)
  | MetaRequestException f => io_raise (RequestException f)
  end.

(** [ET.fromstring(response.content)]. *)
Definition fromstring (doc : option element) : io element :=
  match doc with
  | Some root => io_ret root
  | None => io_raise ParseError
  end.

(** The outer loop, threading the list [versions]. *)
Fixpoint find_versions_loop (repositories : list string) (group artifact : string)
    (versions : list string) : io (list string) :=
  match repositories with
  | [] => io_ret versions
  | repo_url :: rest =>
      versions' <~
        try_except
          (metadata_url <~ lift (get_metadata_url repo_url group artifact) ;;
           response <~ session_get_metadata metadata_url ;;
           if (fst response =? 200)%Z then
             root <~ fromstring (snd response) ;;
             io_ret (append_versions (version_elements root) versions)
           else io_ret versions)
          (fun e =>
           log WARNING ("Failed to get versions from " ++ repo_url) ;;;
           io_ret versions) ;;
      find_versions_loop rest group artifact versions'
  end.

Definition find_available_versions (repositories : list string)
    (group artifact : string) : io (list string) :=
  versions <~ find_versions_loop repositories group artifact [] ;;
  io_ret (sorted_reverse versions).

End Versions.

(** The numeric reading of a dotted version, used to say which of two
    versions is newer: each dot-separated segment made of decimal digits
    only, as a number. *)
Definition digit_value (x : ascii) : option nat :=
  let n := nat_of_ascii x in
  if (48 <=? n) && (n <=? 57) then Some (n - 48) else None.

Fixpoint decimal_value (s : string) (acc : nat) : option nat :=
  match s with
  | EmptyString => Some acc
  | String x s' =>
      match digit_value x with
      | Some d => decimal_value s' (10 * acc + d)
      | None => None
      end
  end.

Fixpoint numeric_segments (l : list string) : option (list nat) :=
  match l with
  | [] => Some []
  | s :: l' =>
      match decimal_value s 0, numeric_segments l' with
      | Some n, Some ns => Some (n :: ns)
      | _, _ => None
      end
  end.

Definition version_numbers (v : string) : option (list nat) :=
  numeric_segments (PyStr.split "." v).

Fixpoint numbers_ltb (a b : list nat) : bool :=
  match a, b with
  | [], [] => false
  | [], _ :: _ => true
  | _ :: _, [] => false
  | x :: a', y :: b' => (x <? y) || ((x =? y) && numbers_ltb a' b')
  end.

(** [older a b]: both are dotted numbers and [a] is the smaller one. *)
Definition older (a b : string) : bool :=
  match version_numbers a, version_numbers b with
  | Some x, Some y => numbers_ltb x y
  | _, _ => false
  end.

(** ** [JavaDecompiler] (decompiler.py) *)

(** What [subprocess.run] does: it returns a completed process, or raises. *)
Inductive subprocess_outcome : Type :=
| Completed (returncode : Z)
| RunRaises (e : exn).

(** The environment of the decompiler: each field is the outcome of one
    operation of the code that can fail. *)
Record DecompilerEnv : Type := {
  path_exists : string -> bool;                (* os.path.exists *)
  makedirs : string -> result unit;            (* os.makedirs(..., exist_ok=True) *)
  fetch_cfr : string -> result unit;           (* the GET of CFR_DOWNLOAD_URL written to the path *)
  java_version : subprocess_outcome;           (* subprocess.run(['java', '-version'], timeout=10) *)
  run_cfr : list string -> subprocess_outcome; (* subprocess.run(cmd, timeout=300) *)
  walk : string -> result (list string);       (* the files under a directory, relative to it *)
  zip_write : string -> list string -> result unit;  (* the archive written with these members *)
  mkdtemp : result string;                     (* tempfile.TemporaryDirectory(): the directory made *)
  cleanup : string -> result unit              (* the removal of that directory when the block is left *)
}.

(** A decompiler callback: [false] when the call raises. *)
Definition decompile_callback : Type := Z -> Z -> string -> bool.

Record JavaDecompiler : Type := { cfr_path : string }.

(** [try: m except Exception: h]. *)
Definition catch {A} (m : result A) (h : exn -> result A) : result A :=
  match m with
  | Ret a => Ret a
  | Raise e => h e
  end.

Section Decompiler.
Context `{P : Platform}.
Variable env : DecompilerEnv.

Definition _ensure_cfr_available : result string :=
  let cfr_dir := os_path_join (os_path_expanduser "~") [".gradle_downloader"] in
  let cfr_path := os_path_join cfr_dir ["cfr.jar"] in
  if path_exists env cfr_path then Ret cfr_path
  else
    _ <- makedirs env cfr_dir ;;
    catch (_ <- fetch_cfr env cfr_path ;; Ret cfr_path)
          (fun e => Raise e).

(** [JavaDecompiler(cfr_path)]: the constructor. *)
Definition JavaDecompiler_init (cfr_path : option string) : result JavaDecompiler :=
  match cfr_path with
  | Some p =>
      if PyStr.nonempty p then Ret {| cfr_path := p |}
      else p' <- _ensure_cfr_available ;; Ret {| cfr_path := p' |}
  | None => p' <- _ensure_cfr_available ;; Ret {| cfr_path := p' |}
  end.

Definition check_java_available : result bool :=
  match java_version env with
  | Completed returncode => Ret (returncode =? 0)%Z
  | RunRaises TimeoutExpired => Ret false
  | RunRaises FileNotFoundError => Ret false
  | RunRaises e => Raise e
  end.

Definition call_back (callback : option decompile_callback)
    (current total : Z) (message : string) : result unit :=
  match callback with
  | Some cb => if cb current total message then Ret tt else Raise CallbackError
  | None => Ret tt
  end.

(** The command line [cmd] of [decompile_jar]. *)
Definition cfr_command (self : JavaDecompiler) (jar_path output_dir : string)
    : list string :=
  ["java"; "-jar"; cfr_path self; jar_path;
   "--outputdir"; output_dir;
   "--silent"; "true";
   "--recover"; "true";
   "--allowcorrecting"; "true";
   "--caseinsensitivefs"; "true"].

Definition decompile_jar (self : JavaDecompiler) (jar_path output_dir : string)
    (callback : option decompile_callback) : result bool :=
  if negb (path_exists env jar_path) then Ret false
  else
    java <- check_java_available ;;
    if negb java then Ret false
    else
      catch
        (_ <- makedirs env output_dir ;;
         let cmd := cfr_command self jar_path output_dir in
         _ <- call_back callback 0%Z 100%Z "Starting decompilation..." ;;
         match run_cfr env cmd with
         | Completed returncode =>
             if (returncode =? 0)%Z then
               _ <- call_back callback 100%Z 100%Z "Decompilation completed" ;;
               Ret true
             else Ret false
         | RunRaises e => Raise e
         end)
        (fun e => Ret false).

Definition create_sources_jar (decompiled_dir output_jar_path : string)
    : result bool :=
  catch
    (_ <- makedirs env (os_path_dirname output_jar_path) ;;
     files <- walk env decompiled_dir ;;
     let members := filter (fun file => PyStr.endswith file ".java") files in
     _ <- zip_write env output_jar_path members ;;
     Ret true)
    (fun e => Ret false).

(** [jar_name[:-4]]. *)
Definition drop_last4 (s : string) : string :=
  substring 0 (String.length s - 4) s.

(** [with tempfile.TemporaryDirectory() as temp_dir: body]: the directory
    is made, which can fail, and it is removed when the block is left, by a
    return or by an exception; a failure of the removal replaces the outcome
    of the block. *)
Definition with_temporary_directory {A} (body : string -> result A) : result A :=
  temp_dir <- mkdtemp env ;;
  match body temp_dir with
  | Ret a => _ <- cleanup env temp_dir ;; Ret a
  | Raise e => _ <- cleanup env temp_dir ;; Raise e
  end.

Definition decompile_and_package (self : JavaDecompiler)
    (jar_path output_dir : string) (callback : option decompile_callback)
    : result (option string) :=
  with_temporary_directory (fun temp_dir =>
    let decompiled_dir := os_path_join temp_dir ["decompiled"] in
    ok <- decompile_jar self jar_path decompiled_dir callback ;;
    if negb ok then Ret None
    else
      let jar_name := os_path_basename jar_path in
      let jar_name :=
        if PyStr.endswith jar_name ".jar" then drop_last4 jar_name else jar_name in
      let sources_jar_name := jar_name ++ "-sources.jar" in
      let sources_jar_path := os_path_join output_dir [sources_jar_name] in
      packed <- create_sources_jar decompiled_dir sources_jar_path ;;
      if packed then Ret (Some sources_jar_path) else Ret None).

(** What the front ends do: [JavaDecompiler().decompile_and_package(...)]. *)
Definition decompilation_fallback (jar_path output_dir : string)
    (callback : option decompile_callback) : result (option string) :=
  decompiler <- JavaDecompiler_init None ;;
  decompile_and_package decompiler jar_path output_dir callback.

End Decompiler.

(** ** [urllib.parse.urljoin] and [ipaddress] (CPython 3.11)

    The library functions behind [urljoin], for strings of code points below
    256.  [_checknetloc] is left out: it only looks at the NFKC form of a
    non-ASCII host, which for these code points never holds one of the
    characters it rejects.  Of the message of a [ValueError] only the fixed
    text is kept. *)

Module Urllib.

Definition uses_relative : list string :=
  [""; "ftp"; "http"; "gopher"; "nntp"; "imap"; "wais"; "file"; "https";
   "shttp"; "mms"; "prospero"; "rtsp"; "rtspu"; "sftp"; "svn"; "svn+ssh";
   "ws"; "wss"].

Definition uses_netloc : list string :=
  [""; "ftp"; "http"; "gopher"; "nntp"; "telnet"; "imap"; "wais"; "file";
   "mms"; "https"; "shttp"; "snews"; "prospero"; "rtsp"; "rtspu"; "rsync";
   "svn"; "svn+ssh"; "sftp"; "nfs"; "git"; "git+ssh"; "ws"; "wss"].

Definition uses_params : list string :=
  [""; "ftp"; "hdl"; "prospero"; "http"; "imap"; "https"; "shttp"; "rtsp";
   "rtspu"; "sip"; "sips"; "mms"; "sftp"; "tel"].

Definition between (lo hi : nat) (x : ascii) : bool :=
  (lo <=? nat_of_ascii x) && (nat_of_ascii x <=? hi).

Definition is_ascii_alpha (x : ascii) : bool := between 65 90 x || between 97 122 x.
Definition is_ascii_digit (x : ascii) : bool := between 48 57 x.
Definition is_hex_digit (x : ascii) : bool :=
  is_ascii_digit x || between 65 70 x || between 97 102 x.

(** [c in scheme_chars]. *)
Definition scheme_char (x : ascii) : bool :=
  is_ascii_alpha x || is_ascii_digit x
  || Ascii.eqb x "+" || Ascii.eqb x "-" || Ascii.eqb x ".".

(** [str.lower] on the characters of a scheme. *)
Definition lower_char (x : ascii) : ascii :=
  if between 65 90 x then ascii_of_nat (nat_of_ascii x + 32) else x.

(** [c in _WHATWG_C0_CONTROL_OR_SPACE]. *)
Definition is_c0_or_space (x : ascii) : bool := nat_of_ascii x <=? 32.

Fixpoint lstrip_c0 (s : string) : string :=
  match s with
  | EmptyString => EmptyString
  | String x s' => if is_c0_or_space x then lstrip_c0 s' else s
  end.

Fixpoint rstrip_c0 (s : string) : string :=
  match s with
  | EmptyString => EmptyString
  | String x s' =>
      match rstrip_c0 s' with
      | EmptyString => if is_c0_or_space x then EmptyString else String x EmptyString
      | r => String x r
      end
  end.

(** [for b in _UNSAFE_URL_BYTES_TO_REMOVE: url = url.replace(b, "")]. *)
Definition remove_unsafe (url : string) : string :=
  fold_left (fun url b => PyStr.replace b "" url) ["009"; "013"; "010"]%char url.

(** [s.partition(c)]: the text before and after the first [c]; [None] when
    there is no [c]. *)
Fixpoint partition (c : ascii) (s : string) : option (string * string) :=
  match s with
  | EmptyString => None
  | String x s' =>
      if Ascii.eqb x c then Some (EmptyString, s')
      else match partition c s' with
           | Some (before, after) => Some (String x before, after)
           | None => None
           end
  end.

(** [s.rpartition(c)]: the text before and after the last [c]. *)
Fixpoint rpartition (c : ascii) (s : string) : option (string * string) :=
  match s with
  | EmptyString => None
  | String x s' =>
      match rpartition c s' with
      | Some (before, after) => Some (String x before, after)
      | None => if Ascii.eqb x c then Some (EmptyString, s') else None
      end
  end.

(** [s[n:]]. *)
Fixpoint skip (n : nat) (s : string) : string :=
  match n, s with
  | S n', String _ s' => skip n' s'
  | _, _ => s
  end.

(** [s[:1] == '/'] and [s[:2] == '//']. *)
Definition starts_with_slash (s : string) : bool :=
  match s with
  | String x _ => Ascii.eqb x "/"
  | EmptyString => false
  end.

Definition starts_with_two_slashes (s : string) : bool :=
  match s with
  | String x (String y _) => Ascii.eqb x "/" && Ascii.eqb y "/"
  | _ => false
  end.

(** The first character of [s] satisfies [p]. *)
Definition first_is (p : ascii -> bool) (s : string) : bool :=
  match s with
  | String x _ => p x
  | EmptyString => false
  end.

(** [s[:-1]]. *)
Fixpoint drop_last (s : string) : string :=
  match s with
  | EmptyString => EmptyString
  | String x EmptyString => EmptyString
  | String x s' => String x (drop_last s')
  end.

(** *** [ipaddress]: which strings are addresses *)

Definition _parse_octet (octet_str : string) : bool :=
  if negb (PyStr.nonempty octet_str) then false
  else if negb (all_chars is_ascii_digit octet_str) then false
  else if 3 <? String.length octet_str then false
  else if negb (String.eqb octet_str "0") && first_is (Ascii.eqb "0") octet_str
  then false
  else match decimal_value octet_str 0 with
       | Some octet_int => octet_int <=? 255
       | None => false
       end.

(** [IPv4Address(address)] does not raise. *)
Definition IPv4Address (address : string) : bool :=
  negb (PyStr.contains "/" address)
  && PyStr.nonempty address
  && (length (PyStr.split "." address) =? 4)
  && forallb _parse_octet (PyStr.split "." address).

Definition _parse_hextet (hextet_str : string) : bool :=
  all_chars is_hex_digit hextet_str
  && (String.length hextet_str <=? 4)
  && PyStr.nonempty hextet_str.

(** The indices, counted from [i], of the empty strings of a list. *)
Fixpoint empty_indices (l : list string) (i : nat) : list nat :=
  match l with
  | [] => []
  | x :: l' =>
      if PyStr.nonempty x then empty_indices l' (S i)
      else i :: empty_indices l' (S i)
  end.

(** [_ip_int_from_string] of an IPv6 address does not raise.  The two parts
    that stand for an IPv4 suffix are hexadecimal numbers whatever the
    suffix is; only that matters here. *)
Definition _ip_int_from_string (ip_str : string) : bool :=
  PyStr.nonempty ip_str &&
  let parts := PyStr.split ":" ip_str in
  (3 <=? length parts) &&
  match (if PyStr.contains "." (last parts "")
         then if IPv4Address (last parts "")
              then Some (removelast parts ++ ["0"; "0"])%list
              else None
         else Some parts) with
  | None => false
  | Some parts =>
      (length parts <=? 9) &&
      match empty_indices (removelast (tl parts)) 1 with
      | [] =>
          (length parts =? 8)
          && PyStr.nonempty (hd "" parts) && PyStr.nonempty (last parts "")
          && forallb _parse_hextet parts
      | [skip_index] =>
          let parts_hi := skip_index in
          let parts_lo := length parts - skip_index - 1 in
          let head_ok := PyStr.nonempty (hd "" parts) || (parts_hi - 1 =? 0) in
          let parts_hi := if PyStr.nonempty (hd "" parts) then parts_hi else parts_hi - 1 in
          let tail_ok := PyStr.nonempty (last parts "") || (parts_lo - 1 =? 0) in
          let parts_lo := if PyStr.nonempty (last parts "") then parts_lo else parts_lo - 1 in
          head_ok && tail_ok
          && (parts_hi + parts_lo <=? 7)
          && forallb _parse_hextet (firstn parts_hi parts)
          && forallb _parse_hextet (skipn (length parts - parts_lo) parts)
      | _ => false
      end
  end.

(** [IPv6Address(address)] does not raise. *)
Definition IPv6Address (address : string) : bool :=
  negb (PyStr.contains "/" address)
  && match partition "%" address with
     | None => _ip_int_from_string address
     | Some (addr, scope_id) =>
         PyStr.nonempty scope_id && negb (PyStr.contains "%" scope_id)
         && _ip_int_from_string addr
     end.

(** [re.match(r"\Av[a-fA-F0-9]+\..+\Z", "v" + rest)]. *)
Fixpoint ipvfuture (rest : string) (digits : nat) : bool :=
  match rest with
  | EmptyString => false
  | String x rest' =>
      if is_hex_digit x then ipvfuture rest' (S digits)
      else Ascii.eqb x "." && (0 <? digits) && PyStr.nonempty rest'
           && negb (PyStr.contains "010" rest')
  end.

Definition _check_bracketed_host (hostname : string) : result unit :=
  if first_is (Ascii.eqb "v") hostname then
    if ipvfuture (skip 1 hostname) 0 then Ret tt
    else Raise (ValueError "IPvFuture address is invalid")
  else if IPv4Address hostname
  then Raise (ValueError "An IPv4 address cannot be in brackets")
  else if IPv6Address hostname then Ret tt
  else Raise (ValueError "does not appear to be an IPv4 or IPv6 address").

Definition _check_bracketed_netloc (netloc : string) : result unit :=
  let hostname_and_port :=
    match rpartition "@" netloc with
    | Some (_, after) => after
    | None => netloc
    end in
  match partition "[" hostname_and_port with
  | Some (before_bracket, bracketed) =>
      if PyStr.nonempty before_bracket then Raise (ValueError "Invalid IPv6 URL")
      else
        let (hostname, port) :=
          match partition "]" bracketed with
          | Some (hostname, port) => (hostname, port)
          | None => (bracketed, EmptyString)
          end in
        if PyStr.nonempty port && negb (first_is (Ascii.eqb ":") port)
        then Raise (ValueError "Invalid IPv6 URL")
        else _check_bracketed_host hostname
  | None =>
      match partition ":" hostname_and_port with
      | Some (hostname, _) => _check_bracketed_host hostname
      | None => _check_bracketed_host hostname_and_port
      end
  end.

(** *** [urlsplit] and [urlparse] *)

Record SplitResult : Type := {
  split_scheme : string;
  split_netloc : string;
  split_path : string;
  split_query : string;
  split_fragment : string
}.

Record ParseResult : Type := {
  scheme : string;
  netloc : string;
  path : string;
  params : string;
  query : string;
  fragment : string
}.

(** The scheme of [url] and what follows its colon, or the default scheme
    and the whole of [url]. *)
Definition take_scheme (scheme url : string) : string * string :=
  match partition ":" url with
  | Some (before, after) =>
      if first_is is_ascii_alpha before && all_chars scheme_char before
      then (map_chars lower_char before, after)
      else (scheme, url)
  | None => (scheme, url)
  end.

(** [_splitnetloc(url, 2)], given [url[2:]]. *)
Fixpoint _splitnetloc (rest : string) : string * string :=
  match rest with
  | EmptyString => (EmptyString, EmptyString)
  | String x rest' =>
      if Ascii.eqb x "/" || Ascii.eqb x "?" || Ascii.eqb x "#"
      then (EmptyString, rest)
      else let (domain, r) := _splitnetloc rest' in (String x domain, r)
  end.

Definition check_brackets (netloc : string) : result unit :=
  let opening := PyStr.contains "[" netloc in
  let closing := PyStr.contains "]" netloc in
  if (opening && negb closing) || (closing && negb opening)
  then Raise (ValueError "Invalid IPv6 URL")
  else if opening && closing then _check_bracketed_netloc netloc
  else Ret tt.

(** [url.split(c, 1)] when [c in url]. *)
Definition split_once (c : ascii) (url : string) : string * string :=
  match partition c url with
  | Some (before, after) => (before, after)
  | None => (url, EmptyString)
  end.

Definition urlsplit (url scheme : string) : result SplitResult :=
  let url := lstrip_c0 url in
  let scheme := rstrip_c0 (lstrip_c0 scheme) in
  let url := remove_unsafe url in
  let scheme := remove_unsafe scheme in
  let (scheme, url) := take_scheme scheme url in
  located <-
    (if starts_with_two_slashes url then
       let (netloc, url) := _splitnetloc (skip 2 url) in
       _ <- check_brackets netloc ;;
       Ret (netloc, url)
     else Ret (EmptyString, url)) ;;
  let (netloc, url) := located : string * string in
  let (url, fragment) := split_once "#" url in
  let (url, query) := split_once "?" url in
  Ret {| split_scheme := scheme; split_netloc := netloc; split_path := url;
         split_query := query; split_fragment := fragment |}.

Definition _splitparams (url : string) : string * string :=
  if PyStr.contains "/" url then
    match rpartition "/" url with
    | Some (head, tail) =>
        match partition ";" tail with
        | Some (before, after) => (head ++ "/" ++ before, after)
        | None => (url, EmptyString)
        end
    | None => (url, EmptyString)
    end
  else
    match partition ";" url with
    | Some (before, after) => (before, after)
    | None => (drop_last url, url)
    end.

Definition urlparse (url scheme : string) : result ParseResult :=
  splitresult <- urlsplit url scheme ;;
  let url := split_path splitresult in
  let (url, params) :=
    if in_list (split_scheme splitresult) uses_params && PyStr.contains ";" url
    then _splitparams url
    else (url, EmptyString) in
  Ret {| scheme := split_scheme splitresult; netloc := split_netloc splitresult;
         path := url; params := params;
         query := split_query splitresult;
         fragment := split_fragment splitresult |}.

(** *** [urlunsplit], [urlunparse] and [urljoin] *)

Definition urlunsplit (scheme netloc url query fragment : string) : string :=
  let url :=
    if PyStr.nonempty netloc
       || (PyStr.nonempty scheme && in_list scheme uses_netloc
           && negb (starts_with_two_slashes url))
    then
      let url :=
        if PyStr.nonempty url && negb (starts_with_slash url) then "/" ++ url
        else url in
      "//" ++ netloc ++ url
    else url in
  let url := if PyStr.nonempty scheme then scheme ++ ":" ++ url else url in
  let url := if PyStr.nonempty query then url ++ "?" ++ query else url in
  if PyStr.nonempty fragment then url ++ "#" ++ fragment else url.

Definition urlunparse (scheme netloc url params query fragment : string) : string :=
  let url := if PyStr.nonempty params then url ++ ";" ++ params else url in
  urlunsplit scheme netloc url query fragment.

(** [segments[1:-1] = filter(None, segments[1:-1])]. *)
Definition filter_middle (segments : list string) : list string :=
  match segments with
  | first :: (_ :: _) as rest =>
      (first :: filter PyStr.nonempty (removelast rest) ++ [last rest ""])%list
  | _ => segments
  end.

(** One round of the loop over the segments. *)
Definition resolve_segment (resolved_path : list string) (seg : string)
    : list string :=
  if String.eqb seg ".." then removelast resolved_path
  else if String.eqb seg "." then resolved_path
  else (resolved_path ++ [seg])%list.

Definition urljoin (base url : string) : result string :=
  if negb (PyStr.nonempty base) then Ret url
  else if negb (PyStr.nonempty url) then Ret base
  else
    b <- urlparse base "" ;;
    u <- urlparse url (scheme b) ;;
    if negb (String.eqb (scheme u) (scheme b))
       || negb (in_list (scheme u) uses_relative)
    then Ret url
    else if in_list (scheme u) uses_netloc && PyStr.nonempty (netloc u)
    then Ret (urlunparse (scheme u) (netloc u) (path u) (params u) (query u)
                (fragment u))
    else
      let netloc := if in_list (scheme u) uses_netloc then netloc b else netloc u in
      if negb (PyStr.nonempty (path u)) && negb (PyStr.nonempty (params u))
      then
        Ret (urlunparse (scheme u) netloc (path b) (params b)
               (if PyStr.nonempty (query u) then query u else query b)
               (fragment u))
      else
        let base_parts := PyStr.split "/" (path b) in
        let base_parts :=
          if String.eqb (last base_parts "") "" then base_parts
          else removelast base_parts in
        let segments :=
          if starts_with_slash (path u) then PyStr.split "/" (path u)
          else filter_middle (base_parts ++ PyStr.split "/" (path u)) in
        let resolved_path := fold_left resolve_segment segments [] in
        let resolved_path :=
          if String.eqb (last segments "") "." || String.eqb (last segments "") ".."
          then (resolved_path ++ [""])%list
          else resolved_path in
        let joined := PyStr.join "/" resolved_path in
        Ret (urlunparse (scheme u) netloc
               (if PyStr.nonempty joined then joined else "/")
               (params u) (query u) (fragment u)).

End Urllib.

(** ** A POSIX platform, for running the code on concrete inputs

    [posixpath.join], [posixpath.dirname] and [posixpath.basename] as the
    Python library defines them, and [urljoin] as above. *)

Module Posix.

Definition startswith_sep (s : string) : bool :=
  match s with
  | String "/" _ => true
  | _ => false
  end.

Definition join2 (path b : string) : string :=
  if startswith_sep b then b
  else if negb (PyStr.nonempty path) || PyStr.endswith path "/" then path ++ b
  else path ++ "/" ++ b.

Definition join (a : string) (p : list string) : string := fold_left join2 p a.

(** [(p[:i], p[i:])] for [i = p.rfind('/') + 1]. *)
Fixpoint cut (p : string) : string * string :=
  match p with
  | EmptyString => (EmptyString, EmptyString)
  | String x p' =>
      let (head, tail) := cut p' in
      if PyStr.contains "/" p' then (String x head, tail)
      else if Ascii.eqb x "/" then ("/", p')
      else (EmptyString, String x p')
  end.

Fixpoint rstrip_sep (s : string) : string :=
  match s with
  | EmptyString => EmptyString
  | String x s' =>
      match rstrip_sep s' with
      | EmptyString => if Ascii.eqb x "/" then EmptyString else String x EmptyString
      | r => String x r
      end
  end.

Definition dirname (p : string) : string :=
  let head := fst (cut p) in
  match rstrip_sep head with
  | EmptyString => head
  | stripped => stripped
  end.

Definition basename (p : string) : string := snd (cut p).

Definition expanduser (p : string) : string :=
  if String.eqb p "~" then "/home/user" else p.

End Posix.

Definition posix : Platform := {|
  urljoin := Urllib.urljoin;
  os_sep := "/";
  os_path_join := Posix.join;
  os_path_dirname := Posix.dirname;
  os_path_basename := Posix.basename;
  os_path_expanduser := Posix.expanduser
|}.

(** ** Concrete environments *)

Definition jar_response : response :=
  {| status_code := 200%Z; content_length := Some (Some 2%Z);
     chunks := ["PK"]; stream_error := false |}.

Definition unavailable_response : response :=
  {| status_code := 503%Z; content_length := None;
     chunks := []; stream_error := false |}.

(** Every request times out. *)
Definition offline_world : World :=
  {| http_head := fun _ => HeadRequestException Timeout;
     http_get := fun _ => GetRequestException Timeout;
     http_get_metadata := fun _ => MetaRequestException Timeout;
     fs_makedirs := fun _ => true;
     fs_open_wb := fun _ => true |}.

(** Two mirrors that both answer the existence check with 200; the GET of
    the first answers 503, the GET of the second delivers the archive. *)
Definition mirror_a : string := "https://a.example/maven2/".
Definition mirror_b : string := "https://b.example/maven2/".

Definition flaky_world : World :=
  {| http_head := fun _ => HeadResponse 200%Z;
     http_get := fun url =>
       if String.prefix mirror_b url then GetResponse jar_response
       else GetResponse unavailable_response;
     http_get_metadata := fun _ => MetaRequestException Timeout;
     fs_makedirs := fun _ => true;
     fs_open_wb := fun _ => true |}.

(** Every repository hosts every artifact. *)
Definition healthy_world : World :=
  {| http_head := fun _ => HeadResponse 200%Z;
     http_get := fun _ => GetResponse jar_response;
     http_get_metadata := fun _ => MetaRequestException Timeout;
     fs_makedirs := fun _ => true;
     fs_open_wb := fun _ => true |}.

(** A metadata document listing the given versions. *)
Definition metadata_document (versions : list string) : element :=
  Element "metadata" None
    [Element "groupId" (Some "g") [];
     Element "versioning" None
       [Element "latest" None [];
        Element "versions" None
          (map (fun v => Element "version" (Some v) []) versions)]].

(** One repository that lists the versions 9.0 and 10.0. *)
Definition versions_world : World :=
  {| http_head := fun _ => HeadResponse 200%Z;
     http_get := fun _ => GetResponse jar_response;
     http_get_metadata := fun _ =>
       MetaResponse 200%Z (Some (metadata_document ["9.0"; "10.0"]));
     fs_makedirs := fun _ => true;
     fs_open_wb := fun _ => true |}.

(** The first mirror lists 1.0 and 2.0, the second 2.0 and 3.0, and every
    other repository fails to respond. *)
Definition merge_world : World :=
  {| http_head := fun _ => HeadResponse 200%Z;
     http_get := fun _ => GetResponse jar_response;
     http_get_metadata := fun url =>
       if String.prefix mirror_a url
       then MetaResponse 200%Z (Some (metadata_document ["1.0"; "2.0"]))
       else if String.prefix mirror_b url
       then MetaResponse 200%Z (Some (metadata_document ["2.0"; "3.0"]))
       else MetaRequestException ConnectionRefused;
     fs_makedirs := fun _ => true;
     fs_open_wb := fun _ => true |}.

(** A machine with Java and a working decompiler, whose decompiler binary is
    already in the cache. *)
Definition working_env : DecompilerEnv :=
  {| path_exists := fun _ => true;
     makedirs := fun _ => Ret tt;
     fetch_cfr := fun _ => Ret tt;
     java_version := Completed 0%Z;
     run_cfr := fun _ => Completed 0%Z;
     walk := fun _ => Ret ["com/example/A.java"; "META-INF/MANIFEST.MF"];
     zip_write := fun _ _ => Ret tt;
     mkdtemp := Ret "/tmp/tmpabc";
     cleanup := fun _ => Ret tt |}.

(** A machine without the decompiler binary, on which its download fails. *)
Definition no_cfr_env : DecompilerEnv :=
  {| path_exists := fun path => negb (PyStr.endswith path "cfr.jar");
     makedirs := fun _ => Ret tt;
     fetch_cfr := fun _ => Raise (RequestException ConnectionRefused);
     java_version := Completed 0%Z;
     run_cfr := fun _ => Completed 0%Z;
     walk := fun _ => Ret ["com/example/A.java"];
     zip_write := fun _ _ => Ret tt;
     mkdtemp := Ret "/tmp/tmpabc";
     cleanup := fun _ => Ret tt |}.

(** ** The formulas of the specification

    Written from the words of the specification, to be compared with what
    the code computes. *)

(** The group with each dot replaced by a slash. *)
Definition dots_as_slashes (group : string) : string :=
  map_chars (fun x => if Ascii.eqb x "." then "/"%char else x) group.

(** [[-{classifier}]]. *)
Definition classifier_suffix (classifier : option string) : string :=
  match classifier with
  | Some c => "-" ++ c
  | None => ""
  end.


(** [{root}/{group with dots replaced by path separators}/{artifact}/{version}/{artifact}-{version}[-sources].jar],
    the components joined by the platform's path join. *)
Definition local_path `{P : Platform} (root group artifact version : string)
    (classifier : option string) : string :=
  os_path_join root
    [PyStr.replace "." os_sep group; artifact; version;
     artifact ++ "-" ++ version ++ classifier_suffix classifier ++ ".jar"].







(** A path component that is not empty and neither starts nor ends with a
    slash. *)
Definition plain (s : string) : Prop :=
  s <> "" /\ Posix.startswith_sep s = false /\ PyStr.endswith s "/" = false.

(** The existence check passes at [url]: a response with a status in [200, 400). *)
Definition hosts (w : World) (url : string) : bool :=
  match http_head w url with
  | HeadResponse code => ((200 <=? code) && (code <? 400))%Z
  | HeadRequestException _ => false
  end.

(** The trace of a download that succeeds. *)
Definition success_trace `{P : Platform} (url output_path : string) (callback : option callback_fn)
    (r : response) (total_size : Z) : list event :=
  (EvGet url :: EvMakedirs (os_path_dirname output_path) :: EvOpen output_path
   :: snd (write_chunks output_path callback total_size (chunks r) 0%Z)
   ++ [EvLog INFO ("Downloaded: " ++ url ++ " -> " ++ output_path)])%list.

(** What one round of the repository loop does at a repository: the probe
    and, when it passes, the download. *)
Definition attempt `{P : Platform} (w : World) (url output_path : string)
    (callback : option callback_fn) : list event :=
  EvHead url :: (if hosts w url then snd (download_file w url output_path callback)
                 else []).

(** The repository serves the artifact: the probe passes and the download
    succeeds. *)
Definition serves `{P : Platform} (w : World) (url output_path : string)
    (callback : option callback_fn) : bool :=
  hosts w url &&
  match fst (download_file w url output_path callback) with
  | Ret true => true
  | _ => false
  end.

(** The repository loop that [download_sources] and [download_binary]
    share, by classifier. *)
Fixpoint download_loop `{P : Platform} (w : World) (classifier : option string)
    (repositories : list string) (group artifact version output_dir : string)
    (callback : option callback_fn) : io (option string) :=
  match repositories with
  | [] => io_ret None
  | repo_url :: rest =>
      io_bind (lift (get_artifact_url repo_url group artifact version classifier "jar"))
        (fun url =>
      let output_path := local_path output_dir group artifact version classifier in
      io_bind (check_artifact_exists w url) (fun found =>
      if found then
        io_bind (download_file w url output_path callback) (fun ok =>
        if ok then io_ret (Some output_path)
        else download_loop w classifier rest group artifact version output_dir callback)
      else download_loop w classifier rest group artifact version output_dir callback))
  end.

(** Descending code-point order on strings. *)
Definition desc (a b : string) : Prop := String.leb b a = true.

(** The repository at [repo_url] reports the version [v]: its metadata
    URL can be formed, the document arrives with status 200, parses, and has
    a non-empty [versioning/versions/version] text [v]. *)
Definition reports `{P : Platform} (w : World) (group artifact repo_url v : string)
    : Prop :=
  exists metadata_url root e,
    get_metadata_url repo_url group artifact = Ret metadata_url
    /\ http_get_metadata w metadata_url = MetaResponse 200%Z (Some root)
    /\ In e (version_elements root) /\ text_of e = Some v /\ v <> "".

(** The repository whose metadata document is at [metadata_url] fails to
    respond with a document: the request fails or the content does not
    parse. *)
Definition fails_to_respond (w : World) (metadata_url : string) : Prop :=
  (exists f, http_get_metadata w metadata_url = MetaRequestException f)
  \/ http_get_metadata w metadata_url = MetaResponse 200%Z None.

(** An event of the body of a successful download to [path]. *)
Definition writes_to (path : string) (e : event) : Prop :=
  match e with
  | EvWrite p _ => p = path
  | EvCallback _ _ => True
  | EvLog INFO _ => True
  | _ => False
  end.

(** ** [ConfigManager] (config.py)

    The repository mapping is a Python dict from names to URLs: an
    association list with unique keys, in insertion order, which is also the
    iteration order.  Other keys of the configuration document and the
    logger calls of the mutators are left out. *)

Definition pydict : Type := list (string * string).

(** [d.get(k)]. *)
Fixpoint dict_get (k : string) (d : pydict) : option string :=
  match d with
  | [] => None
  | (k', v) :: d' => if String.eqb k' k then Some v else dict_get k d'
  end.

(** [k in d]. *)
Definition dict_contains (k : string) (d : pydict) : bool :=
  match dict_get k d with
  | Some _ => true
  | None => false
  end.

(** [d[k] = v]: an existing key keeps its position, a new key goes last. *)
Fixpoint dict_set (k v : string) (d : pydict) : pydict :=
  match d with
  | [] => [(k, v)]
  | (k', v') :: d' =>
      if String.eqb k' k then (k, v) :: d' else (k', v') :: dict_set k v d'
  end.

(** [del d[k]], for a key that is present. *)
Fixpoint dict_del (k : string) (d : pydict) : pydict :=
  match d with
  | [] => []
  | (k', v') :: d' =>
      if String.eqb k' k then d' else (k', v') :: dict_del k d'
  end.

Definition dict_keys (d : pydict) : list string := map fst d.
Definition dict_values (d : pydict) : list string := map snd d.

Definition DEFAULT_REPOSITORIES : pydict :=
  [("maven-central", "https://repo1.maven.org/maven2/");
   ("apache-maven", "https://repo.maven.apache.org/maven2/");
   ("jcenter", "https://jcenter.bintray.com/")].

(** The configuration file: missing, not a JSON document, or a document
    with or without a [repositories] mapping. *)
Inductive config_file : Type :=
| FileMissing
| FileUnreadable
| FileDocument (repositories : option pydict).

(** [self.config["repositories"]] and the file behind it. *)
Record ConfigManager : Type := {
  config : pydict;
  config_file_content : config_file
}.

(** What [_save_config] meets: the write succeeds, or it raises and leaves
    the file in some state. *)
Inductive save_outcome : Type :=
| SaveOk
| SaveFails (left_behind : config_file).

Definition _load_config (file : config_file) : ConfigManager :=
  {| config :=
       match file with
       | FileDocument (Some repositories) => repositories
       | FileDocument None => DEFAULT_REPOSITORIES
       | FileUnreadable => DEFAULT_REPOSITORIES
       | FileMissing => DEFAULT_REPOSITORIES
       end;
     config_file_content := file |}.

Definition _save_config (o : save_outcome) (self : ConfigManager)
    : result unit * ConfigManager :=
  match o with
  | SaveOk =>
      (Ret tt, {| config := config self;
                  config_file_content := FileDocument (Some (config self)) |})
  | SaveFails left_behind =>
      (Raise OSError, {| config := config self;
                         config_file_content := left_behind |})
  end.

Definition list_repositories (self : ConfigManager) : pydict := config self.

Definition add_repository (name url : string) (o : save_outcome)
    (self : ConfigManager) : bool * ConfigManager :=
  let url := if PyStr.endswith url "/" then url else url ++ "/" in
  let self := {| config := dict_set name url (config self);
                 config_file_content := config_file_content self |} in
  match _save_config o self with
  | (Ret _, self') => (true, self')
  | (Raise _, self') => (false, self')
  end.

Definition remove_repository (name : string) (o : save_outcome)
    (self : ConfigManager) : bool * ConfigManager :=
  if negb (dict_contains name (config self)) then (false, self)
  else
    let self := {| config := dict_del name (config self);
                   config_file_content := config_file_content self |} in
    match _save_config o self with
    | (Ret _, self') => (true, self')
    | (Raise _, self') => (false, self')
    end.

Definition get_repository_url (name : string) (self : ConfigManager)
    : option string :=
  dict_get name (config self).

(** The loop of [get_repository_urls] over the given names. *)
Fixpoint get_repository_urls_loop (names : list string) (self : ConfigManager)
    (urls : list string) : io (list string) :=
  match names with
  | [] => io_ret urls
  | name :: rest =>
      match get_repository_url name self with
      | Some url =>
          if PyStr.nonempty url
          then get_repository_urls_loop rest self (urls ++ [url])%list
          else io_bind (log WARNING ("Repository not found: " ++ name))
                 (fun _ => get_repository_urls_loop rest self urls)
      | None =>
          io_bind (log WARNING ("Repository not found: " ++ name))
            (fun _ => get_repository_urls_loop rest self urls)
      end
  end.

Definition get_repository_urls (names : option (list string))
    (self : ConfigManager) : io (list string) :=
  match names with
  | None => io_ret (dict_values (config self))
  | Some names => get_repository_urls_loop names self []
  end.

Definition get_repository_names (self : ConfigManager) : list string :=
  dict_keys (config self).

Definition reset_to_defaults (o : save_outcome) (self : ConfigManager)
    : bool * ConfigManager :=
  let self := {| config := DEFAULT_REPOSITORIES;
                 config_file_content := config_file_content self |} in
  match _save_config o self with
  | (Ret _, self') => (true, self')
  | (Raise _, self') => (false, self')
  end.

(** A mutation of the configuration together with what its save meets. *)
Inductive config_op : Type :=
| OpAdd (name url : string)
| OpRemove (name : string)
| OpReset.

Definition apply_op (op : config_op) (o : save_outcome) (self : ConfigManager)
    : bool * ConfigManager :=
  match op with
  | OpAdd name url => add_repository name url o self
  | OpRemove name => remove_repository name o self
  | OpReset => reset_to_defaults o self
  end.

Fixpoint run_ops (ops : list (config_op * save_outcome)) (self : ConfigManager)
    : ConfigManager :=
  match ops with
  | [] => self
  | (op, o) :: rest => run_ops rest (snd (apply_op op o self))
  end.

(** Names are unique and every URL ends in a slash. *)
Definition well_formed (d : pydict) : Prop :=
  NoDup (dict_keys d)
  /\ Forall (fun entry => PyStr.endswith (snd entry) "/" = true) d.

(** ** [RepositoryManager.__init__] (core.py): which repositories are used

    An argument that is [None] or an empty list is falsy. *)
Definition RepositoryManager_init (cfg : ConfigManager)
    (repositories repository_names : option (list string)) : io (list string) :=
  match repositories with
  | Some (r :: rs) => io_ret (r :: rs)
  | _ =>
      match repository_names with
      | Some (n :: ns) => get_repository_urls (Some (n :: ns)) cfg
      | _ => get_repository_urls None cfg
      end
  end.

(** ** [sanitize_filename] (utils.py) *)

(** The characters of [illegal_chars]; the fourth is the double quote. *)
Definition illegal_chars : list ascii :=
  ["<"; ">"; ":"; ascii_of_nat 34; "/"; "\"; "|"; "?"; "*"]%char.

Definition is_illegal (x : ascii) : bool := existsb (Ascii.eqb x) illegal_chars.

(** [x in chars]. *)
Definition in_chars (chars : list ascii) (x : ascii) : bool :=
  existsb (Ascii.eqb x) chars.

(** [s.lstrip(chars)], [s.rstrip(chars)] and [s.strip(chars)]. *)
Fixpoint lstrip_chars (chars : list ascii) (s : string) : string :=
  match s with
  | EmptyString => EmptyString
  | String x s' => if in_chars chars x then lstrip_chars chars s' else s
  end.

Fixpoint rstrip_chars (chars : list ascii) (s : string) : string :=
  match s with
  | EmptyString => EmptyString
  | String x s' =>
      match rstrip_chars chars s' with
      | EmptyString => if in_chars chars x then EmptyString else String x EmptyString
      | r => String x r
      end
  end.

Definition strip_chars (chars : list ascii) (s : string) : string :=
  rstrip_chars chars (lstrip_chars chars s).

(** [for char in illegal_chars: filename = filename.replace(char, '_')]. *)
Definition replace_illegal (filename : string) : string :=
  fold_left (fun f char => PyStr.replace char "_" f) illegal_chars filename.

Definition sanitize_filename (filename : string) : string :=
  let filename := replace_illegal filename in
  let filename := strip_chars [" "; "."]%char filename in
  if negb (PyStr.nonempty filename) then "unnamed" else filename.

(** The first and the last character of a string. *)
Definition first_char (s : string) : option ascii :=
  match s with
  | EmptyString => None
  | String x _ => Some x
  end.

Fixpoint last_char (s : string) : option ascii :=
  match s with
  | EmptyString => None
  | String x EmptyString => Some x
  | String _ s' => last_char s'
  end.

(** What the replacements of [sanitize_filename] do to one character. *)
Definition legalise (x : ascii) : ascii := if is_illegal x then "_"%char else x.

(** The warning of [get_repository_urls] for a name. *)
Definition not_found_warning (name : string) : event :=
  EvLog WARNING ("Repository not found: " ++ name).

(** ** Reading a trace *)

(** The size a response declares: its content length, 0 when absent. *)
Definition declared_size (r : response) : Z :=
  match content_length r with
  | Some (Some n) => n
  | _ => 0%Z
  end.

(** The chunks written to [path], in order. *)
Fixpoint written_to (path : string) (t : list event) : list string :=
  match t with
  | [] => []
  | EvWrite p chunk :: t' =>
      if String.eqb p path then chunk :: written_to path t' else written_to path t'
  | _ :: t' => written_to path t'
  end.

(** The arguments of the progress callbacks, in order. *)
Fixpoint progress_of (t : list event) : list (Z * Z) :=
  match t with
  | [] => []
  | EvCallback downloaded total :: t' => (downloaded, total) :: progress_of t'
  | _ :: t' => progress_of t'
  end.

(** The byte counts after each chunk, starting from [start]. *)
Fixpoint running_totals (start : Z) (cs : list string) : list Z :=
  match cs with
  | [] => []
  | chunk :: cs' =>
      let downloaded := (start + Z.of_nat (String.length chunk))%Z in
      downloaded :: running_totals downloaded cs'
  end.

(** The requests of a trace: its HEAD and GET events. *)
Definition is_request (e : event) : bool :=
  match e with
  | EvHead _ | EvGet _ => true
  | _ => false
  end.

(** The events that touch the file system. *)
Definition touches_disk (e : event) : bool :=
  match e with
  | EvMakedirs _ | EvOpen _ | EvWrite _ _ => true
  | _ => false
  end.

(** ** [RepositoryManager.search_artifact] (core.py) *)

(** A JSON value as [response.json()] returns it; an object is a dict with
    its members in order. *)
#[warnings="-register-all"]
Inductive json : Type :=
| JNull
| JBool (b : bool)
| JNumber (n : Z)
| JString (s : string)
| JArray (items : list json)
| JObject (members : list (string * json)).

Fixpoint json_lookup (key : string) (members : list (string * json)) : option json :=
  match members with
  | [] => None
  | (k, v) :: rest => if String.eqb k key then Some v else json_lookup key rest
  end.

(** [j.get(key, default)]: [None] stands for the AttributeError of a value
    that is not a dict. *)
Definition json_get (key : string) (default : json) (j : json) : option json :=
  match j with
  | JObject members =>
      Some (match json_lookup key members with
            | Some v => v
            | None => default
            end)
  | _ => None
  end.

(** [for doc in j]: the items of a list, the keys of a dict, the characters
    of a string; [None] stands for the TypeError of any other value. *)
Definition json_iter (j : json) : option (list json) :=
  match j with
  | JArray items => Some items
  | JObject members => Some (map (fun m => JString (fst m)) members)
  | JString s =>
      Some (map (fun c => JString (String c EmptyString)) (list_ascii_of_string s))
  | _ => None
  end.

(** One entry of the result list, a dict with these four keys. *)
Record search_result : Type := {
  result_group : json;
  result_artifact : json;
  result_version : json;
  result_description : json
}.

(** The dict built from one document. *)
Definition search_result_of (doc : json) : option search_result :=
  match json_get "g" (JString "") doc, json_get "a" (JString "") doc,
        json_get "latestVersion" (JString "") doc,
        json_get "description" (JString "") doc with
  | Some g, Some a, Some v, Some d =>
      Some {| result_group := g; result_artifact := a;
              result_version := v; result_description := d |}
  | _, _, _, _ => None
  end.

(** The loop [for doc in ...: results.append(...)]; [None] when a step
    raises. *)
Fixpoint search_results (docs : list json) (results : list search_result)
    : option (list search_result) :=
  match docs with
  | [] => Some results
  | doc :: rest =>
      match search_result_of doc with
      | Some entry => search_results rest (results ++ [entry])%list
      | None => None
      end
  end.

(** The answer to the search request: [body] is [None] when
    [response.json()] raises. *)
Inductive search_outcome : Type :=
| SearchResponse (status_code : Z) (body : option json)
| SearchRequestException (f : network_failure).

Definition search_url : string := "https://search.maven.org/solrsearch/select".

(** The [try] block after the request; [None] when it raises. *)
Definition search_body (outcome : search_outcome) : option (list search_result) :=
  match outcome with
  | SearchRequestException _ => None
  | SearchResponse code body =>
      if ((400 <=? code) && (code <? 600))%Z then None
      else
        match body with
        | None => None
        | Some data =>
            match json_get "response" (JObject []) data with
            | None => None
            | Some response =>
                match json_get "docs" (JArray []) response with
                | None => None
                | Some docs =>
                    match json_iter docs with
                    | None => None
                    | Some items => search_results items []
                    end
                end
            end
        end
  end.

Definition search_artifact (http_search : string -> Z -> search_outcome)
    (query : string) (max_results : Z) : io (list search_result) :=
  io_bind (emit (EvGet search_url)) (fun _ =>
  match search_body (http_search query max_results) with
  | Some results => io_ret results
  | None => io_bind (log ERROR "Search failed") (fun _ => io_ret [])
  end).

(** The documents of a well-formed answer: [data["response"]["docs"]]. *)
Definition search_answer (docs : list json) : json :=
  JObject [("responseHeader", JObject []);
           ("response", JObject [("numFound", JNumber (Z.of_nat (length docs)));
                                 ("docs", JArray docs)])].

(** ** [get_download_stats] (mcp_server.py)

    The counters of the loop over the files that [os.walk] finds, each with
    its size; the final rounding of the size to megabytes is floating point
    and is left out. *)

(** [sub in s]. *)
Fixpoint str_in (sub s : string) : bool :=
  String.prefix sub s
  || match s with
     | EmptyString => false
     | String _ s' => str_in sub s'
     end.

Record download_stats : Type := {
  total_files : nat;
  jar_files : nat;
  source_jars : nat;
  javadoc_jars : nat;
  pom_files : nat;
  other_files : nat;
  total_size : Z
}.

Definition empty_stats : download_stats :=
  {| total_files := 0; jar_files := 0; source_jars := 0; javadoc_jars := 0;
     pom_files := 0; other_files := 0; total_size := 0%Z |}.

(** The body of the loop for one file. *)
Definition count_file (stats : download_stats) (file : string) (file_size : Z)
    : download_stats :=
  let stats :=
    {| total_files := S (total_files stats);
       jar_files := jar_files stats;
       source_jars := source_jars stats;
       javadoc_jars := javadoc_jars stats;
       pom_files := pom_files stats;
       other_files := other_files stats;
       total_size := (total_size stats + file_size)%Z |} in
  if PyStr.endswith file ".jar" then
    let stats :=
      {| total_files := total_files stats;
         jar_files := S (jar_files stats);
         source_jars := source_jars stats;
         javadoc_jars := javadoc_jars stats;
         pom_files := pom_files stats;
         other_files := other_files stats;
         total_size := total_size stats |} in
    if str_in "-sources.jar" file then
      {| total_files := total_files stats;
         jar_files := jar_files stats;
         source_jars := S (source_jars stats);
         javadoc_jars := javadoc_jars stats;
         pom_files := pom_files stats;
         other_files := other_files stats;
         total_size := total_size stats |}
    else if str_in "-javadoc.jar" file then
      {| total_files := total_files stats;
         jar_files := jar_files stats;
         source_jars := source_jars stats;
         javadoc_jars := S (javadoc_jars stats);
         pom_files := pom_files stats;
         other_files := other_files stats;
         total_size := total_size stats |}
    else stats
  else if PyStr.endswith file ".pom" then
    {| total_files := total_files stats;
       jar_files := jar_files stats;
       source_jars := source_jars stats;
       javadoc_jars := javadoc_jars stats;
       pom_files := S (pom_files stats);
       other_files := other_files stats;
       total_size := total_size stats |}
  else
    {| total_files := total_files stats;
       jar_files := jar_files stats;
       source_jars := source_jars stats;
       javadoc_jars := javadoc_jars stats;
       pom_files := pom_files stats;
       other_files := S (other_files stats);
       total_size := total_size stats |}.

(** [None] when the download directory does not exist. *)
Definition get_download_stats (files : option (list (string * Z)))
    : option download_stats :=
  match files with
  | None => None
  | Some files =>
      Some (fold_left (fun stats file => count_file stats (fst file) (snd file))
                      files empty_stats)
  end.

(** ** The MCP tools (mcp_server.py) *)

(** [if l:] for an optional list: [None] and the empty list are falsy. *)
Definition truthy (l : option (list string)) : bool :=
  match l with
  | Some (_ :: _) => true
  | _ => false
  end.

(** [if path:] for an optional path: [None] and the empty string are falsy. *)
Definition found_path (path : option string) : option string :=
  match path with
  | Some p => if PyStr.nonempty p then Some p else None
  | None => None
  end.

(** The files a tool reports for the outcome of one download. *)
Definition reported (path : option string) : list string :=
  match found_path path with
  | Some p => [p]
  | None => []
  end.

(** [is JObject]. *)
Definition is_object (j : json) : bool :=
  match j with
  | JObject _ => true
  | _ => false
  end.

Module Mcp.

Record ArtifactInfo : Type := {
  artifact : string;
  files : list string;
  download_path : string
}.

(** One entry of the [repositories] dict of [check_artifact_exists]. *)
Record availability : Type := {
  repository_name : string;
  repository_url : string;
  available : bool
}.

Record availability_report : Type := {
  checked_artifact : string;
  repositories : list availability;
  available_in : list string
}.

(** The dict that the repository tools return. *)
Record tool_status : Type := {
  success : bool;
  message : string
}.

Section Tools.
Context `{P : Platform}.
Variable w : World.
Variable cfg : ConfigManager.

(** [RepositoryManager(...)] as the tools construct it. *)
Definition repository_manager (repo_names repositories : option (list string))
    : io (list string) :=
  if truthy repo_names then RepositoryManager_init cfg None repo_names
  else if truthy repositories then RepositoryManager_init cfg repositories None
  else RepositoryManager_init cfg None None.

Definition download_artifact (artifact : string)
    (repo_names repositories : option (list string)) (output_dir : option string)
    (include_sources include_javadoc : bool) : io ArtifactInfo :=
  if truthy repo_names && truthy repositories
  then io_raise (ValueError "Cannot specify both repo_names and repositories")
  else if negb (validate_dependency_format artifact)
  then io_raise (ValueError ("Invalid artifact format: " ++ artifact))
  else
    let output_dir :=
      match output_dir with
      | None => "./downloads"
      | Some d => d
      end in
    io_bind (os_makedirs w output_dir) (fun _ =>
    io_bind (repository_manager repo_names repositories) (fun repos =>
    io_bind (if include_sources
             then io_bind (download_sources w repos artifact output_dir None)
                    (fun sources_path =>
                       io_ret match found_path sources_path with
                              | Some p => [p]
                              | None => []
                              end)
             else io_ret []) (fun files =>
    io_bind (download_binary w repos artifact output_dir None) (fun binary_path =>
    io_ret {| artifact := artifact;
              files := match found_path binary_path with
                       | Some p => (files ++ [p])%list
                       | None => files
                       end;
              download_path := output_dir |})))).

(** The loop of [check_artifact_exists] over the selected repositories; the
    URL is built outside any [try]. *)
Fixpoint check_loop (repo_urls : pydict) (group_id artifact_id version : string)
    (results : list availability) : io (list availability) :=
  match repo_urls with
  | [] => io_ret results
  | (repo_name, repo_url) :: rest =>
      io_bind (lift (get_artifact_url repo_url group_id artifact_id version None "jar"))
        (fun binary_url =>
      io_bind (check_artifact_exists w binary_url) (fun is_available =>
      check_loop rest group_id artifact_id version
        (results ++ [{| repository_name := repo_name;
                        repository_url := repo_url;
                        available := is_available |}])%list))
  end.

(** The repositories the check looks at: all the configured ones, or those
    whose name is among the given names. *)
Definition selected_repositories (repo_names : option (list string)) : pydict :=
  match repo_names with
  | Some (n :: ns) =>
      filter (fun entry => in_list (fst entry) (n :: ns)) (list_repositories cfg)
  | _ => list_repositories cfg
  end.

Definition check_artifact_exists (artifact : string)
    (repo_names : option (list string)) : io availability_report :=
  if negb (validate_dependency_format artifact)
  then io_raise (ValueError ("Invalid artifact format: " ++ artifact))
  else
    io_bind (RepositoryManager_init cfg None None) (fun _ =>
    match parse_dependency artifact with
    | Raise (ValueError msg) =>
        io_raise (ValueError ("Failed to parse artifact: " ++ msg))
    | Raise UnpackError => io_raise (ValueError "Failed to parse artifact: unpack")
    | Raise e => io_raise e
    | Ret (group_id, artifact_id, version) =>
        io_bind (repository_manager repo_names None) (fun _ =>
        io_bind (check_loop (selected_repositories repo_names)
                   group_id artifact_id version []) (fun results =>
        io_ret {| checked_artifact := artifact;
                  repositories := results;
                  available_in :=
                    map repository_name (filter available results) |}))
    end).

(** [add_repository] and [remove_repository]: the answer of the
    configuration manager is not looked at, and it never raises. *)
Definition add_repository (name url : string) (o : save_outcome)
    : tool_status * ConfigManager :=
  let (_, cfg') := add_repository name url o cfg in
  ({| success := true;
      message := "Repository '" ++ name ++ "' added successfully" |}, cfg').

Definition remove_repository (name : string) (o : save_outcome)
    : tool_status * ConfigManager :=
  let (_, cfg') := remove_repository name o cfg in
  ({| success := true;
      message := "Repository '" ++ name ++ "' removed successfully" |}, cfg').

End Tools.

End Mcp.

(** ** The [download] command (cli.py)

    The [click.echo] lines are left out; [sys.exit(1)] is the outcome
    [Exit 1].

    In cli.py the name [list] is bound, further down, to the click command
    [repo list].  So [list(repositories)] and [list(repo_names)] do not build
    a list: they run that command with the selectors as its arguments, and a
    click command called this way always ends the process.  [list_command]
    is the exit status of that run (2 for arguments that the command
    rejects, as it takes none). *)

Module Cli.

Inductive outcome : Type :=
| Finished (sources_path : string)
| Exit (code : Z).

Section Download.
Context `{P : Platform}.
Variable w : World.
Variable env : DecompilerEnv.
Variable cfg : ConfigManager.
Variable list_command : list string -> Z.

(** [RepositoryManager(...)] as the command constructs it: the repositories
    of the manager, or the exit status when the process ends first. *)
Definition repository_manager (repositories repo_names : list string)
    : io (list string + Z) :=
  match repositories, repo_names with
  | _ :: _, _ => io_ret (inr (list_command repositories))
  | [], _ :: _ => io_ret (inr (list_command repo_names))
  | [], [] =>
      io_bind (RepositoryManager_init cfg None None) (fun repos => io_ret (inl repos))
  end.

(** From the binary download on. *)
Definition decompile_binary (repos : list string) (dependency output_dir : string)
    (binary_progress : option callback_fn)
    (decompile_progress : option decompile_callback) : io outcome :=
  io_bind (download_binary w repos dependency output_dir binary_progress)
    (fun binary_path =>
  match found_path binary_path with
  | None => io_ret (Exit 1)
  | Some binary_path =>
      io_bind (lift (JavaDecompiler_init env None)) (fun decompiler =>
      io_bind (lift (check_java_available env)) (fun java =>
      if negb java then io_ret (Exit 1)
      else
        io_bind (lift (decompile_and_package env decompiler binary_path
                         output_dir decompile_progress)) (fun sources_path =>
        match found_path sources_path with
        | Some p => io_ret (Finished p)
        | None => io_ret (Exit 1)
        end)))
  end).

Definition download (dependency output_dir : string)
    (repositories repo_names : list string)
    (decompile sources_only force_binary : bool)
    (progress_tracker binary_progress : option callback_fn)
    (decompile_progress : option decompile_callback) : io outcome :=
  if negb (validate_dependency_format dependency) then io_ret (Exit 1)
  else if sources_only && force_binary then io_ret (Exit 1)
  else if match repositories, repo_names with
          | _ :: _, _ :: _ => true
          | _, _ => false
          end then io_ret (Exit 1)
  else
    io_bind (repository_manager repositories repo_names) (fun repo_manager =>
    match repo_manager with
    | inr status => io_ret (Exit status)
    | inl repos =>
        if force_binary
        then decompile_binary repos dependency output_dir binary_progress
               decompile_progress
        else
          io_bind (download_sources w repos dependency output_dir progress_tracker)
            (fun sources_path =>
          match found_path sources_path with
          | Some p => io_ret (Finished p)
          | None =>
              if sources_only then io_ret (Exit 1)
              else decompile_binary repos dependency output_dir binary_progress
                     decompile_progress
          end)
    end).

End Download.

End Cli.

(** * Properties *)

(** ** The parser and the validator on concrete inputs *)

Example parse_three : parse_dependency "com.google.gson:gson:2.8.9"
                      = Ret ("com.google.gson", "gson", "2.8.9").
Proof. reflexivity. Qed.

Example parse_two : parse_dependency "com.google.gson:2.8.9"
                    = Ret ("com.google", "gson", "2.8.9").
Proof. reflexivity. Qed.

Example parse_nonsense : parse_dependency "nonsense" = Raise (ValueError msg_bad_colons).
Proof. reflexivity. Qed.

Example parse_empty_fields : parse_dependency "::" = Ret ("", "", "").
Proof. reflexivity. Qed.

Example validate_empty_fields : validate_dependency_format "::" = false.
Proof. reflexivity. Qed.

Example posix_join_example :
  Posix.join "downloads" ["com/google"; "gson"; "2.8.9"; "gson-2.8.9-sources.jar"]
  = "downloads/com/google/gson/2.8.9/gson-2.8.9-sources.jar".
Proof. reflexivity. Qed.

Example posix_dirname_example :
  Posix.dirname "downloads/com/google/gson/2.8.9/gson-2.8.9-sources.jar"
  = "downloads/com/google/gson/2.8.9".
Proof. reflexivity. Qed.

(** ** Strings *)

Section StringFacts.
Import PyStr.

Lemma append_assoc (a b c : string) : (a ++ b) ++ c = a ++ (b ++ c).
Proof. induction a as [|x a IH]; simpl; [reflexivity | now rewrite IH]. Qed.

Lemma append_nil_r (a : string) : a ++ "" = a.
Proof. induction a as [|x a IH]; simpl; [reflexivity | now rewrite IH]. Qed.

Lemma count_app (c : ascii) (a b : string) :
  count c (a ++ b) = count c a + count c b.
Proof. induction a as [|x a IH]; simpl; [reflexivity | rewrite IH; lia]. Qed.

Lemma contains_count (c : ascii) (s : string) :
  contains c s = negb (count c s =? 0).
Proof.
  induction s as [|x s IH]; simpl; [reflexivity|].
  destruct (Ascii.eqb x c); simpl; [reflexivity | exact IH].
Qed.

Lemma contains_true_iff (c : ascii) (s : string) :
  contains c s = true <-> count c s <> 0.
Proof.
  rewrite contains_count. destruct (Nat.eqb_spec (count c s) 0); simpl; split;
    intros; congruence.
Qed.

Lemma contains_false_iff (c : ascii) (s : string) :
  contains c s = false <-> count c s = 0.
Proof.
  rewrite contains_count. destruct (Nat.eqb_spec (count c s) 0); simpl; split;
    intros; congruence.
Qed.

Lemma split_not_nil (c : ascii) (s : string) : split c s <> [].
Proof.
  destruct s as [|x s]; simpl; [discriminate|].
  destruct (Ascii.eqb x c); [discriminate|].
  destruct (split c s); discriminate.
Qed.

Lemma length_split (c : ascii) (s : string) :
  length (split c s) = S (count c s).
Proof.
  induction s as [|x s IH]; simpl; [reflexivity|].
  destruct (Ascii.eqb x c); simpl; [now rewrite IH|].
  destruct (split c s) as [|p r] eqn:E; simpl in *; [discriminate | exact IH].
Qed.

Lemma split_pieces (c : ascii) (s : string) :
  Forall (fun piece => count c piece = 0) (split c s).
Proof.
  induction s as [|x s IH]; simpl.
  - constructor; [reflexivity | constructor].
  - destruct (Ascii.eqb x c) eqn:Ex.
    + constructor; [reflexivity | exact IH].
    + destruct (split c s) as [|p r].
      * constructor; [simpl; now rewrite Ex | constructor].
      * inversion IH; subst. constructor; [simpl; now rewrite Ex | assumption].
Qed.

Lemma join_split (c : ascii) (s : string) :
  join (String c "") (split c s) = s.
Proof.
  unfold join. induction s as [|x s IH]; simpl; [reflexivity|].
  destruct (Ascii.eqb_spec x c) as [->|Hne].
  - destruct (split c s) as [|p r] eqn:E; [now apply split_not_nil in E|].
    simpl in *. now rewrite IH.
  - destruct (split c s) as [|p r] eqn:E; [now apply split_not_nil in E|].
    destruct r; simpl in *; now rewrite <- IH.
Qed.

Lemma split_no_sep (c : ascii) (s : string) :
  count c s = 0 -> split c s = [s].
Proof.
  induction s as [|x s IH]; simpl; [reflexivity|].
  destruct (Ascii.eqb x c); simpl; [discriminate|].
  intros Hs. now rewrite (IH Hs).
Qed.

Lemma split_app (c : ascii) (a b : string) :
  count c a = 0 -> split c (a ++ String c b) = a :: split c b.
Proof.
  induction a as [|x a IH]; simpl.
  - intros _. now rewrite Ascii.eqb_refl.
  - destruct (Ascii.eqb x c); simpl; [discriminate|].
    intros Ha. now rewrite (IH Ha).
Qed.

Lemma last_item_snoc (l : list string) (a : string) : last_item (l ++ [a]) = Some a.
Proof.
  induction l as [|x l IH]; simpl; [reflexivity|].
  destruct (l ++ [a])%list eqn:E; [now destruct l | exact IH].
Qed.

Lemma last_item_removelast (l : list string) :
  l <> [] -> exists a, last_item l = Some a /\ l = (removelast l ++ [a])%list.
Proof.
  intros Hl. destruct (exists_last Hl) as (l' & a & ->).
  exists a. now rewrite last_item_snoc, removelast_last.
Qed.

Lemma concat_snoc (sep : string) (l : list string) (a : string) :
  l <> [] -> String.concat sep (l ++ [a]) = String.concat sep l ++ sep ++ a.
Proof.
  induction l as [|x l IH]; [congruence|]. intros _.
  destruct l as [|y l]; simpl; [reflexivity|].
  simpl in IH. rewrite IH by discriminate.
  now rewrite !append_assoc.
Qed.

Lemma nonempty_true_iff (s : string) : nonempty s = true <-> s <> "".
Proof. destruct s; simpl; split; congruence. Qed.

Lemma str_length_app (a b : string) :
  String.length (a ++ b) = String.length a + String.length b.
Proof. induction a as [|x a IH]; cbn; [reflexivity | now rewrite IH]. Qed.

End StringFacts.

(** ** The parser *)

Section ParserFacts.
Import PyStr.

Lemma split_three (s : string) :
  count ":" s = 2 ->
  exists g a v, split ":" s = [g; a; v] /\ s = g ++ ":" ++ a ++ ":" ++ v
    /\ count ":" g = 0 /\ count ":" a = 0 /\ count ":" v = 0.
Proof.
  intros Hc.
  pose proof (length_split ":" s) as Hl.
  pose proof (split_pieces ":" s) as Hp.
  pose proof (join_split ":" s) as Hj.
  rewrite Hc in Hl.
  destruct (split ":" s) as [|g [|a [|v [|? ?]]]]; try discriminate.
  inversion Hp as [|? ? Hg Hp1]; subst.
  inversion Hp1 as [|? ? Ha Hp2]; subst.
  inversion Hp2 as [|? ? Hv _]; subst.
  exists g, a, v. repeat split; assumption.
Qed.

Lemma split_two (s : string) :
  count ":" s = 1 ->
  exists l v, split ":" s = [l; v] /\ s = l ++ ":" ++ v
    /\ count ":" l = 0 /\ count ":" v = 0.
Proof.
  intros Hc.
  pose proof (length_split ":" s) as Hl.
  pose proof (split_pieces ":" s) as Hp.
  pose proof (join_split ":" s) as Hj.
  rewrite Hc in Hl.
  destruct (split ":" s) as [|l [|v [|? ?]]]; try discriminate.
  inversion Hp as [|? ? Hg Hp1]; subst.
  inversion Hp1 as [|? ? Hv _]; subst.
  exists l, v. repeat split; assumption.
Qed.

(** A decomposition around the only colon is the one [split] finds. *)
Lemma split_two_unique (l v : string) :
  count ":" (l ++ ":" ++ v) = 1 ->
  split ":" (l ++ ":" ++ v) = [l; v] /\ count ":" l = 0 /\ count ":" v = 0.
Proof.
  rewrite count_app. simpl. intros Hc.
  assert (Hl : count ":" l = 0) by lia.
  assert (Hv : count ":" v = 0) by lia.
  repeat split; try assumption.
  change (":" ++ v) with (String ":" v).
  now rewrite (split_app _ _ _ Hl), (split_no_sep _ _ Hv).
Qed.

(** The split of the left side at its last dot. *)
Lemma split_last_dot (l : string) :
  contains "." l = true ->
  exists a, last_item (split "." l) = Some a
    /\ l = join "." (removelast (split "." l)) ++ "." ++ a
    /\ count "." a = 0.
Proof.
  intros Hd. apply contains_true_iff in Hd.
  pose proof (length_split "." l) as Hl.
  pose proof (split_pieces "." l) as Hp.
  pose proof (join_split "." l) as Hj.
  destruct (last_item_removelast (split "." l) (split_not_nil _ _))
    as (a & Hlast & Hparts).
  exists a. split; [exact Hlast|].
  assert (Hne : removelast (split "." l) <> []).
  { intros E. rewrite E in Hparts. rewrite Hparts in Hl. simpl in Hl. lia. }
  split.
  - rewrite <- Hj at 1. rewrite Hparts at 1. unfold join.
    now rewrite concat_snoc.
  - rewrite Hparts in Hp. apply Forall_app in Hp as [_ Hp].
    now inversion Hp.
Qed.

Lemma parse_two_colons (s : string) :
  count ":" s = 2 ->
  exists g a v, s = g ++ ":" ++ a ++ ":" ++ v
    /\ count ":" g = 0 /\ count ":" a = 0 /\ count ":" v = 0
    /\ parse_dependency s = Ret (g, a, v).
Proof.
  intros Hc. destruct (split_three s Hc) as (g & a & v & Hs & Heq & Hg & Ha & Hv).
  exists g, a, v. repeat split; try assumption.
  unfold parse_dependency. now rewrite Hc, Hs.
Qed.

Lemma parse_one_colon (l v : string) :
  count ":" (l ++ ":" ++ v) = 1 ->
  parse_dependency (l ++ ":" ++ v) =
    if contains "." l then
      match last_item (split "." l) with
      | Some a => Ret (join "." (removelast (split "." l)), a, v)
      | None => Raise IndexError
      end
    else Raise (ValueError msg_no_dot).
Proof.
  intros Hc. destruct (split_two_unique l v Hc) as (Hs & _ & _).
  unfold parse_dependency. now rewrite Hc, Hs.
Qed.

Lemma parse_bad_colons (s : string) :
  count ":" s <> 1 -> count ":" s <> 2 ->
  parse_dependency s = Raise (ValueError msg_bad_colons).
Proof.
  intros H1 H2. unfold parse_dependency.
  destruct (Nat.eqb_spec (count ":" s) 2); [contradiction|].
  destruct (Nat.eqb_spec (count ":" s) 1); [contradiction|].
  reflexivity.
Qed.

End ParserFacts.

(** C2.  An input with exactly two colons parses to its three
    colon-separated fields, unchanged; an input with exactly one colon whose
    left side contains a dot parses to the left side cut at its last dot
    (group before, dot-free artifact after) and the text after the colon. *)
Theorem parse_dependency_forms (s : string) :
  (PyStr.count ":" s = 2 ->
   exists g a v, s = g ++ ":" ++ a ++ ":" ++ v
     /\ PyStr.count ":" g = 0 /\ PyStr.count ":" a = 0 /\ PyStr.count ":" v = 0
     /\ parse_dependency s = Ret (g, a, v))
  /\
  (PyStr.count ":" s = 1 ->
   forall l v, s = l ++ ":" ++ v -> PyStr.contains "." l = true ->
   exists g a, l = g ++ "." ++ a /\ PyStr.count "." a = 0
     /\ parse_dependency s = Ret (g, a, v)).
Proof.
  split.
  - apply parse_two_colons.
  - intros Hc l v -> Hd.
    rewrite (parse_one_colon l v Hc), Hd.
    destruct (split_last_dot l Hd) as (a & Hlast & Hl & Ha).
    rewrite Hlast. eexists _, a. repeat split; [exact Hl | exact Ha].
Qed.

Lemma parse_dependency_forms_witness :
  (PyStr.count ":" "com.google.gson:gson:2.8.9" = 2
   /\ exists g a v, "com.google.gson:gson:2.8.9" = g ++ ":" ++ a ++ ":" ++ v
        /\ PyStr.count ":" g = 0 /\ PyStr.count ":" a = 0 /\ PyStr.count ":" v = 0
        /\ parse_dependency "com.google.gson:gson:2.8.9" = Ret (g, a, v))
  /\
  (PyStr.count ":" "com.google.gson:2.8.9" = 1
   /\ PyStr.contains "." "com.google.gson" = true
   /\ exists g a, "com.google.gson" = g ++ "." ++ a /\ PyStr.count "." a = 0
        /\ parse_dependency "com.google.gson:2.8.9" = Ret (g, a, "2.8.9")).
Proof.
  split.
  - split; [reflexivity|].
    exact (proj1 (parse_dependency_forms "com.google.gson:gson:2.8.9") eq_refl).
  - split; [reflexivity|]. split; [reflexivity|].
    exact (proj2 (parse_dependency_forms "com.google.gson:2.8.9") eq_refl
             "com.google.gson" "2.8.9" eq_refl eq_refl).
Defined.

Section ValidatorFacts.
Import PyStr.

(** The parser in terms of the pieces between colons. *)
Lemma parse_dependency_split (s : string) :
  parse_dependency s =
    match split ":" s with
    | [g; a; v] => Ret (g, a, v)
    | [l; v] =>
        if contains "." l then
          match last_item (split "." l) with
          | Some a => Ret (join "." (removelast (split "." l)), a, v)
          | None => Raise IndexError
          end
        else Raise (ValueError msg_no_dot)
    | _ => Raise (ValueError msg_bad_colons)
    end.
Proof.
  unfold parse_dependency. pose proof (length_split ":" s) as Hl.
  destruct (split ":" s) as [|p1 [|p2 [|p3 [|p4 r]]]]; simpl in Hl;
    try discriminate; injection Hl as Hl; rewrite <- Hl; reflexivity.
Qed.

(** The parser returns a coordinate or raises one of its two format errors. *)
Lemma parse_dependency_result (s : string) :
  (exists c, parse_dependency s = Ret c)
  \/ parse_dependency s = Raise (ValueError msg_no_dot)
  \/ parse_dependency s = Raise (ValueError msg_bad_colons).
Proof.
  rewrite parse_dependency_split.
  destruct (split ":" s) as [|p1 [|p2 [|p3 [|p4 r]]]]; try (right; now right).
  - destruct (contains "." p1) eqn:Hd; [|right; now left].
    destruct (split_last_dot p1 Hd) as (a & -> & _). left. now eexists.
  - left. now eexists.
Qed.

(** The validator in terms of the pieces between colons. *)
Lemma validate_dependency_format_split (s : string) :
  validate_dependency_format s =
    match split ":" s with
    | [g; a; v] =>
        nonempty (strip g) && nonempty (strip a) && nonempty (strip v)
    | [l; v] => contains "." l && nonempty (strip v)
    | _ => false
    end.
Proof.
  unfold validate_dependency_format.
  destruct s as [|x s]; [reflexivity|].
  cbn [nonempty negb].
  destruct (split ":" (String x s)) as [|p1 [|p2 [|p3 [|p4 r]]]]; try reflexivity.
  cbn. now rewrite andb_true_r, andb_assoc.
Qed.

Lemma count_of_split (s : string) : count ":" s = length (split ":" s) - 1.
Proof. rewrite length_split. lia. Qed.

Lemma rstrip_empty_iff (s : string) : rstrip s = "" <-> all_space s = true.
Proof.
  induction s as [|x s IH]; simpl; [tauto|].
  destruct (rstrip s) eqn:E.
  - destruct (is_space x); simpl; [tauto|].
    split; [discriminate | intros; discriminate].
  - split; [discriminate|]. intros Hx. apply andb_true_iff in Hx as [_ Hs].
    apply IH in Hs. discriminate.
Qed.

Lemma lstrip_all_space (s : string) : all_space (lstrip s) = all_space s.
Proof.
  induction s as [|x s IH]; simpl; [reflexivity|].
  destruct (is_space x) eqn:E; simpl; [exact IH | now rewrite E].
Qed.

Lemma strip_empty_iff (s : string) : strip s = "" <-> all_space s = true.
Proof. unfold strip. now rewrite rstrip_empty_iff, lstrip_all_space. Qed.

Lemma strip_nonempty (s : string) : nonempty (strip s) = true -> s <> "".
Proof. intros Hs ->. discriminate Hs. Qed.

End ValidatorFacts.

(** C3.  The parser raises its format error exactly when the number of
    colons is neither 1 nor 2, or it is 1 and the left side has no dot; on
    every input it returns a coordinate or raises one of its two format
    errors, and nothing else. *)
Theorem parse_dependency_failure (s : string) :
  ((exists msg, parse_dependency s = Raise (ValueError msg)) <->
   (PyStr.count ":" s <> 1 /\ PyStr.count ":" s <> 2)
   \/ (PyStr.count ":" s = 1
       /\ exists l v, s = l ++ ":" ++ v /\ PyStr.contains "." l = false))
  /\
  ((exists c, parse_dependency s = Ret c)
   \/ parse_dependency s = Raise (ValueError msg_no_dot)
   \/ parse_dependency s = Raise (ValueError msg_bad_colons)).
Proof.
  destruct (Nat.eq_dec (PyStr.count ":" s) 2) as [H2|H2].
  { destruct (parse_two_colons s H2) as (g & a & v & _ & _ & _ & _ & Hp).
    rewrite Hp. split.
    - split.
      + intros (msg & Hm). discriminate.
      + intros [[_ Hn]|[H1 _]]; [contradiction | congruence].
    - left. now eexists. }
  destruct (Nat.eq_dec (PyStr.count ":" s) 1) as [H1|H1].
  { destruct (split_two s H1) as (l & v & _ & -> & _ & _).
    rewrite (parse_one_colon l v H1).
    destruct (PyStr.contains "." l) eqn:Hd.
    - destruct (split_last_dot l Hd) as (a & -> & _ & _). split.
      + split.
        * intros (msg & Hm). discriminate.
        * intros [[Hn _]|(_ & l' & v' & Heq & Hd')]; [contradiction|].
          exfalso. rewrite Heq in H1.
          destruct (split_two_unique l' v' H1) as (Hs' & _ & _).
          rewrite <- Heq in H1, Hs'.
          destruct (split_two_unique l v H1) as (Hs & _ & _).
          rewrite Hs in Hs'. congruence.
      + left. now eexists.
    - split.
      + split.
        * intros _. right. split; [exact H1|]. now exists l, v.
        * intros _. now eexists.
      + right. now left. }
  rewrite (parse_bad_colons s H1 H2). split.
  - split.
    + intros _. left. now split.
    + intros _. now eexists.
  - right. now right.
Qed.

(** C9, as stated, fails: the parser accepts empty fields. *)
Lemma parse_dependency_empty_fields :
  parse_dependency "::" = Ret ("", "", "")
  /\ ~ (forall s g a v, parse_dependency s = Ret (g, a, v) ->
        g <> "" /\ a <> "" /\ v <> "").
Proof.
  split; [reflexivity|].
  intros Hall. destruct (Hall "::" "" "" "" eq_refl) as (Hg & _). now apply Hg.
Qed.

(** C9, amended.  A coordinate parsed from an input that
    [validate_dependency_format] accepts has a non-empty version, and when
    the input has two colons its group and artifact are non-empty too. *)
Theorem validated_coordinate_nonempty (s g a v : string) :
  validate_dependency_format s = true ->
  parse_dependency s = Ret (g, a, v) ->
  v <> "" /\ (PyStr.count ":" s = 2 -> g <> "" /\ a <> "").
Proof.
  rewrite validate_dependency_format_split, parse_dependency_split, count_of_split.
  destruct (PyStr.split ":" s) as [|p1 [|p2 [|p3 [|p4 r]]]]; try discriminate.
  - intros Hv Hp. apply andb_true_iff in Hv as [Hd Hv].
    rewrite Hd in Hp.
    destruct (PyStr.last_item (PyStr.split "." p1)); [|discriminate].
    injection Hp as _ _ <-. split; [now apply strip_nonempty|].
    simpl. discriminate.
  - intros Hv Hp. injection Hp as <- <- <-.
    apply andb_true_iff in Hv as [Hv H3]. apply andb_true_iff in Hv as [H1 H2].
    split; [now apply strip_nonempty|].
    intros _. split; now apply strip_nonempty.
Qed.

Lemma validated_coordinate_nonempty_witness :
  validate_dependency_format "com.google.gson:gson:2.8.9" = true
  /\ parse_dependency "com.google.gson:gson:2.8.9" = Ret ("com.google.gson", "gson", "2.8.9")
  /\ "2.8.9" <> ""
  /\ (PyStr.count ":" "com.google.gson:gson:2.8.9" = 2 ->
      "com.google.gson" <> "" /\ "gson" <> "").
Proof.
  split; [reflexivity|]. split; [reflexivity|].
  exact (validated_coordinate_nonempty "com.google.gson:gson:2.8.9"
           "com.google.gson" "gson" "2.8.9" eq_refl eq_refl).
Defined.

(** C10, as stated, fails: the parser accepts an input the validator
    rejects. *)
Lemma validate_rejects_parsed_input :
  validate_dependency_format "::" = false
  /\ parse_dependency "::" = Ret ("", "", "")
  /\ ~ (forall s, validate_dependency_format s = true <->
                  exists c, parse_dependency s = Ret c).
Proof.
  split; [reflexivity|]. split; [reflexivity|].
  intros Hall. destruct (Hall "::") as [_ Hp].
  assert (Hv : validate_dependency_format "::" = true) by (apply Hp; now eexists).
  discriminate Hv.
Qed.

(** C10, amended.  The validator accepts an input exactly when the parser
    succeeds on it and the version is not blank and, for the two-colon form,
    the group and the artifact are not blank either. *)
Theorem validate_iff_parse_not_blank (s : string) :
  validate_dependency_format s = true <->
  exists g a v, parse_dependency s = Ret (g, a, v)
    /\ PyStr.strip v <> ""
    /\ (PyStr.count ":" s = 2 -> PyStr.strip g <> "" /\ PyStr.strip a <> "").
Proof.
  rewrite validate_dependency_format_split, parse_dependency_split, count_of_split.
  destruct (PyStr.split ":" s) as [|p1 [|p2 [|p3 [|p4 r]]]].
  - split; [discriminate | intros (g & a & v & Hp & _); discriminate].
  - split; [discriminate | intros (g & a & v & Hp & _); discriminate].
  - destruct (PyStr.contains "." p1) eqn:Hd; simpl.
    + destruct (split_last_dot p1 Hd) as (a & -> & _ & _). split.
      * intros Hv. eexists _, a, p2. split; [reflexivity|].
        split; [now apply nonempty_true_iff | discriminate].
      * intros (g' & a' & v' & Hp & Hv & _). injection Hp as _ _ <-.
        now apply nonempty_true_iff.
    + split; [discriminate | intros (g & a & v & Hp & _); discriminate].
  - simpl. split.
    + intros Hv. apply andb_true_iff in Hv as [Hv H3].
      apply andb_true_iff in Hv as [H1 H2].
      exists p1, p2, p3. rewrite <- !nonempty_true_iff. now repeat split.
    + intros (g & a & v & Hp & Hv & Hga). injection Hp as <- <- <-.
      destruct (Hga eq_refl) as [Hg Ha].
      rewrite <- nonempty_true_iff in Hv, Hg, Ha. now rewrite Hg, Ha, Hv.
  - split; [discriminate | intros (g & a & v & Hp & _); discriminate].
Qed.

(** ** Artifact URLs *)

Lemma replace_dots_as_slashes (group : string) :
  PyStr.replace "." "/" group = dots_as_slashes group.
Proof.
  unfold dots_as_slashes.
  induction group as [|x g IH]; [reflexivity|].
  cbn [PyStr.replace map_chars].
  destruct (Ascii.eqb x "."); cbn [append]; now rewrite IH.
Qed.


(** ** [urljoin] on plain URLs *)

Section UrljoinFacts.
Import Urllib.































End UrljoinFacts.

(** ** The canonical path as a list of segments *)







(** ** The existence check *)

Lemma io_bind_lift_ret {A B} (a : A) (k : A -> io B) :
  io_bind (lift (Ret a)) k = k a.
Proof. unfold lift, io_bind. now destruct (k a). Qed.

Lemma io_bind_lift_raise {A B} (e : exn) (k : A -> io B) :
  io_bind (lift (Raise e)) k = (Raise e, []).
Proof. reflexivity. Qed.

Lemma check_artifact_exists_eq (w : World) (url : string) :
  check_artifact_exists w url = (Ret (hosts w url), [EvHead url]).
Proof.
  unfold check_artifact_exists, session_head, hosts.
  destruct (http_head w url); reflexivity.
Qed.

Lemma hosts_true_iff (w : World) (url : string) :
  hosts w url = true <->
  exists code, http_head w url = HeadResponse code /\ (200 <= code < 400)%Z.
Proof.
  unfold hosts. destruct (http_head w url) as [code|f].
  - rewrite andb_true_iff, Z.leb_le, Z.ltb_lt. split.
    + intros Hc. now exists code.
    + intros (code' & Heq & Hc). now injection Heq as ->.
  - split; [discriminate | intros (code & Heq & _); discriminate].
Qed.

Lemma download_sources_loop_cons `{P : Platform} (w : World) (repo_url url : string)
    (rest : list string) (g a v out : string) (cb : option callback_fn) :
  get_artifact_url repo_url g a v (Some "sources") "jar" = Ret url ->
  hosts w url = false ->
  download_sources_loop w (repo_url :: rest) g a v out cb
  = (fst (download_sources_loop w rest g a v out cb),
     EvHead url :: snd (download_sources_loop w rest g a v out cb)).
Proof.
  intros Hu Hh. cbn [download_sources_loop]. rewrite Hu, io_bind_lift_ret.
  rewrite check_artifact_exists_eq, Hh. unfold io_bind.
  now destruct (download_sources_loop w rest g a v out cb).
Qed.

Lemma download_binary_loop_cons `{P : Platform} (w : World) (repo_url url : string)
    (rest : list string) (g a v out : string) (cb : option callback_fn) :
  get_artifact_url repo_url g a v None "jar" = Ret url ->
  hosts w url = false ->
  download_binary_loop w (repo_url :: rest) g a v out cb
  = (fst (download_binary_loop w rest g a v out cb),
     EvHead url :: snd (download_binary_loop w rest g a v out cb)).
Proof.
  intros Hu Hh. cbn [download_binary_loop]. rewrite Hu, io_bind_lift_ret.
  rewrite check_artifact_exists_eq, Hh. unfold io_bind.
  now destruct (download_binary_loop w rest g a v out cb).
Qed.

(** C4.  The existence check never raises and issues one HEAD request; its
    answer is true exactly when there is a response and its status is in
    [200, 400).  A network failure makes it answer false, and both repository
    loops then go on with the next repository. *)
Theorem check_artifact_exists_status `{P : Platform} (w : World) (url : string) :
  (exists answer : bool,
     check_artifact_exists w url = (Ret answer, [EvHead url])
     /\ (answer = true <->
         exists code, http_head w url = HeadResponse code
                      /\ (200 <= code < 400)%Z))
  /\
  (forall f, http_head w url = HeadRequestException f ->
   check_artifact_exists w url = (Ret false, [EvHead url])
   /\ (forall repo_url rest g a v out cb,
       get_artifact_url repo_url g a v (Some "sources") "jar" = Ret url ->
       download_sources_loop w (repo_url :: rest) g a v out cb
       = (fst (download_sources_loop w rest g a v out cb),
          EvHead url :: snd (download_sources_loop w rest g a v out cb)))
   /\ (forall repo_url rest g a v out cb,
       get_artifact_url repo_url g a v None "jar" = Ret url ->
       download_binary_loop w (repo_url :: rest) g a v out cb
       = (fst (download_binary_loop w rest g a v out cb),
          EvHead url :: snd (download_binary_loop w rest g a v out cb)))).
Proof.
  split.
  - exists (hosts w url). split; [apply check_artifact_exists_eq|].
    apply hosts_true_iff.
  - intros f Hf.
    assert (Hh : hosts w url = false) by (unfold hosts; now rewrite Hf).
    split; [now rewrite check_artifact_exists_eq, Hh|]. split.
    + intros repo_url rest g a v out cb Hu. now apply download_sources_loop_cons.
    + intros repo_url rest g a v out cb Hu. now apply download_binary_loop_cons.
Qed.

Lemma check_artifact_exists_status_witness :
  let url := "https://repo1.maven.org/maven2/g/a/1/a-1-sources.jar" in
  http_head offline_world url = HeadRequestException Timeout
  /\ get_artifact_url (P := posix) "https://repo1.maven.org/maven2/" "g" "a" "1"
       (Some "sources") "jar" = Ret url
  /\ check_artifact_exists offline_world url = (Ret false, [EvHead url])
  /\ download_sources_loop (P := posix) offline_world
       ["https://repo1.maven.org/maven2/"; mirror_a] "g" "a" "1" "downloads" None
     = (fst (download_sources_loop (P := posix) offline_world [mirror_a]
               "g" "a" "1" "downloads" None),
        EvHead url
        :: snd (download_sources_loop (P := posix) offline_world [mirror_a]
                  "g" "a" "1" "downloads" None)).
Proof.
  intros url. split; [reflexivity|]. split; [reflexivity|].
  destruct (proj2 (check_artifact_exists_status (P := posix) offline_world url)
              Timeout eq_refl) as (Hcheck & Hsources & _).
  split; [exact Hcheck|].
  exact (Hsources "https://repo1.maven.org/maven2/" [mirror_a] "g" "a" "1"
           "downloads" None eq_refl).
Defined.

(** ** Downloads *)

Section DownloadFacts.
Context `{P : Platform}.
Variable w : World.

Lemma download_file_cases (url output_path : string) (callback : option callback_fn) :
  (exists t, download_file w url output_path callback = (Ret false, EvGet url :: t))
  \/ (exists r total_size,
        http_get w url = GetResponse r
        /\ download_file w url output_path callback
           = (Ret true, success_trace url output_path callback r total_size)).
Proof.
  unfold download_file, success_trace, session_get, raise_for_status,
    int_content_length, os_makedirs, open_wb, log, emit.
  destruct (http_get w url) as [r|f]; cbn; [|left; now eexists].
  destruct ((400 <=? status_code r)%Z && (status_code r <? 600)%Z); cbn;
    [left; now eexists|].
  destruct (content_length r) as [[n|]|]; cbn; try (left; now eexists).
  - destruct (fs_makedirs w (os_path_dirname output_path)); cbn;
      [|left; now eexists].
    destruct (fs_open_wb w output_path); cbn; [|left; now eexists].
    destruct (write_chunks output_path callback n (chunks r) 0%Z) as [[[]|e] t] eqn:Ew;
      cbn; [|left; now eexists].
    destruct (stream_error r); cbn; [left; now eexists|].
    right. exists r, n. split; [reflexivity|]. now rewrite Ew.
  - destruct (fs_makedirs w (os_path_dirname output_path)); cbn;
      [|left; now eexists].
    destruct (fs_open_wb w output_path); cbn; [|left; now eexists].
    destruct (write_chunks output_path callback 0%Z (chunks r) 0%Z) as [[[]|e] t] eqn:Ew;
      cbn; [|left; now eexists].
    destruct (stream_error r); cbn; [left; now eexists|].
    right. exists r, 0%Z. split; [reflexivity|]. now rewrite Ew.
Qed.

Lemma download_file_result (url output_path : string) (callback : option callback_fn) :
  fst (download_file w url output_path callback) = Ret true
  \/ fst (download_file w url output_path callback) = Ret false.
Proof.
  destruct (download_file_cases url output_path callback)
    as [(t & ->)|(r & n & _ & ->)]; [now right | now left].
Qed.

Lemma write_chunks_events (output_path : string) (callback : option callback_fn)
    (total_size : Z) (cs : list string) (downloaded : Z) :
  Forall (writes_to output_path)
         (snd (write_chunks output_path callback total_size cs downloaded)).
Proof.
  revert downloaded. induction cs as [|chunk rest IH]; intros downloaded.
  - constructor.
  - cbn [write_chunks]. destruct (PyStr.nonempty chunk); [|apply IH].
    set (d := (downloaded + Z.of_nat (String.length chunk))%Z).
    specialize (IH d).
    destruct (write_chunks output_path callback total_size rest d) as [r t].
    destruct callback as [cb|]; cbn.
    + destruct (cb d total_size); cbn.
      * constructor; [reflexivity|]. constructor; [exact I | exact IH].
      * constructor; [reflexivity|]. constructor; [exact I | constructor].
    + constructor; [reflexivity | exact IH].
Qed.

Lemma download_sources_loop_generic (repos : list string) (g a v out : string)
    (cb : option callback_fn) :
  download_sources_loop w repos g a v out cb
  = download_loop w (Some "sources") repos g a v out cb.
Proof.
  induction repos as [|r rest IH]; [reflexivity|].
  cbn [download_sources_loop download_loop]. now rewrite IH.
Qed.

Lemma download_binary_loop_generic (repos : list string) (g a v out : string)
    (cb : option callback_fn) :
  download_binary_loop w repos g a v out cb
  = download_loop w None repos g a v out cb.
Proof.
  induction repos as [|r rest IH]; [reflexivity|].
  cbn [download_binary_loop download_loop]. rewrite IH.
  unfold local_path, classifier_suffix. cbn [append]. reflexivity.
Qed.

Section Loop.
Variables (classifier : option string) (g a v out : string)
  (cb : option callback_fn).

Let url (r : string) : result string := get_artifact_url r g a v classifier "jar".
Let path : string := local_path out g a v classifier.

(** One round of the loop, at a repository whose artifact URL forms. *)
Lemma download_loop_step (r u : string) (rest : list string) :
  url r = Ret u ->
  download_loop w classifier (r :: rest) g a v out cb
  = if serves w u path cb
    then (Ret (Some path), attempt w u path cb)
    else (fst (download_loop w classifier rest g a v out cb),
          (attempt w u path cb
           ++ snd (download_loop w classifier rest g a v out cb))%list).
Proof.
  intros Hu. pose proof (download_file_result u path cb) as Hd.
  cbn [download_loop]. unfold url, path in *. rewrite Hu, io_bind_lift_ret.
  rewrite check_artifact_exists_eq. unfold serves, attempt.
  destruct (hosts w _); cbn.
  - destruct (download_file w _ _ cb) as [res t].
    destruct Hd as [Hd|Hd]; cbn in Hd; subst res; cbn.
    + now rewrite app_nil_r.
    + now destruct (download_loop w classifier rest g a v out cb).
  - now destruct (download_loop w classifier rest g a v out cb).
Qed.

(** At a repository whose artifact URL cannot be formed, the loop ends
    with the exception of [urljoin], before any request to it. *)
Lemma download_loop_raise (r : string) (e : exn) (rest : list string) :
  url r = Raise e ->
  download_loop w classifier (r :: rest) g a v out cb = (Raise e, []).
Proof. intros Hu. cbn [download_loop]. unfold url in Hu. now rewrite Hu. Qed.

Lemma download_loop_none (repos : list string) (url_of : string -> string) :
  (forall r, In r repos -> url r = Ret (url_of r)) ->
  (forall r, In r repos -> serves w (url_of r) path cb = false) ->
  download_loop w classifier repos g a v out cb
  = (Ret None, flat_map (fun r => attempt w (url_of r) path cb) repos).
Proof.
  induction repos as [|r rest IH]; intros Hurl Hnone; [reflexivity|].
  rewrite (download_loop_step r _ rest (Hurl r (or_introl eq_refl))).
  rewrite (Hnone r (or_introl eq_refl)).
  rewrite IH by (intros r' Hr'; (apply Hurl || apply Hnone); now right).
  reflexivity.
Qed.

Lemma download_loop_first (pre post : list string) (r : string)
    (url_of : string -> string) :
  (forall r', In r' (pre ++ [r]) -> url r' = Ret (url_of r')) ->
  (forall r', In r' pre -> serves w (url_of r') path cb = false) ->
  serves w (url_of r) path cb = true ->
  download_loop w classifier (pre ++ r :: post) g a v out cb
  = (Ret (Some path), flat_map (fun r => attempt w (url_of r) path cb) (pre ++ [r])).
Proof.
  intros Hurl Hpre Hr. induction pre as [|r0 pre IH].
  - cbn [app]. rewrite (download_loop_step r _ post (Hurl r (or_introl eq_refl))), Hr.
    cbn. now rewrite app_nil_r.
  - cbn [app].
    rewrite (download_loop_step r0 _ _ (Hurl r0 (or_introl eq_refl))).
    rewrite (Hpre r0 (or_introl eq_refl)).
    rewrite IH by (intros r' Hr'; (apply Hurl || apply Hpre); now right).
    reflexivity.
Qed.

(** The loop returns, or it raises what [urljoin] raised for one of the
    repositories. *)
Lemma download_loop_outcome (repos : list string) :
  (exists r t, download_loop w classifier repos g a v out cb = (Ret r, t))
  \/ (exists repo e t,
        In repo repos /\ url repo = Raise e
        /\ download_loop w classifier repos g a v out cb = (Raise e, t)).
Proof.
  induction repos as [|r rest IH]; [left; now eexists _, _|].
  destruct (url r) as [u|e] eqn:Hu.
  - rewrite (download_loop_step r u rest Hu).
    destruct (serves w u path cb); [left; now eexists _, _|].
    destruct IH as [(res & t & ->)|(repo & e & t & Hin & He & ->)].
    + left. now eexists _, _.
    + right. exists repo, e. eexists. repeat split; [now right | exact He].
  - right. exists r, e, []. repeat split; [now left | exact Hu |].
    now apply download_loop_raise.
Qed.

(** When the URL of every repository forms, the loop returns. *)
Lemma download_loop_total (repos : list string) :
  (forall r, In r repos -> exists u, url r = Ret u) ->
  exists r t, download_loop w classifier repos g a v out cb = (Ret r, t).
Proof.
  intros Hurl.
  destruct (download_loop_outcome repos)
    as [Hret|(repo & e & t & Hin & He & _)]; [exact Hret|].
  destruct (Hurl repo Hin) as (u & Hu). congruence.
Qed.

(** A successful loop has written the file at the predicted path. *)
Lemma download_loop_success (repos : list string) (p : string) (t : list event) :
  download_loop w classifier repos g a v out cb = (Ret (Some p), t) ->
  p = path
  /\ exists t0 u t1,
       t = (t0 ++ EvGet u :: EvMakedirs (os_path_dirname p) :: EvOpen p :: t1)%list
       /\ Forall (writes_to p) t1.
Proof.
  revert t. induction repos as [|r rest IH]; intros t; [discriminate|].
  destruct (url r) as [u|e] eqn:Hu;
    [|rewrite (download_loop_raise r e rest Hu); discriminate].
  rewrite (download_loop_step r u rest Hu).
  destruct (serves w u path cb) eqn:Hs.
  - intros Heq. injection Heq as <- <-. split; [reflexivity|].
    unfold serves in Hs. apply andb_true_iff in Hs as [Hh Hd].
    unfold attempt. rewrite Hh.
    destruct (download_file_cases u path cb)
      as [(t' & Hf)|(resp & n & _ & Hf)]; rewrite Hf in Hd |- *;
      [discriminate|].
    exists [EvHead u], u. eexists. split; [reflexivity|].
    apply Forall_app. split; [apply write_chunks_events|].
    constructor; [exact I | constructor].
  - destruct (download_loop w classifier rest g a v out cb) as [res t'].
    cbn. intros Heq. injection Heq as -> <-.
    destruct (IH t' eq_refl) as (Hp & t0 & u' & t1 & -> & Hw).
    split; [exact Hp|].
    exists (attempt w u path cb ++ t0)%list, u', t1.
    split; [now rewrite <- app_assoc | exact Hw].
Qed.

End Loop.

End DownloadFacts.

Lemma parse_or_log_ok (dep g a v : string) :
  parse_dependency dep = Ret (g, a, v) ->
  parse_or_log dep = (Ret (Some (g, a, v)), []).
Proof. unfold parse_or_log. now intros ->. Qed.

Lemma parse_or_log_cases (dep : string) :
  (exists g a v, parse_dependency dep = Ret (g, a, v)
     /\ parse_or_log dep = (Ret (Some (g, a, v)), []))
  \/ (exists msg, parse_dependency dep = Raise (ValueError msg)
        /\ parse_or_log dep
           = (Ret None, [EvLog ERROR ("Invalid dependency format: " ++ msg)])).
Proof.
  unfold parse_or_log.
  destruct (parse_dependency_result dep) as [([[g a] v] & ->)|[->| ->]].
  - left. now exists g, a, v.
  - right. now eexists.
  - right. now eexists.
Qed.

(** C1, as stated, fails: both mirrors pass the existence check, the
    download from the first fails, and the archive is fetched from the
    second. *)
Lemma download_sources_fetches_later_repository :
  let url_a := "https://a.example/maven2/com/google/gson/gson/2.8.9/gson-2.8.9-sources.jar" in
  let url_b := "https://b.example/maven2/com/google/gson/gson/2.8.9/gson-2.8.9-sources.jar" in
  let path := "downloads/com/google/gson/gson/2.8.9/gson-2.8.9-sources.jar" in
  check_artifact_exists flaky_world url_a = (Ret true, [EvHead url_a])
  /\ check_artifact_exists flaky_world url_b = (Ret true, [EvHead url_b])
  /\ download_sources (P := posix) flaky_world [mirror_a; mirror_b]
       "com.google.gson:gson:2.8.9" "downloads" None
     = (Ret (Some path),
        [EvHead url_a; EvGet url_a; EvLog ERROR ("Failed to download " ++ url_a);
         EvHead url_b; EvGet url_b;
         EvMakedirs "downloads/com/google/gson/gson/2.8.9"; EvOpen path;
         EvWrite path "PK";
         EvLog INFO ("Downloaded: " ++ url_b ++ " -> " ++ path)]).
Proof. repeat split. Qed.

(** C1, amended.  The repositories are tried one at a time in list order,
    each with its probe and, when the probe passes, its download; the file
    returned comes from the first repository whose probe and download both
    succeed, and no repository after that one is probed or fetched.  This
    holds when the artifact URL of each repository up to that one can be
    formed: [urljoin] raises on a base URL or a coordinate that it rejects,
    and [download_sources] lets that exception through. *)
Theorem download_sources_first_serving `{P : Platform} (w : World)
    (pre post : list string) (repo_url dependency g a v out : string)
    (cb : option callback_fn) (url : string -> string) :
  let path := local_path out g a v (Some "sources") in
  parse_dependency dependency = Ret (g, a, v) ->
  (forall r, In r (pre ++ [repo_url]) ->
   get_artifact_url r g a v (Some "sources") "jar" = Ret (url r)) ->
  (forall r, In r pre -> serves w (url r) path cb = false) ->
  serves w (url repo_url) path cb = true ->
  download_sources w (pre ++ repo_url :: post) dependency out cb
  = (Ret (Some path),
     flat_map (fun r => attempt w (url r) path cb) (pre ++ [repo_url])).
Proof.
  intros path Hp Hurl Hpre Hr. unfold download_sources.
  rewrite (parse_or_log_ok _ _ _ _ Hp). cbn [io_bind].
  rewrite download_sources_loop_generic.
  rewrite (download_loop_first w (Some "sources") g a v out cb pre post repo_url
             url Hurl Hpre Hr).
  cbn. now rewrite app_nil_r.
Qed.

Lemma download_sources_first_serving_witness :
  let url_a := "https://a.example/maven2/com/google/gson/gson/2.8.9/gson-2.8.9-sources.jar" in
  let url_b := "https://b.example/maven2/com/google/gson/gson/2.8.9/gson-2.8.9-sources.jar" in
  let path := "downloads/com/google/gson/gson/2.8.9/gson-2.8.9-sources.jar" in
  serves (P := posix) flaky_world url_a path None = false
  /\ serves (P := posix) flaky_world url_b path None = true
  /\ download_sources (P := posix) flaky_world
       ([mirror_a] ++ mirror_b :: ["http://[bad/"])
       "com.google.gson:gson:2.8.9" "downloads" None
     = (Ret (Some path),
        [EvHead url_a; EvGet url_a; EvLog ERROR ("Failed to download " ++ url_a);
         EvHead url_b; EvGet url_b;
         EvMakedirs "downloads/com/google/gson/gson/2.8.9"; EvOpen path;
         EvWrite path "PK";
         EvLog INFO ("Downloaded: " ++ url_b ++ " -> " ++ path)]).
Proof.
  split; [reflexivity|]. split; [reflexivity|].
  refine (download_sources_first_serving (P := posix) flaky_world [mirror_a]
            ["http://[bad/"] mirror_b "com.google.gson:gson:2.8.9"
            "com.google.gson" "gson" "2.8.9" "downloads" None
            (fun r => r ++ "com/google/gson/gson/2.8.9/gson-2.8.9-sources.jar")
            eq_refl _ _ eq_refl).
  - intros r [<-|[<-|[]]]; reflexivity.
  - intros r [<-|[]]. reflexivity.
Defined.

(** A repository whose base URL [urljoin] rejects ends [download_sources]
    with that [ValueError] when the loop reaches it, also when a later
    repository serves the artifact. *)
Example download_sources_bad_base_raises :
  download_sources (P := posix) healthy_world ["http://[bad/"; mirror_a]
    "com.google.gson:gson:2.8.9" "downloads" None
  = (Raise (ValueError "Invalid IPv6 URL"), [])
  /\ validate_dependency_format ".:[" = true
  /\ download_sources (P := posix) healthy_world [mirror_a] ".:[" "downloads" None
     = (Raise (ValueError "Invalid IPv6 URL"), []).
Proof. repeat split. Qed.

(** X12.  When no repository serves the artifact, and the artifact URL of
    every repository can be formed, every repository has been tried, in list
    order, each with its probe and, when the probe passed, its failed
    download; the result is [None] and the last event is the warning that the
    sources were not found. *)
Lemma download_sources_not_found `{P : Platform} (w : World)
    (repositories : list string) (dependency g a v out : string)
    (cb : option callback_fn) (url : string -> string) :
  let path := local_path out g a v (Some "sources") in
  parse_dependency dependency = Ret (g, a, v) ->
  (forall r, In r repositories ->
   get_artifact_url r g a v (Some "sources") "jar" = Ret (url r)) ->
  (forall r, In r repositories -> serves w (url r) path cb = false) ->
  download_sources w repositories dependency out cb
  = (Ret None,
     (flat_map (fun r => attempt w (url r) path cb) repositories
      ++ [EvLog WARNING ("Sources JAR not found for " ++ dependency)])%list).
Proof.
  intros path Hp Hurl Hnone. unfold download_sources.
  rewrite (parse_or_log_ok _ _ _ _ Hp). cbn [io_bind].
  rewrite download_sources_loop_generic.
  now rewrite (download_loop_none w (Some "sources") g a v out cb repositories
                 url Hurl Hnone).
Qed.

(** [download_sources] and [download_binary] return a path or [None], or
    they raise what [urljoin] raised for one of the repositories. *)
Lemma download_sources_outcome `{P : Platform} (w : World)
    (repositories : list string) (dependency out : string)
    (cb : option callback_fn) :
  (exists r t, download_sources w repositories dependency out cb = (Ret r, t))
  \/ (exists g a v repo e t,
        parse_dependency dependency = Ret (g, a, v)
        /\ In repo repositories
        /\ get_artifact_url repo g a v (Some "sources") "jar" = Raise e
        /\ download_sources w repositories dependency out cb = (Raise e, t)).
Proof.
  unfold download_sources.
  destruct (parse_or_log_cases dependency)
    as [(g & a & v & Hp & ->)|(msg & _ & ->)]; [|left; now eexists _, _].
  cbn [io_bind]. rewrite download_sources_loop_generic.
  destruct (download_loop_outcome w (Some "sources") g a v out cb repositories)
    as [(r & t & ->)|(repo & e & t & Hin & He & ->)].
  - left. destruct r; now eexists _, _.
  - right. exists g, a, v, repo, e. eexists. repeat split; assumption.
Qed.

Lemma download_binary_outcome `{P : Platform} (w : World)
    (repositories : list string) (dependency out : string)
    (cb : option callback_fn) :
  (exists r t, download_binary w repositories dependency out cb = (Ret r, t))
  \/ (exists g a v repo e t,
        parse_dependency dependency = Ret (g, a, v)
        /\ In repo repositories
        /\ get_artifact_url repo g a v None "jar" = Raise e
        /\ download_binary w repositories dependency out cb = (Raise e, t)).
Proof.
  unfold download_binary.
  destruct (parse_or_log_cases dependency)
    as [(g & a & v & Hp & ->)|(msg & _ & ->)]; [|left; now eexists _, _].
  cbn [io_bind]. rewrite download_binary_loop_generic.
  destruct (download_loop_outcome w None g a v out cb repositories)
    as [(r & t & ->)|(repo & e & t & Hin & He & ->)].
  - left. destruct r; now eexists _, _.
  - right. exists g, a, v, repo, e. eexists. repeat split; assumption.
Qed.

(** X11.  A dependency string that the parser rejects makes
    [download_sources] answer [None] with one logged error and nothing else:
    no request is issued and no file is touched, whatever the repositories
    are. *)
Lemma download_sources_invalid `{P : Platform} (w : World)
    (repositories : list string) (dependency out msg : string)
    (cb : option callback_fn) :
  parse_dependency dependency = Raise (ValueError msg) ->
  download_sources w repositories dependency out cb
  = (Ret None, [EvLog ERROR ("Invalid dependency format: " ++ msg)]).
Proof. intros Hp. unfold download_sources, parse_or_log. now rewrite Hp. Qed.

(** On POSIX, with plain components, the predicted path is the literal
    formula with slashes. *)
Lemma endswith_cons (x : ascii) (s : string) :
  s <> "" -> PyStr.endswith (String x s) "/" = PyStr.endswith s "/".
Proof.
  destruct s as [|y s]; [congruence|]. intros _. unfold PyStr.endswith.
  cbn [String.length]. cbn [Nat.sub Nat.leb andb]. now rewrite Nat.sub_0_r.
Qed.

Lemma endswith_app (a b : string) :
  b <> "" -> PyStr.endswith (a ++ b) "/" = PyStr.endswith b "/".
Proof.
  intros Hb. induction a as [|x a IH]; [reflexivity|].
  cbn [append]. rewrite endswith_cons; [exact IH|].
  destruct a; [exact Hb | discriminate].
Qed.

Lemma posix_join2_plain (path c : string) :
  path <> "" -> PyStr.endswith path "/" = false -> plain c ->
  Posix.join2 path c = path ++ "/" ++ c
  /\ path ++ "/" ++ c <> "" /\ PyStr.endswith (path ++ "/" ++ c) "/" = false.
Proof.
  intros Hp He (Hc & Hs & Hend). unfold Posix.join2. rewrite Hs, He.
  apply nonempty_true_iff in Hp. rewrite Hp. cbn [negb orb].
  split; [reflexivity|]. split.
  - destruct path; [discriminate | discriminate].
  - rewrite endswith_app by discriminate.
    change ("/" ++ c) with (String "/" c). now rewrite endswith_cons.
Qed.

Lemma local_path_plain (root g a v : string) (classifier : option string) :
  root <> "" -> PyStr.endswith root "/" = false ->
  plain (dots_as_slashes g) -> plain a -> plain v ->
  local_path (P := posix) root g a v classifier
  = root ++ "/" ++ dots_as_slashes g ++ "/" ++ a ++ "/" ++ v ++ "/"
    ++ a ++ "-" ++ v ++ classifier_suffix classifier ++ ".jar".
Proof.
  intros Hr He Hg Ha Hv. unfold local_path. cbn [os_path_join os_sep posix].
  rewrite replace_dots_as_slashes. unfold Posix.join. cbn [fold_left].
  destruct (posix_join2_plain root _ Hr He Hg) as (-> & Hr1 & He1).
  destruct (posix_join2_plain _ _ Hr1 He1 Ha) as (-> & Hr2 & He2).
  destruct (posix_join2_plain _ _ Hr2 He2 Hv) as (-> & Hr3 & He3).
  unfold Posix.join2. rewrite He3.
  apply nonempty_true_iff in Hr3. rewrite Hr3. cbn [negb orb].
  destruct Ha as (Ha0 & Ha1 & _).
  destruct a as [|x a]; [congruence|].
  cbn [append Posix.startswith_sep] in Ha1 |- *.
  rewrite Ha1. repeat (rewrite append_assoc; cbn [append]). reflexivity.
Qed.

(** X16.  On POSIX, for a root that is not empty and does not end in a
    slash, and a group path, artifact and version that are not empty and
    neither start nor end with a slash, the local path is literally
    [root/group-path/artifact/version/artifact-version[-classifier].jar]. *)
Lemma posix_local_path (root g a v : string) (classifier : option string) :
  root <> "" -> PyStr.endswith root "/" = false ->
  plain (dots_as_slashes g) -> plain a -> plain v ->
  local_path (P := posix) root g a v classifier
  = root ++ "/" ++ dots_as_slashes g ++ "/" ++ a ++ "/" ++ v ++ "/"
    ++ a ++ "-" ++ v ++ classifier_suffix classifier ++ ".jar".
Proof. exact (local_path_plain root g a v classifier). Qed.

(** What [download_sources] and [download_binary] return, on every
    platform: the [os.path.join] of the root, the group with dots replaced by
    the separator, the artifact, the version and the file name; and the trace
    shows the parent directory of that path created and the file opened
    there, followed only by writes to that file, progress callbacks and the
    closing log line. *)
Lemma download_returns_local_path `{P : Platform} (w : World)
    (repositories : list string) (dependency out : string)
    (cb : option callback_fn) (p : string) (t : list event) :
  (download_sources w repositories dependency out cb = (Ret (Some p), t) ->
   exists g a v, parse_dependency dependency = Ret (g, a, v)
     /\ p = local_path out g a v (Some "sources")
     /\ exists t0 u t1,
          t = (t0 ++ EvGet u :: EvMakedirs (os_path_dirname p) :: EvOpen p :: t1)%list
          /\ Forall (writes_to p) t1)
  /\
  (download_binary w repositories dependency out cb = (Ret (Some p), t) ->
   exists g a v, parse_dependency dependency = Ret (g, a, v)
     /\ p = local_path out g a v None
     /\ exists t0 u t1,
          t = (t0 ++ EvGet u :: EvMakedirs (os_path_dirname p) :: EvOpen p :: t1)%list
          /\ Forall (writes_to p) t1).
Proof.
  split.
  - unfold download_sources.
    destruct (parse_or_log_cases dependency)
      as [(g & a & v & Hp & ->)|(msg & _ & ->)]; [|discriminate].
    cbn [io_bind]. rewrite download_sources_loop_generic.
    destruct (download_loop w (Some "sources") repositories g a v out cb)
      as [[[p'|]|e] t'] eqn:Hl; cbn; try discriminate.
    intros Heq. injection Heq as -> <-.
    destruct (download_loop_success w _ g a v out cb _ _ _ Hl)
      as (Hpath & t0 & u & t1 & -> & Hw).
    exists g, a, v. split; [exact Hp|]. split; [exact Hpath|].
    exists t0, u, t1. split; [now rewrite app_nil_r | exact Hw].
  - unfold download_binary.
    destruct (parse_or_log_cases dependency)
      as [(g & a & v & Hp & ->)|(msg & _ & ->)]; [|discriminate].
    cbn [io_bind]. rewrite download_binary_loop_generic.
    destruct (download_loop w None repositories g a v out cb)
      as [[[p'|]|e] t'] eqn:Hl; cbn; try discriminate.
    intros Heq. injection Heq as -> <-.
    destruct (download_loop_success w _ g a v out cb _ _ _ Hl)
      as (Hpath & t0 & u & t1 & -> & Hw).
    exists g, a, v. split; [exact Hp|]. split; [exact Hpath|].
    exists t0, u, t1. split; [now rewrite app_nil_r | exact Hw].
Qed.

(** C7, as stated, fails: [os.path.join] drops everything before a
    component that starts with a slash.  For the validated input
    [g:/tmp/x:1] the file is written to [/tmp/x-1-sources.jar], outside the
    destination root, and not to the path of the formula. *)
Lemma download_sources_writes_outside_root :
  let url := "https://a.example/maven2/g/tmp/x/1/tmp/x-1-sources.jar" in
  validate_dependency_format "g:/tmp/x:1" = true
  /\ parse_dependency "g:/tmp/x:1" = Ret ("g", "/tmp/x", "1")
  /\ download_sources (P := posix) healthy_world [mirror_a] "g:/tmp/x:1"
       "downloads" None
     = (Ret (Some "/tmp/x-1-sources.jar"),
        [EvHead url; EvGet url; EvMakedirs "/tmp"; EvOpen "/tmp/x-1-sources.jar";
         EvWrite "/tmp/x-1-sources.jar" "PK";
         EvLog INFO ("Downloaded: " ++ url ++ " -> /tmp/x-1-sources.jar")])
  /\ "downloads" ++ "/" ++ dots_as_slashes "g" ++ "/" ++ "/tmp/x" ++ "/" ++ "1" ++ "/"
       ++ "/tmp/x" ++ "-" ++ "1" ++ "-sources.jar"
     = "downloads/g//tmp/x/1//tmp/x-1-sources.jar"
  /\ "/tmp/x-1-sources.jar" <> "downloads/g//tmp/x/1//tmp/x-1-sources.jar".
Proof. repeat split. discriminate. Qed.

(** C7, amended.  On POSIX, for a destination root that is not empty and
    does not end in a slash, and a coordinate whose group path, artifact and
    version are not empty and neither start nor end with a slash: when
    [download_sources] or [download_binary] returns a path, it is exactly
    [root/group-path/artifact/version/artifact-version[-sources].jar], and the
    trace shows the parent directory of that path created and the file
    opened there, followed only by writes to that file, progress callbacks
    and the closing log line. *)
Theorem download_writes_predicted_path (w : World)
    (repositories : list string) (dependency g a v out : string)
    (cb : option callback_fn) (p : string) (t : list event) :
  parse_dependency dependency = Ret (g, a, v) ->
  out <> "" -> PyStr.endswith out "/" = false ->
  plain (dots_as_slashes g) -> plain a -> plain v ->
  (download_sources (P := posix) w repositories dependency out cb
   = (Ret (Some p), t) ->
   p = out ++ "/" ++ dots_as_slashes g ++ "/" ++ a ++ "/" ++ v ++ "/"
       ++ a ++ "-" ++ v ++ "-sources.jar"
   /\ exists t0 u t1,
        t = (t0 ++ EvGet u :: EvMakedirs (Posix.dirname p) :: EvOpen p :: t1)%list
        /\ Forall (writes_to p) t1)
  /\
  (download_binary (P := posix) w repositories dependency out cb
   = (Ret (Some p), t) ->
   p = out ++ "/" ++ dots_as_slashes g ++ "/" ++ a ++ "/" ++ v ++ "/"
       ++ a ++ "-" ++ v ++ ".jar"
   /\ exists t0 u t1,
        t = (t0 ++ EvGet u :: EvMakedirs (Posix.dirname p) :: EvOpen p :: t1)%list
        /\ Forall (writes_to p) t1).
Proof.
  intros Hp Hout Hend Hg Ha Hv. split; intros Hd.
  - destruct (proj1 (download_returns_local_path (P := posix) w repositories
                       dependency out cb p t) Hd)
      as (g' & a' & v' & Hp' & Hpath & Ht).
    rewrite Hp in Hp'. injection Hp' as <- <- <-.
    split; [|exact Ht].
    rewrite Hpath. exact (local_path_plain out g a v (Some "sources") Hout Hend Hg Ha Hv).
  - destruct (proj2 (download_returns_local_path (P := posix) w repositories
                       dependency out cb p t) Hd)
      as (g' & a' & v' & Hp' & Hpath & Ht).
    rewrite Hp in Hp'. injection Hp' as <- <- <-.
    split; [|exact Ht].
    rewrite Hpath. exact (local_path_plain out g a v None Hout Hend Hg Ha Hv).
Qed.

Lemma download_writes_predicted_path_witness :
  let url_a := "https://a.example/maven2/com/google/gson/gson/2.8.9/gson-2.8.9-sources.jar" in
  let path := "downloads/com/google/gson/gson/2.8.9/gson-2.8.9-sources.jar" in
  let trace := [EvHead url_a; EvGet url_a;
                EvMakedirs "downloads/com/google/gson/gson/2.8.9"; EvOpen path;
                EvWrite path "PK";
                EvLog INFO ("Downloaded: " ++ url_a ++ " -> " ++ path)] in
  download_sources (P := posix) healthy_world [mirror_a]
    "com.google.gson:gson:2.8.9" "downloads" None = (Ret (Some path), trace)
  /\ path = "downloads" ++ "/" ++ dots_as_slashes "com.google.gson" ++ "/" ++ "gson"
            ++ "/" ++ "2.8.9" ++ "/" ++ "gson" ++ "-" ++ "2.8.9" ++ "-sources.jar"
  /\ exists t0 u t1,
       trace = (t0 ++ EvGet u :: EvMakedirs (Posix.dirname path)
                   :: EvOpen path :: t1)%list
       /\ Forall (writes_to path) t1.
Proof.
  assert (Hplain : forall s, s = "com/google/gson" \/ s = "gson" \/ s = "2.8.9" ->
                             plain s)
    by (intros s [-> | [-> | ->]]; (split; [discriminate | split; reflexivity])).
  split; [reflexivity|].
  refine (proj1 (download_writes_predicted_path healthy_world [mirror_a]
                   "com.google.gson:gson:2.8.9" "com.google.gson" "gson" "2.8.9"
                   "downloads" None _ _ eq_refl _ eq_refl _ _ _) eq_refl).
  - discriminate.
  - apply Hplain. now left.
  - apply Hplain. right. now left.
  - apply Hplain. right. now right.
Defined.

(** ** Sorting and de-duplication *)

Lemma insert_desc_perm (x : string) (l : list string) :
  Permutation (x :: l) (insert_desc x l).
Proof.
  induction l as [|y l IH]; cbn [insert_desc]; [reflexivity|].
  destruct (String.leb y x); [reflexivity|].
  rewrite perm_swap. now constructor.
Qed.

Lemma sorted_reverse_perm (l : list string) : Permutation l (sorted_reverse l).
Proof.
  induction l as [|x l IH]; cbn; [constructor|].
  rewrite <- insert_desc_perm. now constructor.
Qed.

Lemma insert_desc_sorted (x : string) (l : list string) :
  Sorted desc l -> Sorted desc (insert_desc x l).
Proof.
  induction l as [|y l IH]; cbn [insert_desc]; intros Hs.
  - repeat constructor.
  - destruct (String.leb y x) eqn:Hyx.
    + constructor; [exact Hs | constructor; exact Hyx].
    + inversion Hs as [|? ? Hs' Hhd]; subst.
      constructor; [now apply IH|].
      assert (Hxy : desc y x).
      { unfold desc. destruct (String.leb_total x y) as [Hle|Hle];
          [exact Hle | congruence]. }
      destruct l as [|z l]; cbn [insert_desc].
      * constructor. exact Hxy.
      * destruct (String.leb z x); constructor; [exact Hxy|].
        now inversion Hhd.
Qed.

Lemma sorted_reverse_sorted (l : list string) : Sorted desc (sorted_reverse l).
Proof.
  induction l as [|x l IH]; cbn; [constructor | now apply insert_desc_sorted].
Qed.

Lemma in_list_iff (x : string) (l : list string) : in_list x l = true <-> In x l.
Proof.
  unfold in_list. rewrite existsb_exists. split.
  - intros (y & Hy & Heq). apply String.eqb_eq in Heq. now subst.
  - intros Hx. exists x. split; [exact Hx | apply String.eqb_refl].
Qed.

Lemma append_versions_nodup (elems : list element) (acc : list string) :
  NoDup acc -> NoDup (append_versions elems acc).
Proof.
  revert acc. induction elems as [|e elems IH]; intros acc Hacc; [exact Hacc|].
  cbn [append_versions]. destruct (text_of e) as [t|]; [|now apply IH].
  destruct (PyStr.nonempty t); cbn [andb]; [|now apply IH].
  destruct (in_list t acc) eqn:Hin; cbn [negb]; [now apply IH|].
  apply IH. apply NoDup_app; repeat split.
  - exact Hacc.
  - repeat constructor. intros [].
  - intros x Hx [<-|[]]. apply in_list_iff in Hx. congruence.
Qed.

Lemma append_versions_in (elems : list element) (acc : list string) (v : string) :
  In v (append_versions elems acc) <->
  In v acc \/ exists e, In e elems /\ text_of e = Some v /\ v <> "".
Proof.
  revert acc. induction elems as [|e elems IH]; intros acc.
  - cbn. split; [now left | intros [Hv|(e & [] & _)]; exact Hv].
  - cbn [append_versions].
    assert (Hskip : (In v acc \/ exists e', In e' elems /\ text_of e' = Some v /\ v <> "")
                    -> In v acc \/ exists e', In e' (e :: elems)
                                      /\ text_of e' = Some v /\ v <> "").
    { intros [Hv|(e' & He' & Ht)]; [now left | right; exists e'; split;
        [now right | exact Ht]]. }
    destruct (text_of e) as [t|] eqn:Ht.
    + destruct (PyStr.nonempty t) eqn:Hne; cbn [andb].
      * destruct (in_list t acc) eqn:Hin; cbn [negb]; rewrite IH.
        -- split; [exact Hskip|].
           intros [Hv|(e' & [<-|He'] & Ht' & Hv)]; [now left | |].
           ++ left. apply in_list_iff. congruence.
           ++ right. now exists e'.
        -- rewrite in_app_iff. split.
           ++ intros [[Hv|[<-|[]]]|(e' & He' & Ht')].
              ** now left.
              ** right. exists e. split; [now left|]. split; [exact Ht|].
                 now apply nonempty_true_iff.
              ** right. exists e'. split; [now right | exact Ht'].
           ++ intros [Hv|(e' & [<-|He'] & Ht' & Hv)].
              ** left. now left.
              ** left. right. left. congruence.
              ** right. now exists e'.
      * rewrite IH. split; [exact Hskip|].
        intros [Hv|(e' & [<-|He'] & Ht' & Hv)]; [now left | |].
        -- exfalso. assert (t = v) by congruence. subst t.
           apply nonempty_true_iff in Hv. congruence.
        -- right. now exists e'.
    + rewrite IH. split; [exact Hskip|].
      intros [Hv|(e' & [<-|He'] & Ht' & Hv)]; [now left | congruence |].
      right. now exists e'.
Qed.

(** ** Version listing *)

Section VersionFacts.
Context `{P : Platform}.
Variable w : World.
Variables g a : string.

(** One round of the loop over the repositories. *)
Lemma find_versions_loop_step (r : string) (rest acc : list string) :
  exists acc' t0,
    find_versions_loop w (r :: rest) g a acc
    = (fst (find_versions_loop w rest g a acc'),
       (t0 ++ snd (find_versions_loop w rest g a acc'))%list)
    /\ (NoDup acc -> NoDup acc')
    /\ (forall v, In v acc' <-> In v acc \/ reports w g a r v)
    /\ (forall url, get_metadata_url r g a = Ret url -> fails_to_respond w url ->
        acc' = acc
        /\ t0 = [EvGet url; EvLog WARNING ("Failed to get versions from " ++ r)])
    /\ (forall e, get_metadata_url r g a = Raise e ->
        acc' = acc
        /\ t0 = [EvLog WARNING ("Failed to get versions from " ++ r)]).
Proof.
  cbn [find_versions_loop]. unfold reports, fails_to_respond, session_get_metadata.
  destruct (get_metadata_url r g a) as [url|e0] eqn:Hu.
  2:{ cbn. exists acc, [EvLog WARNING ("Failed to get versions from " ++ r)].
      split; [destruct (find_versions_loop w rest g a _); reflexivity|].
      split; [trivial|]. split; [|split].
      - intros v. split; [now left|].
        intros [Hv|(url & root' & e & Heq & _)]; [exact Hv | discriminate].
      - intros url Heq. discriminate.
      - intros e _. split; reflexivity. }
  rewrite io_bind_lift_ret.
  destruct (http_get_metadata w url) as [code doc|f] eqn:Hm.
  - cbn. destruct (Z.eqb_spec code 200) as [->|Hcode].
    + destruct doc as [root|]; cbn.
      * exists (append_versions (version_elements root) acc), [EvGet url].
        split; [destruct (find_versions_loop w rest g a _); reflexivity|].
        split; [apply append_versions_nodup|]. split; [|split].
        -- intros v. rewrite append_versions_in. split.
           ++ intros [Hv|(e & He & Ht & Hv)]; [now left|].
              right. now exists url, root, e.
           ++ intros [Hv|(url' & root' & e & Hu' & Heq & He & Ht & Hv)]; [now left|].
              injection Hu' as <-. rewrite Hm in Heq. injection Heq as <-.
              right. now exists e.
        -- intros url' Hu' [(f & Hf)|Hf]; injection Hu' as <-;
             rewrite Hm in Hf; discriminate.
        -- intros e Heq. discriminate.
      * exists acc, [EvGet url; EvLog WARNING ("Failed to get versions from " ++ r)].
        split; [destruct (find_versions_loop w rest g a _); reflexivity|].
        split; [trivial|]. split; [|split].
        -- intros v. split; [now left|].
           intros [Hv|(url' & root' & e & Hu' & Heq & _)]; [exact Hv|].
           injection Hu' as <-. rewrite Hm in Heq. discriminate.
        -- intros url' Hu' _. injection Hu' as <-. split; reflexivity.
        -- intros e Heq. discriminate.
    + cbn. exists acc, [EvGet url].
      split; [destruct (find_versions_loop w rest g a _); reflexivity|].
      split; [trivial|]. split; [|split].
      * intros v. split; [now left|].
        intros [Hv|(url' & root' & e & Hu' & Heq & _)]; [exact Hv|].
        injection Hu' as <-. rewrite Hm in Heq. congruence.
      * intros url' Hu' [(f & Hf)|Hf]; injection Hu' as <-;
          rewrite Hm in Hf; [discriminate | congruence].
      * intros e Heq. discriminate.
  - cbn. exists acc, [EvGet url; EvLog WARNING ("Failed to get versions from " ++ r)].
    split; [destruct (find_versions_loop w rest g a _); reflexivity|].
    split; [trivial|]. split; [|split].
    + intros v. split; [now left|].
      intros [Hv|(url' & root' & e & Hu' & Heq & _)]; [exact Hv|].
      injection Hu' as <-. rewrite Hm in Heq. discriminate.
    + intros url' Hu' _. injection Hu' as <-. split; reflexivity.
    + intros e Heq. discriminate.
Qed.

Lemma find_versions_loop_spec (repos acc : list string) :
  exists vs t,
    find_versions_loop w repos g a acc = (Ret vs, t)
    /\ (NoDup acc -> NoDup vs)
    /\ (forall v, In v vs <-> In v acc \/ exists r, In r repos /\ reports w g a r v).
Proof.
  revert acc. induction repos as [|r rest IH]; intros acc.
  - exists acc, []. split; [reflexivity|]. split; [trivial|].
    intros v. split; [now left | intros [Hv|(r & [] & _)]; exact Hv].
  - destruct (find_versions_loop_step r rest acc) as (acc' & t0 & -> & Hnd & Hin & _).
    destruct (IH acc') as (vs & t & -> & Hnd' & Hin').
    exists vs, (t0 ++ t)%list. split; [reflexivity|]. split; [auto|].
    intros v. rewrite Hin', Hin. split.
    + intros [[Hv|Hr]|(r' & Hr' & Hrep)].
      * now left.
      * right. exists r. split; [now left | exact Hr].
      * right. exists r'. split; [now right | exact Hrep].
    + intros [Hv|(r' & [<-|Hr'] & Hrep)].
      * left. now left.
      * left. now right.
      * right. now exists r'.
Qed.

(** X14.  [find_available_versions] never raises, and its result holds
    exactly the non-empty versions that some repository reports (status 200,
    well-formed document, a [versioning/versions/version] text), each once,
    in descending code-point order. *)
Lemma find_available_versions_listing (repos : list string) :
  exists vs t,
    find_available_versions w repos g a = (Ret vs, t)
    /\ Sorted desc vs /\ NoDup vs
    /\ (forall v, In v vs <-> exists r, In r repos /\ reports w g a r v).
Proof.
  unfold find_available_versions.
  destruct (find_versions_loop_spec repos []) as (vs & t & -> & Hnd & Hin).
  exists (sorted_reverse vs), t. cbn. rewrite app_nil_r.
  split; [reflexivity|]. split; [apply sorted_reverse_sorted|]. split.
  - eapply Permutation_NoDup; [apply sorted_reverse_perm|]. apply Hnd. constructor.
  - intros v. rewrite <- (Permutation_in' eq_refl (sorted_reverse_perm vs)), Hin.
    split; [intros [[]|Hr]; exact Hr | now right].
Qed.

(** X15.  A repository whose metadata request fails, or whose document
    does not parse, contributes one warning and nothing else: the listing is
    the one of the remaining repositories. *)
Lemma find_available_versions_skips (r : string) (rest : list string)
    (metadata_url : string) :
  get_metadata_url r g a = Ret metadata_url ->
  fails_to_respond w metadata_url ->
  find_available_versions w (r :: rest) g a
  = (fst (find_available_versions w rest g a),
     EvGet metadata_url
     :: EvLog WARNING ("Failed to get versions from " ++ r)
     :: snd (find_available_versions w rest g a)).
Proof.
  intros Hu Hf. unfold find_available_versions.
  destruct (find_versions_loop_step r rest [])
    as (acc' & t0 & -> & _ & _ & Hskip & _).
  destruct (Hskip _ Hu Hf) as [-> ->].
  destruct (find_versions_loop_spec rest []) as (vs & t & -> & _).
  reflexivity.
Qed.

(** A repository whose metadata URL cannot be formed is skipped in the same
    way, with the warning and without a request: here the exception of
    [urljoin] is raised inside the [try]. *)
Lemma find_available_versions_skips_bad_url (r : string) (rest : list string)
    (e : exn) :
  get_metadata_url r g a = Raise e ->
  find_available_versions w (r :: rest) g a
  = (fst (find_available_versions w rest g a),
     EvLog WARNING ("Failed to get versions from " ++ r)
     :: snd (find_available_versions w rest g a)).
Proof.
  intros Hu. unfold find_available_versions.
  destruct (find_versions_loop_step r rest [])
    as (acc' & t0 & -> & _ & _ & _ & Hskip).
  destruct (Hskip _ Hu) as [-> ->].
  destruct (find_versions_loop_spec rest []) as (vs & t & -> & _).
  reflexivity.
Qed.

End VersionFacts.

Example find_available_versions_merges :
  find_available_versions (P := posix) merge_world
    [mirror_a; "https://down.example/"; "http://[bad/"; mirror_b] "g" "a"
  = (Ret ["3.0"; "2.0"; "1.0"],
     [EvGet "https://a.example/maven2/g/a/maven-metadata.xml";
      EvGet "https://down.example/g/a/maven-metadata.xml";
      EvLog WARNING "Failed to get versions from https://down.example/";
      EvLog WARNING "Failed to get versions from http://[bad/";
      EvGet "https://b.example/maven2/g/a/maven-metadata.xml"]).
Proof. reflexivity. Qed.

(** C5: the code at the failing input.  A repository lists 9.0 and 10.0;
    the listing returned has 9.0 first although 10.0 is the newer one. *)
Theorem find_available_versions_not_newest_first :
  find_available_versions (P := posix) versions_world
    ["https://repo1.maven.org/maven2/"] "g" "a"
  = (Ret ["9.0"; "10.0"],
     [EvGet "https://repo1.maven.org/maven2/g/a/maven-metadata.xml"])
  /\ older "9.0" "10.0" = true.
Proof. split; reflexivity. Qed.

(** ** The decompilation fallback *)

Section DecompilerFacts.
Context `{P : Platform}.
Variable env : DecompilerEnv.

Lemma create_sources_jar_total (decompiled_dir output_jar_path : string) :
  exists b, create_sources_jar env decompiled_dir output_jar_path = Ret b.
Proof.
  unfold create_sources_jar, catch, bind.
  destruct (makedirs env _); [|now eexists].
  destruct (walk env _); [|now eexists].
  destruct (zip_write env _ _); now eexists.
Qed.

(** With the Java check behind it, [decompile_jar] catches everything. *)
Lemma decompile_jar_after_check (self : JavaDecompiler) (jar_path output_dir : string)
    (cb : option decompile_callback) (java : bool) :
  check_java_available env = Ret java ->
  exists b, decompile_jar env self jar_path output_dir cb = Ret b
    /\ (b = true ->
        path_exists env jar_path = true /\ java = true
        /\ run_cfr env (cfr_command self jar_path output_dir) = Completed 0%Z).
Proof.
  intros Hj. unfold decompile_jar. rewrite Hj. cbn [bind].
  destruct (path_exists env jar_path); cbn [negb];
    [|exists false; split; [reflexivity | discriminate]].
  destruct java; cbn [negb];
    [|exists false; split; [reflexivity | discriminate]].
  unfold catch, bind.
  destruct (makedirs env output_dir);
    [|exists false; split; [reflexivity | discriminate]].
  destruct (call_back cb 0%Z 100%Z _);
    [|exists false; split; [reflexivity | discriminate]].
  destruct (run_cfr env _) as [rc|e];
    [|exists false; split; [reflexivity | discriminate]].
  destruct (Z.eqb_spec rc 0) as [->|Hrc];
    [|exists false; split; [reflexivity | discriminate]].
  destruct (call_back cb 100%Z 100%Z _);
    [|exists false; split; [reflexivity | discriminate]].
  exists true. now repeat split.
Qed.

Lemma check_java_available_total :
  (forall e, java_version env = RunRaises e ->
             e = TimeoutExpired \/ e = FileNotFoundError) ->
  exists java, check_java_available env = Ret java
    /\ (java = true -> java_version env = Completed 0%Z).
Proof.
  intros Hj. unfold check_java_available.
  destruct (java_version env) as [rc|e].
  - exists (rc =? 0)%Z. split; [reflexivity|].
    intros Hrc. apply Z.eqb_eq in Hrc. now subst.
  - destruct (Hj e eq_refl) as [-> | ->]; exists false;
      (split; [reflexivity | discriminate]).
Qed.

End DecompilerFacts.

(** With the scratch directory made and removed without error, the outcome
    of [decompile_and_package] is the outcome of its body. *)
Lemma with_temporary_directory_ok `{P : Platform} (env : DecompilerEnv) {A}
    (body : string -> result A) (temp_dir : string) :
  mkdtemp env = Ret temp_dir -> cleanup env temp_dir = Ret tt ->
  with_temporary_directory env body = body temp_dir.
Proof.
  intros Hmk Hrm. unfold with_temporary_directory. rewrite Hmk. cbn [bind].
  destruct (body temp_dir); now rewrite Hrm.
Qed.

(** C8, as stated, fails: when the decompiler binary is not cached and its
    download fails, the constructor re-raises the error and the fallback
    ends with that exception. *)
Lemma decompiler_download_failure_raises :
  JavaDecompiler_init (P := posix) no_cfr_env None
  = Raise (RequestException ConnectionRefused)
  /\ decompilation_fallback (P := posix) no_cfr_env "downloads/gson-2.8.9.jar"
       "downloads" None
     = Raise (RequestException ConnectionRefused).
Proof. split; reflexivity. Qed.

(** Two more failures reach the caller of [decompile_and_package] as
    exceptions: an exception of the Java version check other than the two
    that [check_java_available] catches, which is raised outside the [try] of
    [decompile_jar], and a failure to make the temporary directory. *)
Example decompile_and_package_lets_exceptions_through :
  decompile_and_package (P := posix)
    {| path_exists := fun _ => true; makedirs := fun _ => Ret tt;
       fetch_cfr := fun _ => Ret tt; java_version := RunRaises OSError;
       run_cfr := fun _ => Completed 0%Z; walk := fun _ => Ret [];
       zip_write := fun _ _ => Ret tt; mkdtemp := Ret "/tmp/tmpabc";
       cleanup := fun _ => Ret tt |}
    {| cfr_path := "/opt/cfr.jar" |} "downloads/gson-2.8.9.jar" "downloads" None
  = Raise OSError
  /\ decompile_and_package (P := posix)
       {| path_exists := fun _ => true; makedirs := fun _ => Ret tt;
          fetch_cfr := fun _ => Ret tt; java_version := Completed 0%Z;
          run_cfr := fun _ => Completed 0%Z; walk := fun _ => Ret [];
          zip_write := fun _ _ => Ret tt; mkdtemp := Raise OSError;
          cleanup := fun _ => Ret tt |}
       {| cfr_path := "/opt/cfr.jar" |} "downloads/gson-2.8.9.jar" "downloads" None
     = Raise OSError.
Proof. split; reflexivity. Qed.

(** C8, amended.  Once a decompiler object exists, and provided that the
    temporary directory can be made and removed and that the Java version
    check completes, times out or finds no Java, [decompile_and_package]
    always returns and never raises: the archive path only when the JAR
    exists, Java answers 0, the decompiler exits with 0 and the packaging
    succeeds, and [None] for a missing JAR, a missing or failing Java, a
    non-zero decompiler exit, a timeout or any other exception of the
    decompiler run.  A failed download of the decompiler binary is raised by
    the constructor, before [decompile_and_package] can be called. *)
Theorem decompile_and_package_reports_failure `{P : Platform}
    (env : DecompilerEnv) (self : JavaDecompiler) (jar_path output_dir : string)
    (cb : option decompile_callback) (temp_dir : string) :
  (forall e, java_version env = RunRaises e ->
             e = TimeoutExpired \/ e = FileNotFoundError) ->
  mkdtemp env = Ret temp_dir ->
  cleanup env temp_dir = Ret tt ->
  let decompiled_dir := os_path_join temp_dir ["decompiled"] in
  let cmd := cfr_command self jar_path decompiled_dir in
  (exists r, decompile_and_package env self jar_path output_dir cb = Ret r)
  /\ (forall p, decompile_and_package env self jar_path output_dir cb = Ret (Some p) ->
      path_exists env jar_path = true
      /\ java_version env = Completed 0%Z
      /\ run_cfr env cmd = Completed 0%Z
      /\ create_sources_jar env decompiled_dir p = Ret true)
  /\ (path_exists env jar_path = false \/ java_version env <> Completed 0%Z
      \/ run_cfr env cmd <> Completed 0%Z ->
      decompile_and_package env self jar_path output_dir cb = Ret None)
  /\ (forall e,
      let cfr_dir := os_path_join (os_path_expanduser "~") [".gradle_downloader"] in
      path_exists env (os_path_join cfr_dir ["cfr.jar"]) = false ->
      makedirs env cfr_dir = Ret tt ->
      fetch_cfr env (os_path_join cfr_dir ["cfr.jar"]) = Raise e ->
      JavaDecompiler_init env None = Raise e
      /\ decompilation_fallback env jar_path output_dir cb = Raise e).
Proof.
  intros Hj Hmk Hrm decompiled_dir cmd.
  destruct (check_java_available_total env Hj) as (java & Hc & Hjava).
  destruct (decompile_jar_after_check env self jar_path decompiled_dir cb java Hc)
    as (b & Hd & Hb).
  assert (Hsome : forall p,
            decompile_and_package env self jar_path output_dir cb = Ret (Some p) ->
            path_exists env jar_path = true
            /\ java_version env = Completed 0%Z
            /\ run_cfr env cmd = Completed 0%Z
            /\ create_sources_jar env decompiled_dir p = Ret true).
  { intros p. unfold decompile_and_package.
    rewrite (with_temporary_directory_ok env _ temp_dir Hmk Hrm).
    fold decompiled_dir. rewrite Hd. cbn [bind].
    destruct b; cbn [negb]; [|discriminate].
    destruct (Hb eq_refl) as (He & -> & Hr).
    match goal with
    | |- context [create_sources_jar env ?d ?o] =>
        destruct (create_sources_jar_total env d o) as (packed & Hpk);
        rewrite Hpk
    end.
    cbn [bind]. destruct packed; [|discriminate].
    intros Heq. injection Heq as <-.
    repeat split; [exact He | now apply Hjava | exact Hr | exact Hpk]. }
  assert (Htotal : exists r,
            decompile_and_package env self jar_path output_dir cb = Ret r).
  { unfold decompile_and_package.
    rewrite (with_temporary_directory_ok env _ temp_dir Hmk Hrm).
    fold decompiled_dir. rewrite Hd. cbn [bind].
    destruct b; cbn [negb]; [|now eexists].
    match goal with
    | |- context [create_sources_jar env ?d ?o] =>
        destruct (create_sources_jar_total env d o) as (packed & ->)
    end.
    cbn [bind]. destruct packed; now eexists. }
  split; [exact Htotal|]. split; [exact Hsome|]. split.
  - intros Hfail. destruct Htotal as ([p|] & Hr); [|exact Hr].
    destruct (Hsome p Hr) as (He & Hv & Hc' & _).
    destruct Hfail as [Hf|[Hf|Hf]]; congruence.
  - intros e cfr_dir Hex Hmkd Hfetch.
    assert (Hinit : JavaDecompiler_init env None = Raise e).
    { unfold JavaDecompiler_init, _ensure_cfr_available. fold cfr_dir.
      now rewrite Hex, Hmkd, Hfetch. }
    split; [exact Hinit|].
    unfold decompilation_fallback. now rewrite Hinit.
Qed.

Lemma decompile_and_package_reports_failure_witness :
  (forall e, java_version working_env = RunRaises e ->
             e = TimeoutExpired \/ e = FileNotFoundError)
  /\ mkdtemp working_env = Ret "/tmp/tmpabc"
  /\ cleanup working_env "/tmp/tmpabc" = Ret tt
  /\ decompile_and_package (P := posix) working_env {| cfr_path := "/opt/cfr.jar" |}
       "downloads/gson-2.8.9.jar" "downloads" None
     = Ret (Some "downloads/gson-2.8.9-sources.jar")
  /\ exists r, decompile_and_package (P := posix) working_env
                 {| cfr_path := "/opt/cfr.jar" |}
                 "downloads/gson-2.8.9.jar" "downloads" None = Ret r.
Proof.
  assert (Hj : forall e, java_version working_env = RunRaises e ->
                         e = TimeoutExpired \/ e = FileNotFoundError)
    by (intros e He; discriminate He).
  split; [exact Hj|]. split; [reflexivity|]. split; [reflexivity|].
  split; [reflexivity|].
  exact (proj1 (decompile_and_package_reports_failure (P := posix) working_env
                  {| cfr_path := "/opt/cfr.jar" |} "downloads/gson-2.8.9.jar"
                  "downloads" None "/tmp/tmpabc" Hj eq_refl eq_refl)).
Defined.

(** ** The repository configuration *)

Section DictFacts.

Lemma dict_get_set_same (k v : string) (d : pydict) :
  dict_get k (dict_set k v d) = Some v.
Proof.
  induction d as [|[k' v'] d IH]; cbn.
  - now rewrite String.eqb_refl.
  - destruct (String.eqb k' k) eqn:E; cbn; [now rewrite String.eqb_refl|].
    now rewrite E.
Qed.

Lemma dict_get_set_other (k k0 v : string) (d : pydict) :
  k0 <> k -> dict_get k0 (dict_set k v d) = dict_get k0 d.
Proof.
  intros Hne. induction d as [|[k' v'] d IH]; cbn.
  - apply String.eqb_neq in Hne. now rewrite String.eqb_sym, Hne.
  - destruct (String.eqb_spec k' k) as [->|Hk]; cbn.
    + apply String.eqb_neq in Hne. now rewrite String.eqb_sym, Hne.
    + now rewrite IH.
Qed.

Lemma dict_get_none_iff (k : string) (d : pydict) :
  dict_get k d = None <-> ~ In k (dict_keys d).
Proof.
  induction d as [|[k' v'] d IH]; cbn; [tauto|].
  destruct (String.eqb_spec k' k) as [->|Hk].
  - split; [discriminate | intros Hn; exfalso; apply Hn; now left].
  - rewrite IH. tauto.
Qed.

Lemma dict_contains_iff (k : string) (d : pydict) :
  dict_contains k d = true <-> In k (dict_keys d).
Proof.
  unfold dict_contains. pose proof (dict_get_none_iff k d) as Hn.
  destruct (dict_get k d) as [v|].
  - split; [intros _|reflexivity].
    destruct (in_dec string_dec k (dict_keys d)) as [Hin|Hout]; [exact Hin|].
    apply Hn in Hout. discriminate.
  - split; [discriminate|]. intros Hin. exfalso. now apply Hn.
Qed.

Lemma dict_keys_set (k v : string) (d : pydict) :
  dict_keys (dict_set k v d)
  = if dict_contains k d then dict_keys d else (dict_keys d ++ [k])%list.
Proof.
  unfold dict_contains, dict_keys.
  induction d as [|[k' v'] d IH]; cbn; [reflexivity|].
  destruct (String.eqb_spec k' k) as [->|Hk]; cbn; [reflexivity|].
  rewrite IH. now destruct (dict_get k d).
Qed.

Lemma dict_keys_del_incl (k k0 : string) (d : pydict) :
  In k0 (dict_keys (dict_del k d)) -> In k0 (dict_keys d).
Proof.
  induction d as [|[k' v'] d IH]; cbn; [tauto|].
  destruct (String.eqb k' k); cbn; [now right|].
  intros [Hk|Hk]; [now left | right; now apply IH].
Qed.

Lemma dict_del_nodup (k : string) (d : pydict) :
  NoDup (dict_keys d) -> NoDup (dict_keys (dict_del k d)).
Proof.
  induction d as [|[k' v'] d IH]; cbn; intros Hnd; [exact Hnd|].
  inversion Hnd as [|? ? Hout Hnd']; subst.
  destruct (String.eqb k' k); cbn; [exact Hnd'|].
  constructor; [|now apply IH].
  intros Hin. apply Hout. now apply dict_keys_del_incl in Hin.
Qed.

Lemma dict_get_del_same (k : string) (d : pydict) :
  NoDup (dict_keys d) -> dict_get k (dict_del k d) = None.
Proof.
  induction d as [|[k' v'] d IH]; cbn; intros Hnd; [reflexivity|].
  inversion Hnd as [|? ? Hout Hnd']; subst.
  destruct (String.eqb_spec k' k) as [->|Hk]; cbn.
  - now apply dict_get_none_iff.
  - apply String.eqb_neq in Hk. rewrite Hk. now apply IH.
Qed.

Lemma dict_get_del_other (k k0 : string) (d : pydict) :
  k0 <> k -> dict_get k0 (dict_del k d) = dict_get k0 d.
Proof.
  intros Hne. induction d as [|[k' v'] d IH]; cbn; [reflexivity|].
  destruct (String.eqb_spec k' k) as [->|Hk]; cbn.
  - apply String.eqb_neq in Hne. now rewrite String.eqb_sym, Hne.
  - now rewrite IH.
Qed.

Lemma dict_set_nodup (k v : string) (d : pydict) :
  NoDup (dict_keys d) -> NoDup (dict_keys (dict_set k v d)).
Proof.
  intros Hnd. rewrite dict_keys_set.
  destruct (dict_contains k d) eqn:Hc; [exact Hnd|].
  apply NoDup_app; repeat split; [exact Hnd | repeat constructor; intros [] |].
  intros x Hx [<-|[]].
  apply dict_contains_iff in Hx. congruence.
Qed.

Lemma dict_set_forall (P : string * string -> Prop) (k v : string) (d : pydict) :
  P (k, v) -> Forall P d -> Forall P (dict_set k v d).
Proof.
  intros Hkv. induction d as [|[k' v'] d IH]; cbn; intros Hd.
  - now constructor.
  - inversion Hd; subst. destruct (String.eqb k' k); constructor; auto.
Qed.

Lemma dict_del_forall (P : string * string -> Prop) (k : string) (d : pydict) :
  Forall P d -> Forall P (dict_del k d).
Proof.
  induction d as [|[k' v'] d IH]; cbn; intros Hd; [exact Hd|].
  inversion Hd; subst. destruct (String.eqb k' k); [assumption|].
  constructor; auto.
Qed.

Lemma endswith_slash_normalised (url : string) :
  PyStr.endswith (if PyStr.endswith url "/" then url else url ++ "/") "/" = true.
Proof.
  destruct (PyStr.endswith url "/") eqn:E; [exact E|].
  now rewrite endswith_app.
Qed.

Lemma save_config_keeps_config (o : save_outcome) (self : ConfigManager) :
  config (snd (_save_config o self)) = config self.
Proof. now destruct o. Qed.

Lemma save_config_ok_iff (o : save_outcome) (self : ConfigManager) :
  (exists u, fst (_save_config o self) = Ret u) <-> o = SaveOk.
Proof.
  destruct o; cbn; split; try reflexivity; try discriminate.
  - intros _. now exists tt.
  - intros (u & Hu). discriminate.
Qed.

Lemma default_repositories_well_formed : well_formed DEFAULT_REPOSITORIES.
Proof.
  split.
  - repeat constructor; cbn; intuition discriminate.
  - repeat constructor.
Qed.

Lemma add_repository_config (name url : string) (o : save_outcome)
    (self : ConfigManager) :
  config (snd (add_repository name url o self))
  = dict_set name (if PyStr.endswith url "/" then url else url ++ "/") (config self)
  /\ (fst (add_repository name url o self) = true <-> o = SaveOk).
Proof. unfold add_repository. destruct o; cbn; split; try tauto; split; congruence. Qed.

Lemma remove_repository_config (name : string) (o : save_outcome)
    (self : ConfigManager) :
  dict_contains name (config self) = true ->
  config (snd (remove_repository name o self)) = dict_del name (config self)
  /\ (fst (remove_repository name o self) = true <-> o = SaveOk).
Proof.
  intros Hc. unfold remove_repository. rewrite Hc.
  destruct o; cbn; split; try tauto; split; congruence.
Qed.

Lemma apply_op_well_formed (op : config_op) (o : save_outcome)
    (self : ConfigManager) :
  well_formed (config self) -> well_formed (config (snd (apply_op op o self))).
Proof.
  intros [Hnd Hs]. destruct op as [name url|name|]; cbn [apply_op].
  - destruct (add_repository_config name url o self) as [-> _]. split.
    + now apply dict_set_nodup.
    + apply dict_set_forall; [apply endswith_slash_normalised | exact Hs].
  - destruct (dict_contains name (config self)) eqn:Hc.
    + destruct (remove_repository_config name o self Hc) as [-> _]. split.
      * now apply dict_del_nodup.
      * now apply dict_del_forall.
    + unfold remove_repository. rewrite Hc. now split.
  - unfold reset_to_defaults. destruct o; cbn; apply default_repositories_well_formed.
Qed.

End DictFacts.

(** X1.  Whatever sequence of additions, removals and resets is applied,
    and whether or not each save succeeds, a configuration whose names are
    unique and whose URLs all end in a slash stays so. *)
Theorem config_ops_keep_well_formed (ops : list (config_op * save_outcome))
    (self : ConfigManager) :
  well_formed (config self) -> well_formed (config (run_ops ops self)).
Proof.
  revert self. induction ops as [|[op o] rest IH]; intros self Hwf; [exact Hwf|].
  cbn [run_ops]. apply IH. now apply apply_op_well_formed.
Qed.

Lemma config_ops_keep_well_formed_witness :
  well_formed (config (_load_config FileMissing))
  /\ well_formed
       (config (run_ops [(OpAdd "local" "http://localhost:8081/repo", SaveOk);
                         (OpRemove "jcenter", SaveFails FileUnreadable);
                         (OpAdd "maven-central" "https://mirror.example/m2", SaveOk)]
                        (_load_config FileMissing))).
Proof.
  split; [exact default_repositories_well_formed|].
  exact (config_ops_keep_well_formed _ (_load_config FileMissing)
           default_repositories_well_formed).
Defined.

(** X2.  After [add_repository name url], whether its save succeeded or
    not, the name resolves to the URL with a slash appended unless it ended
    in one, every other name resolves as before, and the call answers True
    exactly when the save succeeded. *)
Theorem add_repository_lookup (name url : string) (o : save_outcome)
    (self : ConfigManager) :
  let after := snd (add_repository name url o self) in
  get_repository_url name after
  = Some (if PyStr.endswith url "/" then url else url ++ "/")
  /\ (forall other, other <> name ->
      get_repository_url other after = get_repository_url other self)
  /\ (fst (add_repository name url o self) = true <-> o = SaveOk).
Proof.
  cbn zeta. unfold get_repository_url.
  destruct (add_repository_config name url o self) as [-> Hok].
  split; [apply dict_get_set_same|]. split; [|exact Hok].
  intros other Hne. now apply dict_get_set_other.
Qed.

(** X3.  [remove_repository] of a name that is not configured answers
    False and changes nothing; of a configured name it makes the name
    unknown, leaves every other name as it was, and answers True exactly when
    the save succeeded. *)
Theorem remove_repository_lookup (name : string) (o : save_outcome)
    (self : ConfigManager) :
  NoDup (dict_keys (config self)) ->
  (get_repository_url name self = None ->
   remove_repository name o self = (false, self))
  /\ (get_repository_url name self <> None ->
      let after := snd (remove_repository name o self) in
      get_repository_url name after = None
      /\ (forall other, other <> name ->
          get_repository_url other after = get_repository_url other self)
      /\ (fst (remove_repository name o self) = true <-> o = SaveOk)).
Proof.
  intros Hnd. unfold get_repository_url. split.
  - intros Hn. unfold remove_repository, dict_contains. now rewrite Hn.
  - intros Hs. cbn zeta.
    assert (Hc : dict_contains name (config self) = true).
    { unfold dict_contains. now destruct (dict_get name (config self)). }
    destruct (remove_repository_config name o self Hc) as [-> Hok].
    split; [now apply dict_get_del_same|]. split; [|exact Hok].
    intros other Hne. now apply dict_get_del_other.
Qed.

Lemma remove_repository_lookup_witness :
  NoDup (dict_keys (config (_load_config FileMissing)))
  /\ remove_repository "nowhere" SaveOk (_load_config FileMissing)
     = (false, _load_config FileMissing)
  /\ get_repository_url "jcenter"
       (snd (remove_repository "jcenter" SaveOk (_load_config FileMissing))) = None.
Proof.
  pose proof (proj1 default_repositories_well_formed) as Hnd.
  split; [exact Hnd|]. split.
  - exact (proj1 (remove_repository_lookup "nowhere" SaveOk
                    (_load_config FileMissing) Hnd) eq_refl).
  - refine (proj1 (proj2 (remove_repository_lookup "jcenter" SaveOk
                            (_load_config FileMissing) Hnd) _)).
    discriminate.
Defined.

(** X4.  [add_repository] never reorders the repositories: an existing
    name keeps its place in the iteration order, a new name goes to the
    end. *)
Theorem add_repository_keeps_order (name url : string) (o : save_outcome)
    (self : ConfigManager) :
  get_repository_names (snd (add_repository name url o self))
  = if dict_contains name (config self)
    then get_repository_names self
    else (get_repository_names self ++ [name])%list.
Proof.
  unfold get_repository_names.
  destruct (add_repository_config name url o self) as [-> _].
  apply dict_keys_set.
Qed.

(** ** Resolution of repository names *)

Lemma endswith_nonempty (s suffix : string) :
  suffix <> "" -> PyStr.endswith s suffix = true -> PyStr.nonempty s = true.
Proof.
  intros Hsuf. destruct s; [|reflexivity]. unfold PyStr.endswith. cbn.
  destruct suffix; [congruence | discriminate].
Qed.

Lemma well_formed_get_nonempty (d : pydict) (name url : string) :
  well_formed d -> dict_get name d = Some url -> PyStr.nonempty url = true.
Proof.
  intros [_ Hs]. induction d as [|[k v] d IH]; cbn; [discriminate|].
  inversion Hs as [|? ? Hv Hs']; subst.
  destruct (String.eqb k name).
  - intros Heq. injection Heq as <-. cbn in Hv.
    now apply (endswith_nonempty v "/").
  - now apply IH.
Qed.

Lemma get_repository_urls_loop_spec (names : list string) (self : ConfigManager)
    (urls : list string) :
  well_formed (config self) ->
  get_repository_urls_loop names self urls
  = (Ret (urls ++ flat_map (fun name => match dict_get name (config self) with
                                        | Some url => [url]
                                        | None => []
                                        end) names)%list,
     map not_found_warning
         (filter (fun name => negb (dict_contains name (config self))) names)).
Proof.
  intros Hwf. revert urls. induction names as [|name rest IH]; intros urls.
  - cbn. now rewrite app_nil_r.
  - cbn [get_repository_urls_loop flat_map filter]. unfold get_repository_url.
    unfold dict_contains at 1.
    destruct (dict_get name (config self)) as [url|] eqn:Hg.
    + rewrite (well_formed_get_nonempty _ _ _ Hwf Hg). rewrite IH.
      cbn. now rewrite <- app_assoc.
    + unfold log, emit. cbn. rewrite IH. reflexivity.
Qed.

(** X5.  In a well-formed configuration, resolving a list of names gives
    the URLs of the configured names in the order the names were given, and
    each name that is not configured is skipped with one warning. *)
Theorem get_repository_urls_by_name (names : list string) (self : ConfigManager) :
  well_formed (config self) ->
  get_repository_urls (Some names) self
  = (Ret (flat_map (fun name => match dict_get name (config self) with
                                | Some url => [url]
                                | None => []
                                end) names),
     map not_found_warning
         (filter (fun name => negb (dict_contains name (config self))) names)).
Proof.
  intros Hwf. unfold get_repository_urls.
  now rewrite get_repository_urls_loop_spec.
Qed.

Lemma get_repository_urls_by_name_witness :
  well_formed (config (_load_config FileMissing))
  /\ get_repository_urls (Some ["jcenter"; "nowhere"; "maven-central"])
       (_load_config FileMissing)
     = (Ret ["https://jcenter.bintray.com/"; "https://repo1.maven.org/maven2/"],
        [EvLog WARNING "Repository not found: nowhere"]).
Proof.
  split; [exact default_repositories_well_formed|].
  exact (get_repository_urls_by_name ["jcenter"; "nowhere"; "maven-central"]
           (_load_config FileMissing) default_repositories_well_formed).
Defined.

(** X6.  When repository names are given and none of them is configured,
    the manager does not fall back to the configured repositories: it holds
    no repository, and [download_sources] answers None after the warnings,
    without a single request. *)
Theorem unknown_names_no_request `{P : Platform} (w : World) (cfg : ConfigManager)
    (names : list string) (dependency g a v out : string)
    (cb : option callback_fn) :
  names <> [] ->
  (forall name, In name names -> get_repository_url name cfg = None) ->
  parse_dependency dependency = Ret (g, a, v) ->
  io_bind (RepositoryManager_init cfg None (Some names))
          (fun repositories => download_sources w repositories dependency out cb)
  = (Ret None,
     (map not_found_warning names
      ++ [EvLog WARNING ("Sources JAR not found for " ++ dependency)])%list).
Proof.
  intros Hne Hunknown Hp.
  assert (Hloop : forall urls,
            get_repository_urls_loop names cfg urls
            = (Ret urls, map not_found_warning names)).
  { clear Hne. induction names as [|name rest IH]; intros urls; [reflexivity|].
    cbn [get_repository_urls_loop]. rewrite (Hunknown name (or_introl eq_refl)).
    unfold log, emit. cbn.
    rewrite IH by (intros n Hn; apply Hunknown; now right). reflexivity. }
  destruct names as [|n ns]; [congruence|].
  unfold RepositoryManager_init, get_repository_urls. rewrite Hloop.
  cbn [io_bind]. unfold download_sources.
  rewrite (parse_or_log_ok _ _ _ _ Hp). reflexivity.
Qed.

Lemma unknown_names_no_request_witness :
  io_bind (RepositoryManager_init (_load_config FileMissing) None
             (Some ["nowhere"; "elsewhere"]))
          (fun repositories =>
             download_sources (P := posix) healthy_world repositories
               "com.google.gson:gson:2.8.9" "downloads" None)
  = (Ret None,
     [EvLog WARNING "Repository not found: nowhere";
      EvLog WARNING "Repository not found: elsewhere";
      EvLog WARNING "Sources JAR not found for com.google.gson:gson:2.8.9"]).
Proof.
  refine (unknown_names_no_request (P := posix) healthy_world
            (_load_config FileMissing) ["nowhere"; "elsewhere"]
            "com.google.gson:gson:2.8.9" "com.google.gson" "gson" "2.8.9"
            "downloads" None _ _ eq_refl).
  - discriminate.
  - intros name [<-|[<-|[]]]; reflexivity.
Defined.

(** ** File names *)

Section SanitizeFacts.

Lemma fold_replace_cons (l : list ascii) (x : ascii) (s : string) :
  fold_left (fun f char => PyStr.replace char "_" f) l (String x s)
  = String (fold_left (fun y char => if Ascii.eqb y char then "_"%char else y) l x)
           (fold_left (fun f char => PyStr.replace char "_" f) l s).
Proof.
  revert x s. induction l as [|c l IH]; intros x s; [reflexivity|].
  cbn [fold_left PyStr.replace]. destruct (Ascii.eqb x c); cbn [append]; apply IH.
Qed.

Lemma fold_replace_nil (l : list ascii) :
  fold_left (fun f char => PyStr.replace char "_" f) l "" = "".
Proof. induction l as [|c l IH]; [reflexivity | exact IH]. Qed.

Lemma legalise_fold (x : ascii) :
  fold_left (fun y char => if Ascii.eqb y char then "_"%char else y) illegal_chars x
  = legalise x.
Proof. destruct x as [[] [] [] [] [] [] [] []]; reflexivity. Qed.

Lemma legalise_legal (x : ascii) : is_illegal (legalise x) = false.
Proof. destruct x as [[] [] [] [] [] [] [] []]; reflexivity. Qed.

Lemma legalise_id (x : ascii) : is_illegal x = false -> legalise x = x.
Proof. unfold legalise. now intros ->. Qed.

Lemma replace_illegal_map (s : string) : replace_illegal s = map_chars legalise s.
Proof.
  unfold replace_illegal. induction s as [|x s IH].
  - apply fold_replace_nil.
  - rewrite fold_replace_cons, legalise_fold, IH. reflexivity.
Qed.

Variable chars : list ascii.

Lemma lstrip_chars_all (p : ascii -> bool) (s : string) :
  all_chars p s = true -> all_chars p (lstrip_chars chars s) = true.
Proof.
  induction s as [|x s IH]; cbn; [trivial|].
  intros Hs. destruct (in_chars chars x); [|exact Hs].
  apply andb_true_iff in Hs as [_ Hs]. now apply IH.
Qed.

Lemma rstrip_chars_all (p : ascii -> bool) (s : string) :
  all_chars p s = true -> all_chars p (rstrip_chars chars s) = true.
Proof.
  induction s as [|x s IH]; cbn; [trivial|].
  intros Hs. apply andb_true_iff in Hs as [Hx Hs]. specialize (IH Hs).
  destruct (rstrip_chars chars s) as [|y r].
  - destruct (in_chars chars x); cbn; [reflexivity | now rewrite Hx].
  - cbn [all_chars]. now rewrite Hx.
Qed.

Lemma lstrip_chars_first (s : string) (x : ascii) :
  first_char (lstrip_chars chars s) = Some x -> in_chars chars x = false.
Proof.
  induction s as [|y s IH]; cbn; [discriminate|].
  destruct (in_chars chars y) eqn:Hy; [exact IH|].
  cbn. intros Heq. now injection Heq as <-.
Qed.

Lemma lstrip_chars_id (s : string) :
  (forall x, first_char s = Some x -> in_chars chars x = false) ->
  lstrip_chars chars s = s.
Proof.
  destruct s as [|y s]; cbn; [reflexivity|].
  intros Hf. now rewrite (Hf y eq_refl).
Qed.

Lemma rstrip_chars_first (s : string) (x : ascii) :
  in_chars chars x = false ->
  first_char s = Some x -> first_char (rstrip_chars chars s) = Some x.
Proof.
  destruct s as [|y s]; cbn; [discriminate|].
  intros Hx Heq. injection Heq as ->.
  destruct (rstrip_chars chars s); [now rewrite Hx | reflexivity].
Qed.

Lemma rstrip_chars_first_inv (s : string) (x : ascii) :
  first_char (rstrip_chars chars s) = Some x -> first_char s = Some x.
Proof.
  destruct s as [|y s]; cbn; [discriminate|].
  destruct (rstrip_chars chars s); [destruct (in_chars chars y)|];
    cbn; congruence.
Qed.

Lemma rstrip_chars_last (s : string) (x : ascii) :
  last_char (rstrip_chars chars s) = Some x -> in_chars chars x = false.
Proof.
  induction s as [|y s IH]; cbn; [discriminate|].
  destruct (rstrip_chars chars s) as [|z r] eqn:E.
  - destruct (in_chars chars y) eqn:Hy; cbn; [discriminate|].
    intros Heq. now injection Heq as <-.
  - intros Hl. apply IH. exact Hl.
Qed.

Lemma rstrip_chars_idem (s : string) :
  rstrip_chars chars (rstrip_chars chars s) = rstrip_chars chars s.
Proof.
  induction s as [|y s IH]; cbn; [reflexivity|].
  destruct (rstrip_chars chars s) as [|z r] eqn:E.
  - destruct (in_chars chars y) eqn:Hy; cbn; [reflexivity | now rewrite Hy].
  - cbn [rstrip_chars]. cbn [rstrip_chars] in IH. now rewrite IH.
Qed.

Lemma strip_chars_first (s : string) (x : ascii) :
  first_char (strip_chars chars s) = Some x -> in_chars chars x = false.
Proof.
  unfold strip_chars. intros Hf.
  apply rstrip_chars_first_inv in Hf. now apply lstrip_chars_first in Hf.
Qed.

Lemma strip_chars_idem (s : string) :
  strip_chars chars (strip_chars chars s) = strip_chars chars s.
Proof.
  unfold strip_chars at 1.
  rewrite (lstrip_chars_id (strip_chars chars s)) by apply strip_chars_first.
  unfold strip_chars. apply rstrip_chars_idem.
Qed.

End SanitizeFacts.

Lemma all_legal_contains (s : string) (c : ascii) :
  all_chars (fun x => negb (is_illegal x)) s = true ->
  In c illegal_chars -> PyStr.contains c s = false.
Proof.
  intros Hs Hc. induction s as [|x s IH]; cbn; [reflexivity|].
  cbn [all_chars] in Hs. apply andb_true_iff in Hs as [Hx Hs].
  rewrite (IH Hs), orb_false_r.
  destruct (Ascii.eqb_spec x c) as [->|]; [|reflexivity].
  assert (Hill : is_illegal c = true).
  { unfold is_illegal. apply existsb_exists. exists c.
    split; [exact Hc | apply Ascii.eqb_refl]. }
  now rewrite Hill in Hx.
Qed.

Lemma map_legalise_legal (s : string) :
  all_chars (fun x => negb (is_illegal x)) (map_chars legalise s) = true.
Proof.
  induction s as [|x s IH]; [reflexivity|].
  cbn [map_chars all_chars]. now rewrite legalise_legal, IH.
Qed.

Lemma map_legalise_id (s : string) :
  all_chars (fun x => negb (is_illegal x)) s = true -> map_chars legalise s = s.
Proof.
  induction s as [|x s IH]; [reflexivity|].
  cbn [map_chars all_chars].
  intros Hs. apply andb_true_iff in Hs as [Hx Hs].
  apply negb_true_iff in Hx. now rewrite (legalise_id x Hx), (IH Hs).
Qed.

(** X7.  For every input, the sanitized file name is not empty, contains
    none of the nine characters of [illegal_chars], and neither starts nor ends
    with a space or a dot. *)
Theorem sanitize_filename_safe (filename : string) :
  sanitize_filename filename <> ""
  /\ (forall c, In c illegal_chars ->
      PyStr.contains c (sanitize_filename filename) = false)
  /\ (forall x, first_char (sanitize_filename filename) = Some x ->
      x <> " "%char /\ x <> "."%char)
  /\ (forall x, last_char (sanitize_filename filename) = Some x ->
      x <> " "%char /\ x <> "."%char).
Proof.
  assert (Hset : forall x, in_chars [" "; "."]%char x = false ->
                           x <> " "%char /\ x <> "."%char).
  { intros x Hx. split; intros ->; discriminate Hx. }
  unfold sanitize_filename. rewrite replace_illegal_map.
  set (t := strip_chars [" "; "."]%char (map_chars legalise filename)).
  assert (Hlegal : all_chars (fun x => negb (is_illegal x)) t = true).
  { apply rstrip_chars_all, lstrip_chars_all, map_legalise_legal. }
  destruct t as [|y t'] eqn:Et; cbn [PyStr.nonempty negb].
  - split; [discriminate|]. split.
    + intros c Hc. cbn in Hc.
      repeat (destruct Hc as [<-|Hc]; [reflexivity|]). destruct Hc.
    + split; intros x Hx; cbn in Hx; injection Hx as <-; split; discriminate.
  - split; [discriminate|]. split.
    + intros c Hc. now apply all_legal_contains.
    + split; intros x Hx; apply Hset.
      * apply (strip_chars_first _ (map_chars legalise filename)).
        fold t. now rewrite Et.
      * apply (rstrip_chars_last _
                 (lstrip_chars [" "; "."]%char (map_chars legalise filename))).
        fold (strip_chars [" "; "."]%char (map_chars legalise filename)).
        fold t. now rewrite Et.
Qed.

(** X8.  Sanitizing is idempotent: a sanitized file name is left as it
    is. *)
Theorem sanitize_filename_idempotent (filename : string) :
  sanitize_filename (sanitize_filename filename) = sanitize_filename filename.
Proof.
  set (t := strip_chars [" "; "."]%char (map_chars legalise filename)).
  assert (Hs : sanitize_filename filename
               = if negb (PyStr.nonempty t) then "unnamed" else t).
  { unfold sanitize_filename. now rewrite replace_illegal_map. }
  assert (Hlegal : all_chars (fun x => negb (is_illegal x)) t = true).
  { apply rstrip_chars_all, lstrip_chars_all, map_legalise_legal. }
  assert (Hstrip : strip_chars [" "; "."]%char t = t) by apply strip_chars_idem.
  rewrite Hs. destruct (PyStr.nonempty t) eqn:Hne; cbn [negb]; [|reflexivity].
  unfold sanitize_filename.
  now rewrite replace_illegal_map, (map_legalise_id t Hlegal), Hstrip, Hne.
Qed.

Example sanitize_filename_examples :
  sanitize_filename "a<b>:c.jar " = "a_b__c.jar"
  /\ sanitize_filename " .. " = "unnamed"
  /\ sanitize_filename "com/google\gson?.jar" = "com_google_gson_.jar".
Proof. repeat split. Qed.

(** ** More on downloads *)

Section DownloadFileFacts.
Context `{P : Platform}.
Variable w : World.

(** X9.  When the GET fails or answers with a status in [400, 600),
    [download_file] answers False having only logged the error: no directory
    is created and no file is opened. *)
Theorem download_file_error_status (url output_path : string)
    (callback : option callback_fn) :
  (exists f, http_get w url = GetRequestException f)
  \/ (exists r, http_get w url = GetResponse r
        /\ (400 <= status_code r < 600)%Z) ->
  download_file w url output_path callback
  = (Ret false, [EvGet url; EvLog ERROR ("Failed to download " ++ url)]).
Proof.
  unfold download_file, session_get, raise_for_status.
  intros [(f & ->)|(r & -> & Hlo & Hhi)]; [reflexivity|].
  apply Z.leb_le in Hlo. apply Z.ltb_lt in Hhi. cbn.
  now rewrite Hlo, Hhi.
Qed.

Lemma write_chunks_ok (output_path : string) (callback : option callback_fn)
    (total_size : Z) (cs : list string) (downloaded : Z) (t : list event) :
  write_chunks output_path callback total_size cs downloaded = (Ret tt, t) ->
  written_to output_path t = filter PyStr.nonempty cs
  /\ progress_of t
     = match callback with
       | Some _ => map (fun d => (d, total_size))
                       (running_totals downloaded (filter PyStr.nonempty cs))
       | None => []
       end.
Proof.
  revert downloaded t. induction cs as [|chunk rest IH]; intros downloaded t.
  - cbn. intros Heq. injection Heq as <-. now destruct callback.
  - cbn [write_chunks filter]. destruct (PyStr.nonempty chunk); [|apply IH].
    set (d := (downloaded + Z.of_nat (String.length chunk))%Z).
    specialize (IH d).
    destruct (write_chunks output_path callback total_size rest d) as [res t'].
    destruct callback as [cb|]; cbn.
    + destruct (cb d total_size); cbn; [|discriminate].
      intros Heq. injection Heq as -> <-. cbn. rewrite String.eqb_refl.
      destruct (IH t' eq_refl) as [-> ->]. now split.
    + intros Heq. injection Heq as -> <-. cbn. rewrite String.eqb_refl.
      destruct (IH t' eq_refl) as [-> ->]. now split.
Qed.

Lemma download_file_success (url output_path : string)
    (callback : option callback_fn) (t : list event) :
  download_file w url output_path callback = (Ret true, t) ->
  exists r ws,
    http_get w url = GetResponse r
    /\ write_chunks output_path callback (declared_size r) (chunks r) 0%Z
       = (Ret tt, ws)
    /\ t = (EvGet url :: EvMakedirs (os_path_dirname output_path)
            :: EvOpen output_path
            :: ws ++ [EvLog INFO ("Downloaded: " ++ url ++ " -> " ++ output_path)])%list.
Proof.
  unfold download_file, session_get, raise_for_status,
    int_content_length, os_makedirs, open_wb, log, emit.
  destruct (http_get w url) as [r|f]; cbn; [|discriminate].
  destruct ((400 <=? status_code r)%Z && (status_code r <? 600)%Z); cbn;
    [discriminate|].
  destruct (content_length r) as [[n|]|] eqn:Ecl; cbn; try discriminate.
  - destruct (fs_makedirs w (os_path_dirname output_path)); cbn; [|discriminate].
    destruct (fs_open_wb w output_path); cbn; [|discriminate].
    destruct (write_chunks output_path callback n (chunks r) 0%Z)
      as [[[]|e] ws] eqn:Ew; cbn; [|discriminate].
    destruct (stream_error r); cbn; [discriminate|].
    intros Heq. injection Heq as <-. exists r, ws.
    unfold declared_size. rewrite Ecl. now repeat split.
  - destruct (fs_makedirs w (os_path_dirname output_path)); cbn; [|discriminate].
    destruct (fs_open_wb w output_path); cbn; [|discriminate].
    destruct (write_chunks output_path callback 0%Z (chunks r) 0%Z)
      as [[[]|e] ws] eqn:Ew; cbn; [|discriminate].
    destruct (stream_error r); cbn; [discriminate|].
    intros Heq. injection Heq as <-. exists r, ws.
    unfold declared_size. rewrite Ecl. now repeat split.
Qed.

Lemma written_to_app (path : string) (t1 t2 : list event) :
  written_to path (t1 ++ t2) = (written_to path t1 ++ written_to path t2)%list.
Proof.
  induction t1 as [|e t1 IH]; [reflexivity|].
  destruct e; cbn; try exact IH.
  destruct (String.eqb path0 path); cbn; now rewrite IH.
Qed.

Lemma progress_of_app (t1 t2 : list event) :
  progress_of (t1 ++ t2) = (progress_of t1 ++ progress_of t2)%list.
Proof.
  induction t1 as [|e t1 IH]; [reflexivity|].
  destruct e; cbn; try exact IH. now rewrite IH.
Qed.

(** X10.  A download that succeeds has written to the output path exactly
    the non-empty chunks of the response body, in order, and has called the
    progress callback once per such chunk with the running byte count and the
    declared content length (0 when the header is absent). *)
Theorem download_file_writes_body (url output_path : string)
    (callback : option callback_fn) (t : list event) :
  download_file w url output_path callback = (Ret true, t) ->
  exists r,
    http_get w url = GetResponse r
    /\ written_to output_path t = filter PyStr.nonempty (chunks r)
    /\ progress_of t
       = match callback with
         | Some _ => map (fun d => (d, declared_size r))
                         (running_totals 0%Z (filter PyStr.nonempty (chunks r)))
         | None => []
         end.
Proof.
  intros Hd. destruct (download_file_success _ _ _ _ Hd) as (r & ws & Hg & Hw & ->).
  exists r. split; [exact Hg|].
  destruct (write_chunks_ok _ _ _ _ _ _ Hw) as [Hwr Hpr].
  cbn [written_to progress_of]. rewrite written_to_app, progress_of_app.
  cbn [written_to progress_of]. rewrite !app_nil_r. now split.
Qed.

End DownloadFileFacts.

Lemma download_file_error_status_witness :
  (exists f, http_get flaky_world "https://a.example/maven2/x.jar"
             = GetRequestException f)
  \/ (exists r, http_get flaky_world "https://a.example/maven2/x.jar" = GetResponse r
        /\ (400 <= status_code r < 600)%Z)
  /\ download_file (P := posix) flaky_world "https://a.example/maven2/x.jar"
       "downloads/x.jar" None
     = (Ret false, [EvGet "https://a.example/maven2/x.jar";
                    EvLog ERROR "Failed to download https://a.example/maven2/x.jar"]).
Proof.
  right. split.
  - exists unavailable_response. split; [reflexivity|]. cbn. lia.
  - refine (download_file_error_status (P := posix) flaky_world
              "https://a.example/maven2/x.jar" "downloads/x.jar" None _).
    right. exists unavailable_response. split; [reflexivity|]. cbn. lia.
Defined.

Lemma download_file_writes_body_witness :
  download_file (P := posix) healthy_world "https://a.example/maven2/x.jar"
    "downloads/x.jar" (Some (fun _ _ => true))
  = (Ret true,
     [EvGet "https://a.example/maven2/x.jar"; EvMakedirs "downloads";
      EvOpen "downloads/x.jar"; EvWrite "downloads/x.jar" "PK";
      EvCallback 2 2;
      EvLog INFO "Downloaded: https://a.example/maven2/x.jar -> downloads/x.jar"])
  /\ exists r,
       http_get healthy_world "https://a.example/maven2/x.jar" = GetResponse r
       /\ written_to "downloads/x.jar"
            [EvGet "https://a.example/maven2/x.jar"; EvMakedirs "downloads";
             EvOpen "downloads/x.jar"; EvWrite "downloads/x.jar" "PK";
             EvCallback 2 2;
             EvLog INFO "Downloaded: https://a.example/maven2/x.jar -> downloads/x.jar"]
          = filter PyStr.nonempty (chunks r)
       /\ progress_of
            [EvGet "https://a.example/maven2/x.jar"; EvMakedirs "downloads";
             EvOpen "downloads/x.jar"; EvWrite "downloads/x.jar" "PK";
             EvCallback 2 2;
             EvLog INFO "Downloaded: https://a.example/maven2/x.jar -> downloads/x.jar"]
          = map (fun d => (d, declared_size r))
                (running_totals 0%Z (filter PyStr.nonempty (chunks r))).
Proof.
  split; [reflexivity|].
  exact (download_file_writes_body (P := posix) healthy_world
           "https://a.example/maven2/x.jar" "downloads/x.jar"
           (Some (fun _ _ => true)) _ eq_refl).
Defined.

Lemma download_sources_invalid_witness :
  parse_dependency "nonsense" = Raise (ValueError msg_bad_colons)
  /\ download_sources (P := posix) healthy_world [mirror_a; mirror_b] "nonsense"
       "downloads" None
     = (Ret None, [EvLog ERROR ("Invalid dependency format: " ++ msg_bad_colons)]).
Proof.
  split; [reflexivity|].
  exact (download_sources_invalid (P := posix) healthy_world [mirror_a; mirror_b]
           "nonsense" "downloads" msg_bad_colons None eq_refl).
Defined.

Lemma download_sources_not_found_witness :
  download_sources (P := posix) offline_world [mirror_a; mirror_b]
    "com.google.gson:gson:2.8.9" "downloads" None
  = (Ret None,
     [EvHead "https://a.example/maven2/com/google/gson/gson/2.8.9/gson-2.8.9-sources.jar";
      EvHead "https://b.example/maven2/com/google/gson/gson/2.8.9/gson-2.8.9-sources.jar";
      EvLog WARNING "Sources JAR not found for com.google.gson:gson:2.8.9"]).
Proof.
  refine (download_sources_not_found (P := posix) offline_world [mirror_a; mirror_b]
            "com.google.gson:gson:2.8.9" "com.google.gson" "gson" "2.8.9"
            "downloads" None
            (fun r => r ++ "com/google/gson/gson/2.8.9/gson-2.8.9-sources.jar")
            eq_refl _ _).
  - intros r [<-|[<-|[]]]; reflexivity.
  - intros r [<-|[<-|[]]]; reflexivity.
Defined.

Lemma find_available_versions_skips_witness :
  get_metadata_url (P := posix) "https://down.example/" "g" "a"
  = Ret "https://down.example/g/a/maven-metadata.xml"
  /\ fails_to_respond merge_world "https://down.example/g/a/maven-metadata.xml"
  /\ find_available_versions (P := posix) merge_world
       ["https://down.example/"; mirror_a] "g" "a"
     = (Ret ["2.0"; "1.0"],
        [EvGet "https://down.example/g/a/maven-metadata.xml";
         EvLog WARNING "Failed to get versions from https://down.example/";
         EvGet "https://a.example/maven2/g/a/maven-metadata.xml"]).
Proof.
  assert (Hf : fails_to_respond merge_world
                 "https://down.example/g/a/maven-metadata.xml")
    by (left; now exists ConnectionRefused).
  split; [reflexivity|]. split; [exact Hf|].
  exact (find_available_versions_skips (P := posix) merge_world "g" "a"
           "https://down.example/" [mirror_a]
           "https://down.example/g/a/maven-metadata.xml" eq_refl Hf).
Defined.

Lemma posix_local_path_witness :
  local_path (P := posix) "downloads" "com.google.gson" "gson" "2.8.9"
    (Some "sources")
  = "downloads/com/google/gson/gson/2.8.9/gson-2.8.9-sources.jar".
Proof.
  refine (posix_local_path "downloads" "com.google.gson" "gson" "2.8.9"
            (Some "sources") _ eq_refl _ _ _);
    [discriminate | | | ]; (split; [discriminate | split; reflexivity]).
Defined.

(** X13.  [download_sources] and [download_binary] raise nothing but what
    [urljoin] raises: whatever the dependency string, the repositories, the
    network and the file system do, and whether the callback returns or
    raises an exception, the caller gets a path or [None], or else the
    exception that [urljoin] raised when the artifact URL of one of the
    repositories was formed.  When the artifact URL of every repository can be
    formed, the caller always gets a path or [None]. *)
Theorem downloads_raise_only_urljoin `{P : Platform} (w : World)
    (repositories : list string) (dependency out : string)
    (cb : option callback_fn) :
  ((exists r t, download_sources w repositories dependency out cb = (Ret r, t))
   \/ (exists g a v repo e t,
         parse_dependency dependency = Ret (g, a, v)
         /\ In repo repositories
         /\ get_artifact_url repo g a v (Some "sources") "jar" = Raise e
         /\ download_sources w repositories dependency out cb = (Raise e, t)))
  /\ ((exists r t, download_binary w repositories dependency out cb = (Ret r, t))
      \/ (exists g a v repo e t,
            parse_dependency dependency = Ret (g, a, v)
            /\ In repo repositories
            /\ get_artifact_url repo g a v None "jar" = Raise e
            /\ download_binary w repositories dependency out cb = (Raise e, t)))
  /\ ((forall g a v repo, parse_dependency dependency = Ret (g, a, v) ->
       In repo repositories ->
       (exists u, get_artifact_url repo g a v (Some "sources") "jar" = Ret u)
       /\ (exists u, get_artifact_url repo g a v None "jar" = Ret u)) ->
      (exists r t, download_sources w repositories dependency out cb = (Ret r, t))
      /\ (exists r t, download_binary w repositories dependency out cb = (Ret r, t))).
Proof.
  pose proof (download_sources_outcome w repositories dependency out cb) as Hs.
  pose proof (download_binary_outcome w repositories dependency out cb) as Hb.
  split; [exact Hs|]. split; [exact Hb|].
  intros Hurl. split.
  - destruct Hs as [Hs|(g & a & v & repo & e & t & Hp & Hin & He & _)]; [exact Hs|].
    destruct (Hurl g a v repo Hp Hin) as [(u & Hu) _]. congruence.
  - destruct Hb as [Hb|(g & a & v & repo & e & t & Hp & Hin & He & _)]; [exact Hb|].
    destruct (Hurl g a v repo Hp Hin) as [_ (u & Hu)]. congruence.
Qed.

Lemma downloads_raise_only_urljoin_witness :
  (exists r t, download_sources (P := posix) flaky_world [mirror_a; mirror_b]
                 "com.google.gson:gson:2.8.9" "downloads" (Some (fun _ _ => false))
               = (Ret r, t))
  /\ (exists r t, download_binary (P := posix) flaky_world [mirror_a; mirror_b]
                    "com.google.gson:gson:2.8.9" "downloads" (Some (fun _ _ => false))
                  = (Ret r, t)).
Proof.
  refine (proj2 (proj2 (downloads_raise_only_urljoin (P := posix) flaky_world
                          [mirror_a; mirror_b] "com.google.gson:gson:2.8.9"
                          "downloads" (Some (fun _ _ => false)))) _).
  intros g a v repo Hp Hin. cbn in Hp. injection Hp as <- <- <-.
  destruct Hin as [<-|[<-|[]]]; split; eexists; reflexivity.
Defined.

(** X17.  [download_binary] tries the repositories in list order and
    returns the binary downloaded from the first repository whose probe and
    download both succeed; no repository after that one is probed or
    fetched.  This holds when the artifact URL of each repository up to that
    one can be formed. *)
Theorem download_binary_first_serving `{P : Platform} (w : World)
    (pre post : list string) (repo_url dependency g a v out : string)
    (cb : option callback_fn) (url : string -> string) :
  let path := local_path out g a v None in
  parse_dependency dependency = Ret (g, a, v) ->
  (forall r, In r (pre ++ [repo_url]) ->
   get_artifact_url r g a v None "jar" = Ret (url r)) ->
  (forall r, In r pre -> serves w (url r) path cb = false) ->
  serves w (url repo_url) path cb = true ->
  download_binary w (pre ++ repo_url :: post) dependency out cb
  = (Ret (Some path),
     flat_map (fun r => attempt w (url r) path cb) (pre ++ [repo_url])).
Proof.
  intros path Hp Hurl Hpre Hr. unfold download_binary.
  rewrite (parse_or_log_ok _ _ _ _ Hp). cbn [io_bind].
  rewrite download_binary_loop_generic.
  rewrite (download_loop_first w None g a v out cb pre post repo_url url
             Hurl Hpre Hr).
  cbn. now rewrite app_nil_r.
Qed.

Lemma download_binary_first_serving_witness :
  let url_a := "https://a.example/maven2/com/google/gson/gson/2.8.9/gson-2.8.9.jar" in
  let url_b := "https://b.example/maven2/com/google/gson/gson/2.8.9/gson-2.8.9.jar" in
  let path := "downloads/com/google/gson/gson/2.8.9/gson-2.8.9.jar" in
  download_binary (P := posix) flaky_world
    ([mirror_a] ++ mirror_b :: ["https://c.example/maven2/"])
    "com.google.gson:gson:2.8.9" "downloads" None
  = (Ret (Some path),
     [EvHead url_a; EvGet url_a; EvLog ERROR ("Failed to download " ++ url_a);
      EvHead url_b; EvGet url_b;
      EvMakedirs "downloads/com/google/gson/gson/2.8.9"; EvOpen path;
      EvWrite path "PK";
      EvLog INFO ("Downloaded: " ++ url_b ++ " -> " ++ path)]).
Proof.
  refine (download_binary_first_serving (P := posix) flaky_world [mirror_a]
            ["https://c.example/maven2/"] mirror_b "com.google.gson:gson:2.8.9"
            "com.google.gson" "gson" "2.8.9" "downloads" None
            (fun r => r ++ "com/google/gson/gson/2.8.9/gson-2.8.9.jar")
            eq_refl _ _ eq_refl).
  - intros r [<-|[<-|[]]]; reflexivity.
  - intros r [<-|[]]. reflexivity.
Defined.

(** ** The name of the decompiled archive *)

Lemma substring_all (b : string) : substring 0 (String.length b) b = b.
Proof. induction b as [|x b IH]; cbn; [reflexivity | now rewrite IH]. Qed.

Lemma substring_suffix (a b : string) :
  substring (String.length a) (String.length b) (a ++ b) = b.
Proof. induction a as [|x a IH]; cbn; [apply substring_all | exact IH]. Qed.

Lemma substring_prefix (a b : string) :
  substring 0 (String.length a) (a ++ b) = a.
Proof.
  induction a as [|x a IH]; cbn; [now destruct b | now rewrite IH].
Qed.

Lemma endswith_suffix (a b : string) : PyStr.endswith (a ++ b) b = true.
Proof.
  unfold PyStr.endswith. rewrite str_length_app.
  replace (String.length a + String.length b - String.length b)
    with (String.length a) by lia.
  rewrite substring_suffix, String.eqb_refl, andb_true_r.
  apply Nat.leb_le. lia.
Qed.

Lemma drop_last4_jar (stem : string) : drop_last4 (stem ++ ".jar") = stem.
Proof.
  unfold drop_last4. rewrite str_length_app. cbn [String.length].
  replace (String.length stem + 4 - 4) with (String.length stem) by lia.
  apply substring_prefix.
Qed.

(** X18.  The archive that [decompile_and_package] produces lies directly
    in the output directory, whatever the directory of the JAR: for a JAR
    named [stem.jar] it is [stem-sources.jar], and for a file whose name does
    not end in [.jar] the whole name followed by [-sources.jar]. *)
Theorem decompile_and_package_archive_name `{P : Platform}
    (env : DecompilerEnv) (self : JavaDecompiler) (jar_path out p : string)
    (cb : option decompile_callback) :
  decompile_and_package env self jar_path out cb = Ret (Some p) ->
  (forall stem, os_path_basename jar_path = stem ++ ".jar" ->
   p = os_path_join out [stem ++ "-sources.jar"])
  /\ (PyStr.endswith (os_path_basename jar_path) ".jar" = false ->
      p = os_path_join out [os_path_basename jar_path ++ "-sources.jar"]).
Proof.
  unfold decompile_and_package, with_temporary_directory.
  destruct (mkdtemp env) as [temp_dir|e]; cbn [bind]; [|discriminate].
  destruct (decompile_jar env self jar_path _ cb) as [[|]|e]; cbn [bind negb];
    try (destruct (cleanup env temp_dir); discriminate).
  match goal with
  | |- context [create_sources_jar env ?d ?o] =>
      destruct (create_sources_jar env d o) as [[|]|e]
  end; cbn [bind]; try (destruct (cleanup env temp_dir); discriminate).
  destruct (cleanup env temp_dir); [|discriminate]. cbn [bind].
  intros Heq. injection Heq as <-. split.
  - intros stem ->. now rewrite endswith_suffix, drop_last4_jar.
  - now intros ->.
Qed.

Lemma decompile_and_package_archive_name_witness :
  decompile_and_package (P := posix) working_env {| cfr_path := "/opt/cfr.jar" |}
    "downloads/com/google/gson/gson/2.8.9/gson-2.8.9.jar" "downloads" None
  = Ret (Some "downloads/gson-2.8.9-sources.jar")
  /\ "downloads/gson-2.8.9-sources.jar"
     = Posix.join "downloads" ["gson-2.8.9" ++ "-sources.jar"].
Proof.
  split; [reflexivity|].
  exact (proj1 (decompile_and_package_archive_name (P := posix) working_env
                  {| cfr_path := "/opt/cfr.jar" |}
                  "downloads/com/google/gson/gson/2.8.9/gson-2.8.9.jar"
                  "downloads" "downloads/gson-2.8.9-sources.jar" None eq_refl)
               "gson-2.8.9" eq_refl).
Defined.

(** ** Searching *)

Lemma search_result_of_object (doc : json) :
  is_object doc = true -> exists entry, search_result_of doc = Some entry.
Proof. destruct doc; try discriminate. intros _. now eexists. Qed.

Lemma search_result_of_other (doc : json) :
  is_object doc = false -> search_result_of doc = None.
Proof. destruct doc; try reflexivity. discriminate. Qed.

Lemma search_results_spec (docs : list json) (results : list search_result) :
  search_results docs results
  = if forallb is_object docs
    then Some (results ++ flat_map (fun doc => match search_result_of doc with
                                               | Some entry => [entry]
                                               | None => []
                                               end) docs)%list
    else None.
Proof.
  revert results. induction docs as [|doc rest IH]; intros results.
  - cbn. now rewrite app_nil_r.
  - cbn [search_results forallb flat_map]. destruct (is_object doc) eqn:Hd.
    + destruct (search_result_of_object doc Hd) as (entry & ->).
      rewrite IH. cbn [andb]. destruct (forallb is_object rest); [|reflexivity].
      now rewrite <- app_assoc.
    + now rewrite (search_result_of_other doc Hd).
Qed.

Lemma flat_map_entries_length (docs : list json) :
  forallb is_object docs = true ->
  length (flat_map (fun doc => match search_result_of doc with
                               | Some entry => [entry]
                               | None => []
                               end) docs) = length docs.
Proof.
  induction docs as [|doc rest IH]; [reflexivity|].
  cbn [forallb flat_map]. intros Hd. apply andb_true_iff in Hd as [Hd Hr].
  destruct (search_result_of_object doc Hd) as (entry & ->).
  cbn. now rewrite IH.
Qed.

(** X19.  [search_artifact] never raises.  When the answer carries a list
    of documents under [response.docs], the result has one entry per document,
    in order, provided every document is an object; a single document that is
    not an object makes the whole result empty, as does any failure of the
    request. *)
Theorem search_artifact_all_or_nothing
    (http_search : string -> Z -> search_outcome) (query : string)
    (max_results : Z) :
  (exists results t, search_artifact http_search query max_results = (Ret results, t))
  /\ (forall f, http_search query max_results = SearchRequestException f ->
      search_artifact http_search query max_results
      = (Ret [], [EvGet search_url; EvLog ERROR "Search failed"]))
  /\ (forall code data response docs,
      http_search query max_results = SearchResponse code (Some data) ->
      ~ (400 <= code < 600)%Z ->
      json_get "response" (JObject []) data = Some response ->
      json_get "docs" (JArray []) response = Some (JArray docs) ->
      (forallb is_object docs = true ->
       exists results,
         search_artifact http_search query max_results
         = (Ret results, [EvGet search_url])
         /\ length results = length docs
         /\ results = flat_map (fun doc => match search_result_of doc with
                                           | Some entry => [entry]
                                           | None => []
                                           end) docs)
      /\ (forallb is_object docs = false ->
          search_artifact http_search query max_results
          = (Ret [], [EvGet search_url; EvLog ERROR "Search failed"]))).
Proof.
  unfold search_artifact. split; [|split].
  - destruct (search_body (http_search query max_results)); now eexists _, _.
  - now intros f ->.
  - intros code data response docs -> Hcode Hr Hd.
    cbn [search_body].
    assert (Hc : ((400 <=? code) && (code <? 600))%Z = false).
    { apply not_true_is_false. intros Hc. apply andb_true_iff in Hc as [H1 H2].
      apply Hcode. split; [now apply Z.leb_le | now apply Z.ltb_lt]. }
    rewrite Hc, Hr, Hd. cbn [json_iter]. rewrite search_results_spec. split.
    + intros Hall. rewrite Hall. eexists. split; [reflexivity|].
      split; [now apply flat_map_entries_length | reflexivity].
    + now intros ->.
Qed.

Lemma search_artifact_all_or_nothing_witness :
  let docs := [JObject [("g", JString "com.google.code.gson"); ("a", JString "gson");
                        ("latestVersion", JString "2.10.1")];
               JObject [("g", JString "org.example")]] in
  let http_search := fun (_ : string) (_ : Z) =>
                       SearchResponse 200 (Some (search_answer docs)) in
  exists results,
    search_artifact http_search "gson" 10 = (Ret results, [EvGet search_url])
    /\ length results = 2
    /\ results
       = [{| result_group := JString "com.google.code.gson";
             result_artifact := JString "gson";
             result_version := JString "2.10.1";
             result_description := JString "" |};
          {| result_group := JString "org.example";
             result_artifact := JString "";
             result_version := JString "";
             result_description := JString "" |}].
Proof.
  intros docs http_search.
  refine (proj1 (proj2 (proj2 (search_artifact_all_or_nothing http_search "gson" 10))
                   200%Z (search_answer docs) _ docs eq_refl _ eq_refl eq_refl)
                eq_refl).
  lia.
Defined.

Example search_artifact_discards_all :
  search_artifact
    (fun _ _ => SearchResponse 200
                  (Some (search_answer [JObject [("g", JString "org.example")];
                                        JString "oops"])))
    "gson" 10
  = (Ret [], [EvGet search_url; EvLog ERROR "Search failed"]).
Proof. reflexivity. Qed.

(** ** Download statistics *)

Lemma count_file_invariant (stats : download_stats) (file : string) (size : Z) :
  total_files stats = jar_files stats + pom_files stats + other_files stats ->
  source_jars stats + javadoc_jars stats <= jar_files stats ->
  let stats' := count_file stats file size in
  total_files stats' = S (total_files stats)
  /\ total_files stats' = jar_files stats' + pom_files stats' + other_files stats'
  /\ source_jars stats' + javadoc_jars stats' <= jar_files stats'
  /\ total_size stats' = (total_size stats + size)%Z.
Proof.
  intros Ht Hs. unfold count_file.
  destruct (PyStr.endswith file ".jar").
  - destruct (str_in "-sources.jar" file); [cbn; lia|].
    destruct (str_in "-javadoc.jar" file); cbn; lia.
  - destruct (PyStr.endswith file ".pom"); cbn; lia.
Qed.

Lemma count_files_invariant (files : list (string * Z)) (stats : download_stats) :
  total_files stats = jar_files stats + pom_files stats + other_files stats ->
  source_jars stats + javadoc_jars stats <= jar_files stats ->
  let stats' := fold_left (fun st file => count_file st (fst file) (snd file))
                          files stats in
  total_files stats' = total_files stats + length files
  /\ total_files stats' = jar_files stats' + pom_files stats' + other_files stats'
  /\ source_jars stats' + javadoc_jars stats' <= jar_files stats'
  /\ total_size stats' = (total_size stats + fold_right Z.add 0 (map snd files))%Z.
Proof.
  revert stats. induction files as [|[file size] rest IH]; intros stats Ht Hs.
  - cbn. repeat split; lia.
  - cbn [fold_left fst snd length map fold_right].
    destruct (count_file_invariant stats file size Ht Hs) as (H1 & H2 & H3 & H4).
    destruct (IH (count_file stats file size) H2 H3) as (I1 & I2 & I3 & I4).
    cbn zeta in *. repeat split; lia.
Qed.

(** X20.  The counters of [get_download_stats] are consistent: every file
    is counted once, as a JAR, a POM or another file; source and Javadoc
    JARs are counted among the JARs and never both for one file; and the size
    is the sum of the file sizes. *)
Theorem get_download_stats_consistent (files : list (string * Z))
    (stats : download_stats) :
  get_download_stats (Some files) = Some stats ->
  total_files stats = length files
  /\ total_files stats = jar_files stats + pom_files stats + other_files stats
  /\ source_jars stats + javadoc_jars stats <= jar_files stats
  /\ total_size stats = fold_right Z.add 0%Z (map snd files).
Proof.
  unfold get_download_stats. intros Heq. injection Heq as <-.
  destruct (count_files_invariant files empty_stats eq_refl (le_n 0))
    as (H1 & H2 & H3 & H4).
  cbn zeta in *. cbn in H1, H4. repeat split; [lia | exact H2 | exact H3 | lia].
Qed.

Lemma get_download_stats_consistent_witness :
  get_download_stats
    (Some [("gson-2.8.9.jar", 240%Z); ("gson-2.8.9-sources.jar", 150%Z);
           ("gson-2.8.9-javadoc.jar", 300%Z); ("gson-2.8.9.pom", 4%Z);
           ("README", 1%Z)])
  = Some {| total_files := 5; jar_files := 3; source_jars := 1; javadoc_jars := 1;
            pom_files := 1; other_files := 1; total_size := 695%Z |}
  /\ 5 = 3 + 1 + 1.
Proof.
  split; [reflexivity|].
  exact (proj1 (proj2 (get_download_stats_consistent
                         [("gson-2.8.9.jar", 240%Z); ("gson-2.8.9-sources.jar", 150%Z);
                          ("gson-2.8.9-javadoc.jar", 300%Z); ("gson-2.8.9.pom", 4%Z);
                          ("README", 1%Z)]
                         _ eq_refl))).
Defined.

(** ** The tools built on the core *)

Lemma validated_parses (s : string) :
  validate_dependency_format s = true ->
  exists g a v, parse_dependency s = Ret (g, a, v).
Proof.
  rewrite validate_dependency_format_split, parse_dependency_split.
  destruct (PyStr.split ":" s) as [|p1 [|p2 [|p3 [|p4 r]]]]; try discriminate.
  - intros Hv. apply andb_true_iff in Hv as [Hd _]. rewrite Hd.
    destruct (split_last_dot p1 Hd) as (a & -> & _). now eexists _, _, _.
  - intros _. now eexists _, _, _.
Qed.

Lemma get_repository_urls_loop_total (names : list string) (cfg : ConfigManager)
    (urls : list string) :
  exists urls' t,
    get_repository_urls_loop names cfg urls = (Ret urls', t)
    /\ Forall (fun e => is_request e = false /\ touches_disk e = false) t.
Proof.
  revert urls. induction names as [|name rest IH]; intros urls.
  - exists urls, []. now split.
  - cbn [get_repository_urls_loop].
    destruct (get_repository_url name cfg) as [url|].
    + destruct (PyStr.nonempty url); [apply IH|].
      destruct (IH urls) as (urls' & t & -> & Ht).
      eexists _, _. split; [reflexivity|]. constructor; [now split | exact Ht].
    + destruct (IH urls) as (urls' & t & -> & Ht).
      eexists _, _. split; [reflexivity|]. constructor; [now split | exact Ht].
Qed.

Lemma RepositoryManager_init_total (cfg : ConfigManager)
    (repositories repository_names : option (list string)) :
  exists repos t,
    RepositoryManager_init cfg repositories repository_names = (Ret repos, t)
    /\ Forall (fun e => is_request e = false /\ touches_disk e = false) t.
Proof.
  unfold RepositoryManager_init, get_repository_urls.
  destruct repositories as [[|r rs]|]; try (eexists _, _; split; [reflexivity|constructor]);
    destruct repository_names as [[|n ns]|];
    try (eexists _, _; split; [reflexivity|constructor]);
    apply get_repository_urls_loop_total.
Qed.

Lemma reported_cases (r : option string) (p : string) :
  In p (reported r) -> r = Some p.
Proof.
  unfold reported, found_path. destruct r as [q|]; [|intros []].
  destruct (PyStr.nonempty q); [|intros []]. intros [<-|[]]. reflexivity.
Qed.

(** X21.  The MCP tool [download_artifact] rejects an invalid artifact
    string with a ValueError before anything happens: no directory is created
    and no request is issued.  For a valid one, once the output directory
    exists and when the downloads return, the files it reports are exactly
    the sources archive, if it was asked for and found, followed by the
    binary, if found, each at the predicted path of the coordinate under the
    output directory.  An exception of a download, which is the one of
    [urljoin], is not caught: the tool ends with it after the directory was
    made. *)
Theorem mcp_download_artifact_files `{P : Platform} (w : World)
    (cfg : ConfigManager) (artifact : string)
    (repo_names repositories : option (list string)) (output_dir : option string)
    (include_sources include_javadoc : bool) :
  truthy repo_names && truthy repositories = false ->
  let out := match output_dir with
             | None => "./downloads"
             | Some d => d
             end in
  let sources repos :=
    if include_sources then download_sources w repos artifact out None
    else (Ret None, []) in
  (validate_dependency_format artifact = false ->
   Mcp.download_artifact w cfg artifact repo_names repositories output_dir
     include_sources include_javadoc
   = (Raise (ValueError ("Invalid artifact format: " ++ artifact)), []))
  /\ (validate_dependency_format artifact = true ->
      fs_makedirs w out = true ->
      forall repos tm,
        Mcp.repository_manager cfg repo_names repositories = (Ret repos, tm) ->
        (forall rs ts rb tb,
           sources repos = (Ret rs, ts) ->
           download_binary w repos artifact out None = (Ret rb, tb) ->
           Mcp.download_artifact w cfg artifact repo_names repositories output_dir
             include_sources include_javadoc
           = (Ret {| Mcp.artifact := artifact;
                     Mcp.files := (reported rs ++ reported rb)%list;
                     Mcp.download_path := out |},
              (EvMakedirs out :: tm ++ ts ++ tb)%list)
           /\ exists g a v,
                parse_dependency artifact = Ret (g, a, v)
                /\ (forall p, In p (reported rs) ->
                    include_sources = true
                    /\ p = local_path out g a v (Some "sources"))
                /\ (forall p, In p (reported rb) -> p = local_path out g a v None))
        /\ (forall e ts,
            sources repos = (Raise e, ts) ->
            Mcp.download_artifact w cfg artifact repo_names repositories output_dir
              include_sources include_javadoc
            = (Raise e, (EvMakedirs out :: tm ++ ts)%list))
        /\ (forall rs ts e tb,
            sources repos = (Ret rs, ts) ->
            download_binary w repos artifact out None = (Raise e, tb) ->
            Mcp.download_artifact w cfg artifact repo_names repositories output_dir
              include_sources include_javadoc
            = (Raise e, (EvMakedirs out :: tm ++ ts ++ tb)%list))).
Proof.
  intros Hsel out sources. unfold Mcp.download_artifact. rewrite Hsel. split.
  - now intros ->.
  - intros Hv Hmk repos tm Hm. rewrite Hv. cbn [negb]. fold out.
    unfold os_makedirs, emit. rewrite Hmk. cbn [io_bind io_ret]. rewrite Hm.
    cbn [io_bind app]. split; [|split].
    + intros rs ts rb tb Hs Hb. split.
      * unfold sources in Hs. destruct include_sources.
        -- rewrite Hs. cbn [io_bind io_ret]. rewrite Hb. cbn [io_bind io_ret].
           unfold reported. rewrite !app_nil_r.
           destruct (found_path rs), (found_path rb); reflexivity.
        -- injection Hs as <- <-. cbn [io_bind io_ret]. rewrite Hb.
           cbn [io_bind io_ret]. unfold reported. cbn [found_path app].
           rewrite !app_nil_r. destruct (found_path rb); reflexivity.
      * destruct (validated_parses artifact Hv) as (g & a & v & Hp).
        exists g, a, v. split; [exact Hp|]. split.
        -- intros p Hin. apply reported_cases in Hin. subst rs.
           unfold sources in Hs. destruct include_sources; [|discriminate].
           split; [reflexivity|].
           destruct (proj1 (download_returns_local_path w repos artifact out None p ts) Hs)
             as (g' & a' & v' & Hp' & Hpath & _).
           rewrite Hp in Hp'. now injection Hp' as <- <- <-.
        -- intros p Hin. apply reported_cases in Hin. subst rb.
           destruct (proj2 (download_returns_local_path w repos artifact out None p tb) Hb)
             as (g' & a' & v' & Hp' & Hpath & _).
           rewrite Hp in Hp'. now injection Hp' as <- <- <-.
    + intros e ts Hs. unfold sources in Hs.
      destruct include_sources; [|discriminate]. now rewrite Hs.
    + intros rs ts e tb Hs Hb. unfold sources in Hs. destruct include_sources.
      * rewrite Hs. cbn [io_bind io_ret]. rewrite Hb. now rewrite app_nil_r.
      * injection Hs as <- <-. cbn [io_bind io_ret]. now rewrite Hb.
Qed.

Lemma mcp_download_artifact_files_witness :
  let sources_url := "https://a.example/maven2/com/google/gson/gson/2.8.9/gson-2.8.9-sources.jar" in
  let binary_url := "https://a.example/maven2/com/google/gson/gson/2.8.9/gson-2.8.9.jar" in
  let sources_path := "downloads/com/google/gson/gson/2.8.9/gson-2.8.9-sources.jar" in
  let binary_path := "downloads/com/google/gson/gson/2.8.9/gson-2.8.9.jar" in
  validate_dependency_format "com.google.gson:gson:2.8.9" = true
  /\ Mcp.download_artifact (P := posix) healthy_world (_load_config FileMissing)
       "com.google.gson:gson:2.8.9" None (Some [mirror_a]) (Some "downloads")
       true true
     = (Ret {| Mcp.artifact := "com.google.gson:gson:2.8.9";
               Mcp.files := [sources_path; binary_path];
               Mcp.download_path := "downloads" |},
        [EvMakedirs "downloads";
         EvHead sources_url; EvGet sources_url;
         EvMakedirs "downloads/com/google/gson/gson/2.8.9"; EvOpen sources_path;
         EvWrite sources_path "PK";
         EvLog INFO ("Downloaded: " ++ sources_url ++ " -> " ++ sources_path);
         EvHead binary_url; EvGet binary_url;
         EvMakedirs "downloads/com/google/gson/gson/2.8.9"; EvOpen binary_path;
         EvWrite binary_path "PK";
         EvLog INFO ("Downloaded: " ++ binary_url ++ " -> " ++ binary_path)]).
Proof.
  intros sources_url binary_url sources_path binary_path.
  split; [reflexivity|].
  exact (proj1 (proj1 (proj2 (mcp_download_artifact_files (P := posix) healthy_world
                         (_load_config FileMissing) "com.google.gson:gson:2.8.9" None
                         (Some [mirror_a]) (Some "downloads") true true eq_refl)
                      eq_refl eq_refl [mirror_a] [] eq_refl)
                  (Some sources_path) _ (Some binary_path) _ eq_refl eq_refl)).
Defined.

Section McpCheckFacts.
Context `{P : Platform}.
Variable w : World.
Variable cfg : ConfigManager.

Lemma check_loop_spec (repo_urls : pydict) (g a v : string)
    (binary_url : string -> string) (results : list Mcp.availability) :
  (forall entry, In entry repo_urls ->
   get_artifact_url (snd entry) g a v None "jar" = Ret (binary_url (snd entry))) ->
  Mcp.check_loop w repo_urls g a v results
  = (Ret (results
          ++ map (fun entry =>
                    {| Mcp.repository_name := fst entry;
                       Mcp.repository_url := snd entry;
                       Mcp.available := hosts w (binary_url (snd entry)) |})
                 repo_urls)%list,
     map (fun entry => EvHead (binary_url (snd entry))) repo_urls).
Proof.
  revert results. induction repo_urls as [|[name url] rest IH]; intros results Hurl.
  - cbn. now rewrite app_nil_r.
  - cbn [Mcp.check_loop map fst snd].
    pose proof (Hurl (name, url) (or_introl eq_refl)) as Hu. cbn [snd] in Hu.
    rewrite Hu, io_bind_lift_ret.
    rewrite check_artifact_exists_eq. cbn [io_bind fst snd].
    rewrite IH by (intros entry Hin; apply Hurl; now right).
    cbn. now rewrite <- app_assoc.
Qed.

(** At a repository whose artifact URL cannot be formed, the loop ends with
    the exception of [urljoin]. *)
Lemma check_loop_raise (name url : string) (rest : pydict) (g a v : string)
    (e : exn) (results : list Mcp.availability) :
  get_artifact_url url g a v None "jar" = Raise e ->
  Mcp.check_loop w ((name, url) :: rest) g a v results = (Raise e, []).
Proof. intros Hu. cbn [Mcp.check_loop]. now rewrite Hu. Qed.

End McpCheckFacts.

Lemma available_names (w : World) (url_of : string * string -> string)
    (selected : pydict) :
  map Mcp.repository_name
      (filter Mcp.available
         (map (fun entry => {| Mcp.repository_name := fst entry;
                               Mcp.repository_url := snd entry;
                               Mcp.available := hosts w (url_of entry) |})
              selected))
  = map fst (filter (fun entry => hosts w (url_of entry)) selected).
Proof.
  induction selected as [|entry rest IH]; [reflexivity|].
  cbn [map filter Mcp.available]. destruct (hosts w (url_of entry)); cbn;
    now rewrite IH.
Qed.

(** X22.  For an artifact string that passes validation, the parse-error
    branch of the MCP tool [check_artifact_exists] cannot be reached.  When
    the binary URL of every selected configured repository can be formed, the
    tool returns: it probes that URL for every selected repository exactly
    once, in configuration order and without stopping at the first hit, and
    [available_in] lists exactly the selected repositories whose probe
    passed, in that order.  Names that are not configured are not probed. *)
Theorem mcp_check_artifact_exists_report `{P : Platform} (w : World)
    (cfg : ConfigManager) (artifact : string) (repo_names : option (list string))
    (binary_url : string -> string) :
  validate_dependency_format artifact = true ->
  exists g a v,
    parse_dependency artifact = Ret (g, a, v)
    /\ let selected := Mcp.selected_repositories cfg repo_names in
       (forall entry, In entry selected ->
        get_artifact_url (snd entry) g a v None "jar"
        = Ret (binary_url (snd entry))) ->
       exists report,
         Mcp.check_artifact_exists w cfg artifact repo_names
         = (Ret report,
            (snd (Mcp.repository_manager cfg repo_names None)
             ++ map (fun entry => EvHead (binary_url (snd entry))) selected)%list)
         /\ map Mcp.repository_name (Mcp.repositories report) = map fst selected
         /\ Mcp.available_in report
            = map fst (filter (fun entry => hosts w (binary_url (snd entry)))
                              selected).
Proof.
  intros Hv. destruct (validated_parses artifact Hv) as (g & a & v & Hp).
  exists g, a, v. split; [exact Hp|]. intros selected Hurl.
  unfold Mcp.check_artifact_exists. rewrite Hv, Hp.
  cbn [negb RepositoryManager_init get_repository_urls io_bind io_ret app].
  assert (Hmgr : exists repos t,
            Mcp.repository_manager cfg repo_names None = (Ret repos, t)).
  { unfold Mcp.repository_manager. destruct (truthy repo_names); cbn [truthy];
      match goal with
      | |- context [RepositoryManager_init cfg ?x ?y] =>
          destruct (RepositoryManager_init_total cfg x y) as (repos & t & -> & _)
      end; now eexists _, _. }
  destruct Hmgr as (repos & tm & ->). cbn [io_bind snd].
  fold selected. rewrite (check_loop_spec w selected g a v binary_url [] Hurl).
  cbn [io_bind io_ret app].
  eexists. split; [now rewrite app_nil_r|].
  cbn [Mcp.repositories Mcp.available_in]. split.
  - rewrite map_map. reflexivity.
  - apply (available_names w (fun entry => binary_url (snd entry))).
Qed.

Lemma mcp_check_artifact_exists_report_witness :
  validate_dependency_format "com.google.gson:gson:2.8.9" = true
  /\ Mcp.check_artifact_exists (P := posix) healthy_world
       (_load_config FileMissing) "com.google.gson:gson:2.8.9"
       (Some ["jcenter"; "nowhere"; "maven-central"])
     = (Ret {| Mcp.checked_artifact := "com.google.gson:gson:2.8.9";
               Mcp.repositories :=
                 [{| Mcp.repository_name := "maven-central";
                     Mcp.repository_url := "https://repo1.maven.org/maven2/";
                     Mcp.available := true |};
                  {| Mcp.repository_name := "jcenter";
                     Mcp.repository_url := "https://jcenter.bintray.com/";
                     Mcp.available := true |}];
               Mcp.available_in := ["maven-central"; "jcenter"] |},
        [EvLog WARNING "Repository not found: nowhere";
         EvHead "https://repo1.maven.org/maven2/com/google/gson/gson/2.8.9/gson-2.8.9.jar";
         EvHead "https://jcenter.bintray.com/com/google/gson/gson/2.8.9/gson-2.8.9.jar"])
  /\ let selected :=
       Mcp.selected_repositories (_load_config FileMissing)
         (Some ["jcenter"; "nowhere"; "maven-central"]) in
     let binary_url := fun r => r ++ "com/google/gson/gson/2.8.9/gson-2.8.9.jar" in
     (forall entry, In entry selected ->
      get_artifact_url (P := posix) (snd entry) "com.google.gson" "gson" "2.8.9"
        None "jar"
      = Ret (binary_url (snd entry)))
     /\ exists report,
          Mcp.check_artifact_exists (P := posix) healthy_world
            (_load_config FileMissing) "com.google.gson:gson:2.8.9"
            (Some ["jcenter"; "nowhere"; "maven-central"])
          = (Ret report,
             (snd (Mcp.repository_manager (_load_config FileMissing)
                     (Some ["jcenter"; "nowhere"; "maven-central"]) None)
              ++ map (fun entry => EvHead (binary_url (snd entry))) selected)%list)
          /\ map Mcp.repository_name (Mcp.repositories report) = map fst selected
          /\ Mcp.available_in report
             = map fst (filter (fun entry => hosts healthy_world
                                               (binary_url (snd entry)))
                               selected).
Proof.
  split; [reflexivity|]. split; [reflexivity|].
  intros selected binary_url.
  assert (Hurl : forall entry, In entry selected ->
            get_artifact_url (P := posix) (snd entry) "com.google.gson" "gson"
              "2.8.9" None "jar"
            = Ret (binary_url (snd entry)))
    by (intros entry [<-|[<-|[]]]; reflexivity).
  split; [exact Hurl|].
  destruct (mcp_check_artifact_exists_report (P := posix) healthy_world
              (_load_config FileMissing) "com.google.gson:gson:2.8.9"
              (Some ["jcenter"; "nowhere"; "maven-central"]) binary_url eq_refl)
    as (g & a & v & Hp & Hreport).
  cbn in Hp. injection Hp as <- <- <-.
  exact (Hreport Hurl).
Defined.

(** With a coordinate that [urljoin] rejects, the tool ends with the
    [ValueError] of [urljoin], before the first probe. *)
Example mcp_check_artifact_exists_raises :
  validate_dependency_format ".:[" = true
  /\ Mcp.check_artifact_exists (P := posix) healthy_world
       (_load_config FileMissing) ".:[" None
     = (Raise (ValueError "Invalid IPv6 URL"), []).
Proof. split; reflexivity. Qed.



(** ** The [download] command *)

Section CliFacts.
Context `{P : Platform}.
Variable w : World.
Variable cfg : ConfigManager.
Variable list_command : list string -> Z.

(** X24.  Without repository options, when the sources archive is
    downloaded from the configured repositories, the [download] command
    finishes with its path and does nothing more: no binary is requested, and
    the outcome is the same whatever the decompiler environment is, so
    neither Java nor the decompiler is touched. *)
Theorem cli_download_sources_found (env : DecompilerEnv)
    (dependency output_dir : string) (decompile sources_only : bool)
    (progress_tracker binary_progress : option callback_fn)
    (decompile_progress : option decompile_callback)
    (t : list event) (p : string) :
  validate_dependency_format dependency = true ->
  download_sources w (dict_values (config cfg)) dependency output_dir
    progress_tracker
  = (Ret (Some p), t) ->
  p <> "" ->
  Cli.download w env cfg list_command dependency output_dir [] []
    decompile sources_only false progress_tracker binary_progress
    decompile_progress
  = (Ret (Cli.Finished p), t).
Proof.
  intros Hv Hs Hp. unfold Cli.download.
  rewrite Hv, andb_false_r. cbn [negb].
  cbn [Cli.repository_manager RepositoryManager_init get_repository_urls
       io_bind io_ret app].
  rewrite Hs. cbn [io_bind found_path].
  apply nonempty_true_iff in Hp. rewrite Hp. cbn. now rewrite app_nil_r.
Qed.

(** X25.  Without repository options and with [--sources-only], when no
    sources archive is found in the configured repositories the [download]
    command exits with status 1 after the sources attempts: no binary is
    requested and nothing is decompiled. *)
Theorem cli_download_sources_only (env : DecompilerEnv)
    (dependency output_dir : string) (decompile : bool)
    (progress_tracker binary_progress : option callback_fn)
    (decompile_progress : option decompile_callback)
    (t : list event) :
  validate_dependency_format dependency = true ->
  download_sources w (dict_values (config cfg)) dependency output_dir
    progress_tracker
  = (Ret None, t) ->
  Cli.download w env cfg list_command dependency output_dir [] []
    decompile true false progress_tracker binary_progress decompile_progress
  = (Ret (Cli.Exit 1), t).
Proof.
  intros Hv Hs. unfold Cli.download.
  rewrite Hv. cbn [negb andb].
  cbn [Cli.repository_manager RepositoryManager_init get_repository_urls
       io_bind io_ret app].
  rewrite Hs. cbn. now rewrite app_nil_r.
Qed.


End CliFacts.

Lemma cli_download_sources_found_witness :
  let url := "https://repo1.maven.org/maven2/com/google/gson/gson/2.8.9/gson-2.8.9-sources.jar" in
  let path := "downloads/com/google/gson/gson/2.8.9/gson-2.8.9-sources.jar" in
  Cli.download (P := posix) healthy_world no_cfr_env (_load_config FileMissing)
    (fun _ => 2%Z) "com.google.gson:gson:2.8.9" "downloads" [] [] false false false
    None None None
  = (Ret (Cli.Finished path),
     [EvHead url; EvGet url;
      EvMakedirs "downloads/com/google/gson/gson/2.8.9"; EvOpen path;
      EvWrite path "PK";
      EvLog INFO ("Downloaded: " ++ url ++ " -> " ++ path)]).
Proof.
  refine (cli_download_sources_found (P := posix) healthy_world
            (_load_config FileMissing) (fun _ => 2%Z) no_cfr_env
            "com.google.gson:gson:2.8.9" "downloads" false false None None None
            _ _ eq_refl eq_refl _).
  discriminate.
Defined.

Lemma cli_download_sources_only_witness :
  Cli.download (P := posix) offline_world working_env (_load_config FileMissing)
    (fun _ => 2%Z) "com.google.gson:gson:2.8.9" "downloads" [] [] false true false
    None None None
  = (Ret (Cli.Exit 1),
     [EvHead "https://repo1.maven.org/maven2/com/google/gson/gson/2.8.9/gson-2.8.9-sources.jar";
      EvHead "https://repo.maven.apache.org/maven2/com/google/gson/gson/2.8.9/gson-2.8.9-sources.jar";
      EvHead "https://jcenter.bintray.com/com/google/gson/gson/2.8.9/gson-2.8.9-sources.jar";
      EvLog WARNING "Sources JAR not found for com.google.gson:gson:2.8.9"]).
Proof.
  exact (cli_download_sources_only (P := posix) offline_world
           (_load_config FileMissing) (fun _ => 2%Z) working_env
           "com.google.gson:gson:2.8.9" "downloads" false None None None
           _ eq_refl eq_refl).
Defined.

